(** * HARCOURT_UNIVERSITY: the payment and wallet ledger

    A shallow embedding of [payments/models.py] and [payments/views.py]:
    the Django tables are finite maps, a view or model method is a function
    from the database to a result and the database it leaves behind, and a
    Python exception is an explicit [Raise].

    Conventions of the embedding.
    - A [DecimalField(max_digits=10, decimal_places=2)] value is the integer
      number of hundredths it denotes (GHS 70.00 is [7000]); [Decimal]
      addition, subtraction and comparison are exact, so they are those of
      [Z].
    - A timestamp is a number of seconds; [timedelta(days=n)] is [n * 86400].
      Every [timezone.now()] call site is an explicit argument.
    - A table is keyed by its primary key, or, for a one-to-one relation, by
      the key of the related row ([Wallet] and [TutorProfile] by user,
      [TutorSubscription] by tutor, [Refund] by payment).
    - Columns that no view reads or writes ([created_at], [updated_at],
      [resource], [video], [paystack_reference], ...) are left out.
    - What is not a column value has a type of its own: the amount a
      client posts, with the decimal places it was typed with
      ([posted_decimal], brought to hundredths by [quantize] when it is
      stored); the [payment_id] of a gateway event, which need not be the
      text of a UUID ([posted_uuid]); and the wallet object that
      [get_or_create] builds from the field defaults, whose balance is a
      float and not a [Decimal] ([wallet_object]). *)

From Stdlib Require Import Ascii String DecimalString.
From stdpp Require Import gmap strings list.

Local Open Scope Z_scope.
Local Open Scope string_scope.

(** ** Identifiers *)

(** [UUIDField] primary key of a payment: the 128-bit value. *)
Abbreviation uuid := N (only parsing).
(** Integer primary keys ([CustomUser], [TutoringSession]). *)
Abbreviation user_id := Z (only parsing).
Abbreviation session_id := Z (only parsing).

Definition days (n : Z) : Z := n * 86400.

(** ** payments/models.py and the rows of the neighbouring apps *)

(** The text under ['payment_id'] in the metadata of an intent.
    [Payment.objects.get(id=...)] hands it to [UUIDField], which reads it
    with [uuid.UUID]: either the text denotes an identifier, as the
    [str(payment.id)] the views put there does, or [UUIDField] refuses it
    with [ValidationError]. *)
Inductive posted_uuid :=
| well_formed (id : uuid)
| malformed (text : string).

(** The [payment_intent] object of a Stripe event, as far as the views look
    into it: [payment_intent['metadata'].get('payment_id')], [None] when the
    key is absent. *)
Record payment_intent := {
  intent_id : string;
  metadata_payment_id : option posted_uuid
}.

Module Payment.
Inductive payment_type_choice :=
  session_type | subscription | resource | video | package | wallet_topup.

Inductive status_choice :=
  pending | processing | completed | failed | cancelled | refunded
| partially_refunded.

(** The JSON [metadata] column, with the keys the views write. A key that
    is [None] is absent from the dictionary. *)
Record metadata_dict := {
  plan : option string;
  months : option Z;
  phone_number : option (option string)
}.

Record t := {
  user : user_id;
  payment_type : payment_type_choice;
  amount : Z;
  currency : string;
  payment_method : string;
  status : status_choice;
  session : option session_id;
  stripe_payment_intent_id : string;
  gateway_response : option payment_intent;
  description : string;
  metadata : option metadata_dict;
  completed_at : option Z
}.

Definition set_status (s : status_choice) (p : t) : t :=
  {| user := user p; payment_type := payment_type p; amount := amount p;
     currency := currency p; payment_method := payment_method p;
     status := s; session := session p;
     stripe_payment_intent_id := stripe_payment_intent_id p;
     gateway_response := gateway_response p;
     description := description p; metadata := metadata p;
     completed_at := completed_at p |}.

Definition set_completed_at (c : option Z) (p : t) : t :=
  {| user := user p; payment_type := payment_type p; amount := amount p;
     currency := currency p; payment_method := payment_method p;
     status := status p; session := session p;
     stripe_payment_intent_id := stripe_payment_intent_id p;
     gateway_response := gateway_response p;
     description := description p; metadata := metadata p;
     completed_at := c |}.

Definition set_gateway_response (g : option payment_intent) (p : t) : t :=
  {| user := user p; payment_type := payment_type p; amount := amount p;
     currency := currency p; payment_method := payment_method p;
     status := status p; session := session p;
     stripe_payment_intent_id := stripe_payment_intent_id p;
     gateway_response := g;
     description := description p; metadata := metadata p;
     completed_at := completed_at p |}.

Definition set_stripe_payment_intent_id (i : string) (p : t) : t :=
  {| user := user p; payment_type := payment_type p; amount := amount p;
     currency := currency p; payment_method := payment_method p;
     status := status p; session := session p;
     stripe_payment_intent_id := i;
     gateway_response := gateway_response p;
     description := description p; metadata := metadata p;
     completed_at := completed_at p |}.

Definition set_metadata (m : option metadata_dict) (p : t) : t :=
  {| user := user p; payment_type := payment_type p; amount := amount p;
     currency := currency p; payment_method := payment_method p;
     status := status p; session := session p;
     stripe_payment_intent_id := stripe_payment_intent_id p;
     gateway_response := gateway_response p;
     description := description p; metadata := m;
     completed_at := completed_at p |}.

Definition status_eqb (a b : status_choice) : bool :=
  match a, b with
  | pending, pending | processing, processing | completed, completed
  | failed, failed | cancelled, cancelled | refunded, refunded
  | partially_refunded, partially_refunded => true
  | _, _ => false
  end.

(** [is_successful] *)
Definition is_successful (p : t) : bool :=
  status_eqb (status p) completed.
End Payment.

Module TutorSubscription.
Inductive status_choice := active | expired | cancelled | suspended.

Record t := {
  plan : string;
  start_date : Z;
  end_date : Z;
  amount_paid : Z;
  status : status_choice;
  payment : option uuid
}.
End TutorSubscription.

Module Refund.
Inductive status_choice :=
  requested | under_review | approved | rejected | processed.

Record t := {
  reason : string;
  reason_detail : string;
  amount : Z;
  status : status_choice
}.
End Refund.

Module WalletTransaction.
Inductive transaction_type_choice := credit | debit.

Record t := {
  wallet : user_id;
  transaction_type : transaction_type_choice;
  amount : Z;
  description : string;
  balance_after : Z
}.
End WalletTransaction.

(** A wallet row carries its key [user], because its methods save [self]. *)
Record Wallet := {
  user : user_id;
  balance : Z;
  is_active : bool
}.

(** tutoring/models.py *)
Module TutoringSession.
Inductive status_choice :=
  scheduled | confirmed | in_progress | completed | cancelled | no_show
| rescheduled.

Record t := {
  student : user_id;
  title : string;
  duration : Z;
  rate : Z;
  total_amount : Z;
  status : status_choice
}.

Definition set_status (s : status_choice) (x : t) : t :=
  {| student := student x; title := title x; duration := duration x;
     rate := rate x; total_amount := total_amount x; status := s |}.
End TutoringSession.

(** accounts/models.py *)
Module TutorProfile.
Record t := {
  subscription_active : bool;
  subscription_expiry : option Z
}.
End TutorProfile.

Module CustomUser.
Record t := {
  id : user_id;
  user_type : string
}.

Definition is_tutor (self : t) : bool := (user_type self =? "tutor")%string.
End CustomUser.

(** ** The database *)

Record DB := {
  payments : gmap uuid Payment.t;
  sessions : gmap session_id TutoringSession.t;
  wallets : gmap user_id Wallet;
  wallet_transactions : list WalletTransaction.t;
  subscriptions : gmap user_id TutorSubscription.t;
  tutor_profiles : gmap user_id TutorProfile.t;
  refunds : gmap uuid Refund.t
}.

Definition with_payments (f : gmap uuid Payment.t -> gmap uuid Payment.t)
    (db : DB) : DB :=
  {| payments := f (payments db); sessions := sessions db;
     wallets := wallets db; wallet_transactions := wallet_transactions db;
     subscriptions := subscriptions db; tutor_profiles := tutor_profiles db;
     refunds := refunds db |}.

Definition with_wallets (f : gmap user_id Wallet -> gmap user_id Wallet)
    (db : DB) : DB :=
  {| payments := payments db; sessions := sessions db;
     wallets := f (wallets db); wallet_transactions := wallet_transactions db;
     subscriptions := subscriptions db; tutor_profiles := tutor_profiles db;
     refunds := refunds db |}.

Definition with_wallet_transactions
    (f : list WalletTransaction.t -> list WalletTransaction.t)
    (db : DB) : DB :=
  {| payments := payments db; sessions := sessions db;
     wallets := wallets db; wallet_transactions := f (wallet_transactions db);
     subscriptions := subscriptions db; tutor_profiles := tutor_profiles db;
     refunds := refunds db |}.

Definition with_subscriptions
    (f : gmap user_id TutorSubscription.t -> gmap user_id TutorSubscription.t)
    (db : DB) : DB :=
  {| payments := payments db; sessions := sessions db;
     wallets := wallets db; wallet_transactions := wallet_transactions db;
     subscriptions := f (subscriptions db);
     tutor_profiles := tutor_profiles db; refunds := refunds db |}.

Definition with_tutor_profiles
    (f : gmap user_id TutorProfile.t -> gmap user_id TutorProfile.t)
    (db : DB) : DB :=
  {| payments := payments db; sessions := sessions db;
     wallets := wallets db; wallet_transactions := wallet_transactions db;
     subscriptions := subscriptions db;
     tutor_profiles := f (tutor_profiles db); refunds := refunds db |}.

Definition with_refunds (f : gmap uuid Refund.t -> gmap uuid Refund.t)
    (db : DB) : DB :=
  {| payments := payments db; sessions := sessions db;
     wallets := wallets db; wallet_transactions := wallet_transactions db;
     subscriptions := subscriptions db; tutor_profiles := tutor_profiles db;
     refunds := f (refunds db) |}.

(** ** Exceptions and the database monad *)

Inductive model_name :=
  PaymentModel | WalletModel | TutoringSessionModel | TutorProfileModel.

Inductive exn :=
| DoesNotExist (m : model_name)
| Http404
| TypeError
| AttributeError
| IntegrityError
| InvalidOperation
| ValidationError
| StripeError (message : string).

Inductive result (A : Type) :=
| Ok (a : A)
| Raise (e : exn).
Arguments Ok {A} a.
Arguments Raise {A} e.

Definition M (A : Type) : Type := DB -> result A * DB.

Definition ret {A} (a : A) : M A := fun db => (Ok a, db).
Definition raise {A} (e : exn) : M A := fun db => (Raise e, db).
Definition bind {A B} (m : M A) (k : A -> M B) : M B :=
  fun db =>
    match m db with
    | (Ok a, db') => k a db'
    | (Raise e, db') => (Raise e, db')
    end.

Notation "x <-- m ;; k" := (bind m (fun x => k))
  (at level 100, m at next level, right associativity).
Notation "m ;;; k" := (bind m (fun _ => k))
  (at level 100, right associativity).

(** [try: m except E: h]: [handler e] is [Some h] for the exceptions the
    [except] clause names and [None] for those it lets through. The handler
    runs on the database as the failed body left it: the views open no
    transaction, so nothing is rolled back. *)
Definition try_except {A} (m : M A) (handler : exn -> option (M A)) : M A :=
  fun db =>
    match m db with
    | (Ok a, db') => (Ok a, db')
    | (Raise e, db') =>
        match handler e with
        | Some h => h db'
        | None => (Raise e, db')
        end
    end.

Definition modify (f : DB -> DB) : M unit := fun db => (Ok tt, f db).

(** ** Wallet methods *)

Module Wallet.
(** [self.save()] *)
Definition save (self : Wallet) : M unit :=
  modify (with_wallets (insert (user self) self)).

Definition set_balance (b : Z) (self : Wallet) : Wallet :=
  {| user := user self; balance := b; is_active := is_active self |}.

(** [WalletTransaction.objects.create(...)]: the ledger, oldest row
    first. *)
Definition create_transaction (row : WalletTransaction.t) : M unit :=
  modify (with_wallet_transactions (fun l => (l ++ [row])%list)).

(** The methods return the Python result and [self] as the call leaves
    it. *)
Definition add_funds (self : Wallet) (amount : Z) (description : string)
    (transaction_type : WalletTransaction.transaction_type_choice)
    : M (bool * Wallet) :=
  if amount >? 0 then
    let self := set_balance (balance self + amount) self in
    save self ;;;
    create_transaction
      {| WalletTransaction.wallet := user self;
         WalletTransaction.transaction_type := transaction_type;
         WalletTransaction.amount := amount;
         WalletTransaction.description := description;
         WalletTransaction.balance_after := balance self |} ;;;
    ret (true, self)
  else ret (false, self).

Definition deduct_funds (self : Wallet) (amount : Z) (description : string)
    : M (bool * Wallet) :=
  if (balance self >=? amount) && (amount >? 0) then
    let self := set_balance (balance self - amount) self in
    save self ;;;
    create_transaction
      {| WalletTransaction.wallet := user self;
         WalletTransaction.transaction_type := WalletTransaction.debit;
         WalletTransaction.amount := amount;
         WalletTransaction.description := description;
         WalletTransaction.balance_after := balance self |} ;;;
    ret (true, self)
  else ret (false, self).

Definition has_sufficient_balance (self : Wallet) (amount : Z) : bool :=
  balance self >=? amount.
End Wallet.

(** ** The object-relational layer, as the views use it *)

(** [Payment.objects.create(...)]: the column defaults of the model
    ([status='pending'], [currency='GHS'], no gateway data). *)
Definition new_payment (user : user_id)
    (payment_type : Payment.payment_type_choice) (amount : Z)
    (payment_method : string) (session : option session_id)
    (description : string) (metadata : option Payment.metadata_dict)
    : Payment.t :=
  {| Payment.user := user; Payment.payment_type := payment_type;
     Payment.amount := amount; Payment.currency := "GHS";
     Payment.payment_method := payment_method;
     Payment.status := Payment.pending; Payment.session := session;
     Payment.stripe_payment_intent_id := "";
     Payment.gateway_response := None;
     Payment.description := description; Payment.metadata := metadata;
     Payment.completed_at := None |}.

(** The INSERT of [objects.create]; [pk] is the [uuid.uuid4()] drawn for the
    row, and a duplicate key is the database's [IntegrityError]. *)
Definition Payment_objects_create (pk : uuid) (row : Payment.t)
    : M Payment.t :=
  fun db =>
    match payments db !! pk with
    | Some _ => (Raise IntegrityError, db)
    | None => (Ok row, with_payments (insert pk row) db)
    end.

(** [payment.save()] *)
Definition Payment_save (pk : uuid) (row : Payment.t) : M unit :=
  modify (with_payments (insert pk row)).

(** [payment.delete()], with the cascade of the relations onto the payment:
    [Refund.payment] is [on_delete=CASCADE], [TutorSubscription.payment] is
    [on_delete=SET_NULL]. *)
Definition clear_payment (pk : uuid) (s : TutorSubscription.t)
    : TutorSubscription.t :=
  if bool_decide (TutorSubscription.payment s = Some pk) then
    {| TutorSubscription.plan := TutorSubscription.plan s;
       TutorSubscription.start_date := TutorSubscription.start_date s;
       TutorSubscription.end_date := TutorSubscription.end_date s;
       TutorSubscription.amount_paid := TutorSubscription.amount_paid s;
       TutorSubscription.status := TutorSubscription.status s;
       TutorSubscription.payment := None |}
  else s.

Definition Payment_delete (pk : uuid) : M unit :=
  modify (fun db =>
    with_subscriptions (fmap (clear_payment pk))
      (with_refunds (delete pk) (with_payments (delete pk) db))).

(** [Payment.objects.get(id=payment_id)]: the instance found, as its key and
    its row. [id=None] matches no row; a text that is no UUID does not reach
    the query, the field raises [ValidationError] when the lookup is
    built. *)
Definition Payment_objects_get (payment_id : option posted_uuid)
    : M (uuid * Payment.t) :=
  fun db =>
    match payment_id with
    | None => (Raise (DoesNotExist PaymentModel), db)
    | Some (malformed _) => (Raise ValidationError, db)
    | Some (well_formed pk) =>
        match payments db !! pk with
        | Some row => (Ok (pk, row), db)
        | None => (Raise (DoesNotExist PaymentModel), db)
        end
    end.

(** [get_object_or_404(Payment, id=payment_id, user=request.user)] *)
Definition get_payment_or_404 (payment_id : uuid) (user : user_id)
    : M Payment.t :=
  fun db =>
    match payments db !! payment_id with
    | Some row =>
        if bool_decide (Payment.user row = user) then (Ok row, db)
        else (Raise Http404, db)
    | None => (Raise Http404, db)
    end.

(** [get_object_or_404(TutoringSession, id=session_id)] *)
Definition get_session_or_404 (session_id : session_id)
    : M TutoringSession.t :=
  fun db =>
    match sessions db !! session_id with
    | Some row => (Ok row, db)
    | None => (Raise Http404, db)
    end.

(** [payment.session], fetched through the foreign key. *)
Definition related_session (session_id : session_id)
    : M TutoringSession.t :=
  fun db =>
    match sessions db !! session_id with
    | Some row => (Ok row, db)
    | None => (Raise (DoesNotExist TutoringSessionModel), db)
    end.

(** [TutoringSession.save]:
    [self.total_amount = self.rate * (self.duration / 60)] comes before
    [super().save()]. On a row read from the database [rate] is a [Decimal]
    and [duration / 60] is a [float]; Python's [Decimal] refuses the product
    with [TypeError], so the row is never written. *)
Definition TutoringSession_save (pk : session_id) (self : TutoringSession.t)
    : M unit :=
  raise TypeError.

(** [request.user.wallet] *)
Definition related_wallet (user : user_id) : M Wallet :=
  fun db =>
    match wallets db !! user with
    | Some w => (Ok w, db)
    | None => (Raise (DoesNotExist WalletModel), db)
    end.

(** The object [Wallet.objects.get_or_create(user=...)] hands back. A
    wallet that exists is read from its row, and its [balance] is the
    [Decimal] of the column. A wallet that does not is built from the field
    defaults and inserted; the object is not read back, so its [balance] is
    still the default as the model writes it, [default=0.00], a float. *)
Inductive wallet_object :=
| from_row (w : Wallet)
| from_defaults (user : user_id).

(** The row the INSERT writes has the defaults as the column stores them,
    [balance = 0.00] and [is_active = True]. *)
Definition Wallet_objects_get_or_create (u : user_id)
    : M (wallet_object * bool) :=
  fun db =>
    match wallets db !! u with
    | Some w => (Ok (from_row w, false), db)
    | None =>
        (Ok (from_defaults u, true),
         with_wallets
           (insert u {| user := u; balance := 0; is_active := true |}) db)
    end.

(** [wallet.add_funds(amount, description)] on such an object, for a
    [Decimal] amount. On an object built from the defaults the guard
    [amount > 0] is evaluated as on any other, and [self.balance += amount]
    then adds a [Decimal] to a float, which Python refuses with [TypeError]
    before anything is written. *)
Definition wallet_object_add_funds (self : wallet_object) (amount : Z)
    (description : string)
    (transaction_type : WalletTransaction.transaction_type_choice)
    : M bool :=
  match self with
  | from_row w =>
      added <-- Wallet.add_funds w amount description transaction_type ;;
      ret (fst added)
  | from_defaults _ => if amount >? 0 then raise TypeError else ret false
  end.

(** [TutorSubscription.objects.get_or_create(tutor=..., defaults=...)] *)
Definition TutorSubscription_objects_get_or_create (tutor : user_id)
    (defaults : TutorSubscription.t) : M (TutorSubscription.t * bool) :=
  fun db =>
    match subscriptions db !! tutor with
    | Some s => (Ok (s, false), db)
    | None => (Ok (defaults, true), with_subscriptions (insert tutor defaults) db)
    end.

Definition TutorSubscription_save (tutor : user_id)
    (self : TutorSubscription.t) : M unit :=
  modify (with_subscriptions (insert tutor self)).

(** [payment.user.tutor_profile] *)
Definition related_tutor_profile (user : user_id) : M TutorProfile.t :=
  fun db =>
    match tutor_profiles db !! user with
    | Some row => (Ok row, db)
    | None => (Raise (DoesNotExist TutorProfileModel), db)
    end.

Definition TutorProfile_save (user : user_id) (self : TutorProfile.t)
    : M unit :=
  modify (with_tutor_profiles (insert user self)).

(** [hasattr(payment, 'refund')]: whether the reverse one-to-one relation
    finds a row. *)
Definition has_refund (payment : uuid) : M bool :=
  fun db => (Ok (bool_decide (is_Some (refunds db !! payment))), db).

(** [form.save()] of the refund form: the INSERT of the new [Refund]. *)
Definition Refund_save (payment : uuid) (self : Refund.t) : M unit :=
  modify (with_refunds (insert payment self)).

(** ** Requests and responses *)

Inductive json :=
| JStr (s : string)
| JUuid (u : uuid).

Inductive HttpResponse :=
| redirect (to : string) (arg : option Z)
| JsonResponse (body : list (string * json)) (status : Z)
| HttpResponseStatus (status : Z).

Inductive level := error | success | info.

(** What a view hands back: the HTTP response and the [messages] it queued. *)
Record Response := {
  http : HttpResponse;
  messages : list (level * string)
}.

Definition respond (h : HttpResponse) (ms : list (level * string))
    : M Response :=
  ret {| http := h; messages := ms |}.

(** The outcome of this request's [stripe.PaymentIntent.create(...)]: the
    gateway is outside the program. *)
Inductive stripe_outcome :=
| intent_created (id : string) (client_secret : string)
| stripe_error (message : string).

(** [str.title()] on ASCII text. *)
Definition is_lower (c : ascii) : bool :=
  let n := nat_of_ascii c in (97 <=? n)%nat && (n <=? 122)%nat.
Definition is_upper (c : ascii) : bool :=
  let n := nat_of_ascii c in (65 <=? n)%nat && (n <=? 90)%nat.
Definition to_upper (c : ascii) : ascii :=
  if is_lower c then ascii_of_nat (nat_of_ascii c - 32) else c.
Definition to_lower (c : ascii) : ascii :=
  if is_upper c then ascii_of_nat (nat_of_ascii c + 32) else c.

Fixpoint title_from (inside_word : bool) (s : string) : string :=
  match s with
  | EmptyString => EmptyString
  | String c rest =>
      if is_lower c || is_upper c then
        String (if inside_word then to_lower c else to_upper c)
               (title_from true rest)
      else String c (title_from false rest)
  end.

Definition title (s : string) : string := title_from false s.

(** ** payments/views.py *)

Module PayForSessionView.
(** [int(payment.amount * 100)] is the amount in hundredths, the integer
    the model already holds; what the gateway answers is [gateway]. *)
Definition process_stripe_payment (request_user : CustomUser.t)
    (pk : uuid) (payment : Payment.t) (gateway : stripe_outcome)
    : M Response :=
  match gateway with
  | intent_created intent_id client_secret =>
      let payment := Payment.set_stripe_payment_intent_id intent_id payment in
      Payment_save pk payment ;;;
      respond (JsonResponse [("client_secret", JStr client_secret);
                             ("payment_id", JUuid pk)] 200) []
  | stripe_error e =>
      let payment := Payment.set_status Payment.failed payment in
      Payment_save pk payment ;;;
      respond (JsonResponse [("error", JStr e)] 400) []
  end.

(** The [except Exception] clause, run on [payment] as the body left it. *)
Definition payment_failed (pk : uuid) (payment : Payment.t)
    (session_pk : session_id) : M Response :=
  let payment := Payment.set_status Payment.failed payment in
  Payment_save pk payment ;;;
  respond (redirect "payments:pay_session" (Some session_pk))
          [(error, "Payment failed. Please try again.")].

(** The tail of the [try] body, reached when the balance does not cover
    the amount or [deduct_funds] returns [False]. *)
Definition insufficient_balance (pk : uuid) (payment : Payment.t)
    (session_pk : session_id) : M Response :=
  let payment := Payment.set_status Payment.failed payment in
  Payment_save pk payment ;;;
  respond (redirect "payments:pay_session" (Some session_pk))
          [(error, "Insufficient wallet balance.")].

(** [payment.session] is the session [post] created the payment with.
    The inner [try_except] is the same [except Exception] clause, seeing
    the payment after [status] and [completed_at] were assigned. *)
Definition process_wallet_payment (request_user : CustomUser.t)
    (pk : uuid) (payment : Payment.t)
    (session_pk : session_id) (session : TutoringSession.t) (now : Z)
    : M Response :=
  try_except
    (wallet <-- related_wallet (CustomUser.id request_user) ;;
     if Wallet.has_sufficient_balance wallet (Payment.amount payment) then
       deducted <-- Wallet.deduct_funds wallet (Payment.amount payment)
                      ("Payment for session: " ++ TutoringSession.title session) ;;
       if fst deducted then
         let payment := Payment.set_status Payment.completed payment in
         let payment := Payment.set_completed_at (Some now) payment in
         try_except
           (Payment_save pk payment ;;;
            let session :=
              TutoringSession.set_status TutoringSession.confirmed session in
            TutoringSession_save session_pk session ;;;
            respond (redirect "tutoring:session_detail" (Some session_pk))
                    [(success, "Payment successful!")])
           (fun _ => Some (payment_failed pk payment session_pk))
       else insufficient_balance pk payment session_pk
     else insufficient_balance pk payment session_pk)
    (fun _ => Some (payment_failed pk payment session_pk)).

Definition process_mobile_money_payment (post_phone_number : option string)
    (pk : uuid) (payment : Payment.t) : M Response :=
  let payment := Payment.set_status Payment.pending payment in
  let payment :=
    Payment.set_metadata
      (Some {| Payment.plan := None; Payment.months := None;
               Payment.phone_number := Some post_phone_number |}) payment in
  Payment_save pk payment ;;;
  respond (redirect "payments:payment_list" None)
          [(info, "Mobile money payment initiated. You will receive a prompt shortly.")].

(** [post_payment_method] and [post_phone_number] are the POST fields,
    [None] when absent; [new_id] is the key drawn for the new payment. *)
Definition post (request_user : CustomUser.t)
    (post_payment_method post_phone_number : option string)
    (session_id : session_id) (new_id : uuid) (gateway : stripe_outcome)
    (now : Z) : M Response :=
  session <-- get_session_or_404 session_id ;;
  let payment_method := default "stripe" post_payment_method in
  payment <-- Payment_objects_create new_id
    (new_payment (CustomUser.id request_user) Payment.session_type
       (TutoringSession.total_amount session) payment_method
       (Some session_id)
       ("Payment for session: " ++ TutoringSession.title session) None) ;;
  if (payment_method =? "stripe")%string then
    process_stripe_payment request_user new_id payment gateway
  else if (payment_method =? "wallet")%string then
    process_wallet_payment request_user new_id payment session_id session now
  else if (payment_method =? "mtn_momo")%string
          || (payment_method =? "vodafone_cash")%string then
    process_mobile_money_payment post_phone_number new_id payment
  else
    respond (redirect "payments:pay_session" (Some session_id))
            [(error, "Invalid payment method.")].
End PayForSessionView.

Module SubscriptionView.
(** The dictionary [plan_prices]: for each plan its amount (GHS 50, 120,
    200, in hundredths) and its months. *)
Definition plan_prices : gmap string (Z * Z) :=
  {[ "basic" := (5000, 1); "standard" := (12000, 3);
     "premium" := (20000, 6) ]}.

Definition post (request_user : CustomUser.t)
    (post_plan post_payment_method : option string)
    (new_id : uuid) (gateway : stripe_outcome) : M Response :=
  if negb (CustomUser.is_tutor request_user) then
    respond (redirect "accounts:dashboard" None)
            [(error, "Only tutors can subscribe to plans.")]
  else
    let payment_method := default "stripe" post_payment_method in
    match post_plan ≫= (fun plan =>
            price ← plan_prices !! plan; Some (plan, price)) with
    | None =>
        respond (redirect "payments:subscription" None)
                [(error, "Invalid subscription plan.")]
    | Some (plan, (amount, months)) =>
        payment <-- Payment_objects_create new_id
          (new_payment (CustomUser.id request_user) Payment.subscription
             amount payment_method None
             ("Tutor subscription - " ++ title plan ++ " plan")
             (Some {| Payment.plan := Some plan;
                      Payment.months := Some months;
                      Payment.phone_number := None |})) ;;
        if (payment_method =? "stripe")%string then
          match gateway with
          | intent_created _ client_secret =>
              respond (JsonResponse [("client_secret", JStr client_secret)] 200) []
          | stripe_error e =>
              Payment_delete new_id ;;;
              respond (JsonResponse [("error", JStr e)] 400) []
          end
        else respond (redirect "payments:payment_list" None) []
    end.
End SubscriptionView.

(** [Decimal(request.POST.get('amount', '0'))], any text the client sends.
    - [unparsable]: the constructor raises [decimal.InvalidOperation], or
      the text is a NaN and the comparison [amount > 0] raises it.
    - [infinity]: the text is [Infinity] or [-Infinity]. The negative one
      fails the guard like any negative amount; the positive one passes it
      and [Payment.objects.create] refuses it before the INSERT, with the
      [ValidationError] of [DecimalField.to_python] (Django versions that
      do not check there fail in [format_number], with
      [InvalidOperation]).
    - [parsed]: the text denotes the finite value
      [coefficient * 10 ^ exponent], with as many decimal places as were
      typed; [str] is what [str(amount)] prints back in the description. *)
Inductive posted_decimal :=
| unparsable
| infinity (negative : bool)
| parsed (coefficient exponent : Z) (str : string).

(** What a column of two decimal places holds for the value
    [coefficient * 10 ^ exponent], in hundredths: the value is quantized to
    two places, rounding half to even, when it is written (Django's
    [format_number]) or when the row is read back (the converter of the
    SQLite backend). *)
Definition quantize (coefficient exponent : Z) : Z :=
  (if 0 <=? exponent + 2 then coefficient * 10 ^ (exponent + 2)
   else
     let unit := 10 ^ (- (exponent + 2)) in
     let q := coefficient / unit in
     let r := coefficient mod unit in
     if 2 * r <? unit then q
     else if unit <? 2 * r then q + 1
     else if Z.even q then q else q + 1)%Z.

Module WalletView.
Definition post (request_user : CustomUser.t)
    (post_action : option string) (post_amount : option posted_decimal)
    (post_payment_method : option string)
    (new_id : uuid) (gateway : stripe_outcome) : M Response :=
  if bool_decide (post_action = Some "topup") then
    match default (parsed 0 0 "0") post_amount with
    | unparsable => raise InvalidOperation
    | infinity negative =>
        if negative then respond (redirect "payments:wallet" None) []
        else raise ValidationError
    | parsed coefficient exponent amount_str =>
        if coefficient >? 0 then
          payment <-- Payment_objects_create new_id
            (new_payment (CustomUser.id request_user) Payment.wallet_topup
               (quantize coefficient exponent)
               (default "stripe" post_payment_method) None
               ("Wallet top-up - GHS " ++ amount_str) None) ;;
          if (Payment.payment_method payment =? "stripe")%string then
            match gateway with
            | intent_created _ client_secret =>
                respond (JsonResponse [("client_secret", JStr client_secret)] 200) []
            | stripe_error e =>
                Payment_delete new_id ;;;
                respond (JsonResponse [("error", JStr e)] 400) []
            end
          else respond (redirect "payments:wallet" None) []
        else respond (redirect "payments:wallet" None) []
    end
  else respond (redirect "payments:wallet" None) [].
End WalletView.

Module RequestRefundView.
(** [form_amount] is the cleaned [amount] field, [None] when left blank;
    [not form.instance.amount] holds for [None] and for zero. *)
Definition form_valid (request_user : CustomUser.t) (payment_id : uuid)
    (form_reason form_reason_detail : string) (form_amount : option Z)
    : M Response :=
  payment <-- get_payment_or_404 payment_id (CustomUser.id request_user) ;;
  if negb (Payment.status_eqb (Payment.status payment) Payment.completed) then
    respond (redirect "payments:payment_list" None)
            [(error, "Only completed payments can be refunded.")]
  else
    already <-- has_refund payment_id ;;
    if (already : bool) then
      respond (redirect "payments:payment_list" None)
              [(error, "Refund request already exists for this payment.")]
    else
      let amount :=
        match form_amount with
        | None => Payment.amount payment
        | Some a => if (a =? 0)%Z then Payment.amount payment else a
        end in
      Refund_save payment_id
        {| Refund.reason := form_reason;
           Refund.reason_detail := form_reason_detail;
           Refund.amount := amount;
           Refund.status := Refund.requested |} ;;;
      respond (redirect "payments:payment_list" None)
              [(success, "Refund request submitted successfully.")].
End RequestRefundView.

(** A parsed Stripe event: [event['type']] and [event['data']['object']]. *)
Record stripe_event := {
  event_type : string;
  data_object : payment_intent
}.

Module StripeWebhookView.
(** [now_start] and [now_renew] are the two [timezone.now()] readings, at
    the top of the method and in the renewal branch. A [plan] missing from
    the metadata is [None], which the [NOT NULL] column [plan] refuses on
    insert and on update alike. *)
Definition create_tutor_subscription (pk : uuid) (payment : Payment.t)
    (now_start now_renew : Z) : M unit :=
  match Payment.metadata payment with
  | None => raise AttributeError
  | Some metadata =>
      let plan := Payment.plan metadata in
      let months := default 1 (Payment.months metadata) in
      let start_date := now_start in
      let end_date := start_date + days (30 * months) in
      match plan with
      | None => raise IntegrityError
      | Some plan =>
          found <-- TutorSubscription_objects_get_or_create
            (Payment.user payment)
            {| TutorSubscription.plan := plan;
               TutorSubscription.start_date := start_date;
               TutorSubscription.end_date := end_date;
               TutorSubscription.amount_paid := Payment.amount payment;
               TutorSubscription.status := TutorSubscription.active;
               TutorSubscription.payment := Some pk |} ;;
          let '(subscription, created) := (found : _ * bool) in
          subscription <--
            (if negb created then
               let subscription :=
                 {| TutorSubscription.plan := plan;
                    TutorSubscription.start_date :=
                      TutorSubscription.start_date subscription;
                    TutorSubscription.end_date :=
                      Z.max (TutorSubscription.end_date subscription) now_renew
                      + days (30 * months);
                    TutorSubscription.amount_paid :=
                      TutorSubscription.amount_paid subscription
                      + Payment.amount payment;
                    TutorSubscription.status := TutorSubscription.active;
                    TutorSubscription.payment :=
                      TutorSubscription.payment subscription |} in
               TutorSubscription_save (Payment.user payment) subscription ;;;
               ret subscription
             else ret subscription) ;;
          tutor_profile <-- related_tutor_profile (Payment.user payment) ;;
          let tutor_profile : TutorProfile.t :=
            {| TutorProfile.subscription_active := true;
               TutorProfile.subscription_expiry :=
                 Some (TutorSubscription.end_date subscription) |} in
          TutorProfile_save (Payment.user payment) tutor_profile
      end
  end.

(** The branches on [payment.payment_type] after the payment is saved. *)
Definition payment_type_side_effect (pk : uuid) (payment : Payment.t)
    (now_start now_renew : Z) : M unit :=
  match Payment.payment_type payment, Payment.session payment with
  | Payment.session_type, Some session_pk =>
      session <-- related_session session_pk ;;
      let session :=
        TutoringSession.set_status TutoringSession.confirmed session in
      TutoringSession_save session_pk session
  | Payment.subscription, _ =>
      create_tutor_subscription pk payment now_start now_renew
  | Payment.wallet_topup, _ =>
      found <-- Wallet_objects_get_or_create (Payment.user payment) ;;
      wallet_object_add_funds (fst found) (Payment.amount payment)
        "Wallet top-up via Stripe" WalletTransaction.credit ;;;
      ret tt
  | _, _ => ret tt
  end.

(** Only [Payment.DoesNotExist] is caught. *)
Definition except_Payment_DoesNotExist (e : exn) : option (M unit) :=
  match e with
  | DoesNotExist PaymentModel => Some (ret tt)
  | _ => None
  end.

Definition handle_payment_success (payment_intent : payment_intent)
    (now now_start now_renew : Z) : M unit :=
  try_except
    (let payment_id := metadata_payment_id payment_intent in
     found <-- Payment_objects_get payment_id ;;
     let '(pk, payment) := (found : uuid * Payment.t) in
     let payment := Payment.set_status Payment.completed payment in
     let payment := Payment.set_completed_at (Some now) payment in
     let payment :=
       Payment.set_gateway_response (Some payment_intent) payment in
     Payment_save pk payment ;;;
     payment_type_side_effect pk payment now_start now_renew)
    except_Payment_DoesNotExist.

Definition handle_payment_failure (payment_intent : payment_intent)
    : M unit :=
  try_except
    (let payment_id := metadata_payment_id payment_intent in
     found <-- Payment_objects_get payment_id ;;
     let '(pk, payment) := (found : uuid * Payment.t) in
     let payment := Payment.set_status Payment.failed payment in
     let payment :=
       Payment.set_gateway_response (Some payment_intent) payment in
     Payment_save pk payment)
    except_Payment_DoesNotExist.

(** [event] is [None] when the payload does not parse or its signature
    does not verify. *)
Definition post (event : option stripe_event) (now now_start now_renew : Z)
    : M HttpResponse :=
  match event with
  | None => ret (HttpResponseStatus 400)
  | Some event =>
      (if (event_type event =? "payment_intent.succeeded")%string then
         handle_payment_success (data_object event) now now_start now_renew
       else if (event_type event =? "payment_intent.payment_failed")%string
       then handle_payment_failure (data_object event)
       else ret tt) ;;;
      ret (HttpResponseStatus 200)
  end.
End StripeWebhookView.

(** ** Histories *)

(** A credit or debit applied to a wallet object. *)
Inductive wallet_op :=
| credit_op (amount : Z) (description : string)
    (transaction_type : WalletTransaction.transaction_type_choice)
| debit_op (amount : Z) (description : string).

Definition apply_op (st : Wallet * DB) (op : wallet_op) : Wallet * DB :=
  let '(w, db) := st in
  let outcome :=
    match op with
    | credit_op amount description transaction_type =>
        Wallet.add_funds w amount description transaction_type db
    | debit_op amount description =>
        Wallet.deduct_funds w amount description db
    end in
  match outcome with
  | (Ok (_, w'), db') => (w', db')
  | (Raise _, db') => (w, db')
  end.

Definition run_ops (ops : list wallet_op) (st : Wallet * DB) : Wallet * DB :=
  fold_left apply_op ops st.

(** What a history of credits and debits keeps true of the wallet object
    and of its row. *)
Definition wallet_inv (w0 : Wallet) (db0 : DB) (st : Wallet * DB) : Prop :=
  0 <= balance (fst st)
  /\ user (fst st) = user w0
  /\ (wallets db0 !! user w0 = Some w0 ->
      wallets (snd st) !! user w0 = Some (fst st)).

(** One request to a view that writes payments, with everything the view
    reads from outside the database. *)
Inductive request :=
| pay_for_session (request_user : CustomUser.t)
    (post_payment_method post_phone_number : option string)
    (session_id : session_id) (new_id : uuid) (gateway : stripe_outcome)
    (now : Z)
| subscribe (request_user : CustomUser.t)
    (post_plan post_payment_method : option string)
    (new_id : uuid) (gateway : stripe_outcome)
| wallet_post (request_user : CustomUser.t)
    (post_action : option string) (post_amount : option posted_decimal)
    (post_payment_method : option string)
    (new_id : uuid) (gateway : stripe_outcome)
| request_refund (request_user : CustomUser.t) (payment_id : uuid)
    (form_reason form_reason_detail : string) (form_amount : option Z)
| stripe_webhook (event : option stripe_event) (now now_start now_renew : Z).

(** The database a request leaves behind, whether the view returns or
    raises. *)
Definition serve (r : request) (db : DB) : DB :=
  match r with
  | pay_for_session u m ph sid new_id g now =>
      snd (PayForSessionView.post u m ph sid new_id g now db)
  | subscribe u plan m new_id g =>
      snd (SubscriptionView.post u plan m new_id g db)
  | wallet_post u a amount m new_id g =>
      snd (WalletView.post u a amount m new_id g db)
  | request_refund u pid reason detail amount =>
      snd (RequestRefundView.form_valid u pid reason detail amount db)
  | stripe_webhook ev now now_start now_renew =>
      snd (StripeWebhookView.post ev now now_start now_renew db)
  end.

(** ** Sample data *)

Definition empty_db : DB :=
  {| payments := ∅; sessions := ∅; wallets := ∅; wallet_transactions := [];
     subscriptions := ∅; tutor_profiles := ∅; refunds := ∅ |}.

Definition student : CustomUser.t :=
  {| CustomUser.id := 7; CustomUser.user_type := "student" |}.
Definition tutor : CustomUser.t :=
  {| CustomUser.id := 9; CustomUser.user_type := "tutor" |}.

(** A wallet holding GHS 100.00. *)
Definition wallet_100 : Wallet :=
  {| user := 7; balance := 10000; is_active := true |}.

(** A pending top-up of GHS 50.00 by the student, keyed [1]. *)
Definition topup_50 : Payment.t :=
  new_payment 7 Payment.wallet_topup 5000 "stripe" None
    "Wallet top-up - GHS 50" None.

Definition topup_db : DB := with_payments (insert 1%N topup_50) empty_db.

Definition topup_intent : payment_intent :=
  {| intent_id := "pi_1"; metadata_payment_id := Some (well_formed 1) |}.

(** A completed session payment of GHS 100.00 by the student, keyed [2]. *)
Definition paid_100 : Payment.t :=
  Payment.set_completed_at (Some 1000)
    (Payment.set_status Payment.completed
       (new_payment 7 Payment.session_type 10000 "stripe" (Some 3)
          "Payment for session: Algebra" None)).

Definition paid_db : DB := with_payments (insert 2%N paid_100) empty_db.

(** A session whose [total_amount] is zero. *)
Definition free_session : TutoringSession.t :=
  {| TutoringSession.student := 7; TutoringSession.title := "Algebra";
     TutoringSession.duration := 60; TutoringSession.rate := 0;
     TutoringSession.total_amount := 0;
     TutoringSession.status := TutoringSession.scheduled |}.

Definition free_session_db : DB :=
  {| payments := ∅; sessions := {[ 3 := free_session ]}; wallets := ∅;
     wallet_transactions := []; subscriptions := ∅; tutor_profiles := ∅;
     refunds := ∅ |}.

(** A standard-plan subscription payment of the tutor, keyed [4]. *)
Definition standard_payment : Payment.t :=
  new_payment 9 Payment.subscription 12000 "stripe" None
    "Tutor subscription - Standard plan"
    (Some {| Payment.plan := Some "standard"; Payment.months := Some 3;
             Payment.phone_number := None |}).

Definition tutor_db : DB :=
  {| payments := {[ 4%N := standard_payment ]}; sessions := ∅; wallets := ∅;
     wallet_transactions := []; subscriptions := ∅;
     tutor_profiles :=
       {[ 9 := {| TutorProfile.subscription_active := false;
                  TutorProfile.subscription_expiry := None |} ]};
     refunds := ∅ |}.

(** A one-hour session at GHS 30.00, and a database in which the student
    holds [wallet_100]. *)
Definition algebra_session : TutoringSession.t :=
  {| TutoringSession.student := 7; TutoringSession.title := "Algebra";
     TutoringSession.duration := 60; TutoringSession.rate := 3000;
     TutoringSession.total_amount := 3000;
     TutoringSession.status := TutoringSession.scheduled |}.

Definition wallet_db : DB :=
  {| payments := ∅; sessions := {[ 3 := algebra_session ]};
     wallets := {[ 7 := wallet_100 ]}; wallet_transactions := [];
     subscriptions := ∅; tutor_profiles := ∅; refunds := ∅ |}.

(** A one-month basic-plan payment of the tutor, keyed [5], and a database
    in which the tutor's subscription still has ten days to run at time
    [0]. *)
Definition basic_payment : Payment.t :=
  new_payment 9 Payment.subscription 5000 "stripe" None
    "Tutor subscription - Basic plan"
    (Some {| Payment.plan := Some "basic"; Payment.months := Some 1;
             Payment.phone_number := None |}).

Definition running_subscription : TutorSubscription.t :=
  {| TutorSubscription.plan := "basic";
     TutorSubscription.start_date := days (-20);
     TutorSubscription.end_date := days 10;
     TutorSubscription.amount_paid := 5000;
     TutorSubscription.status := TutorSubscription.expired;
     TutorSubscription.payment := None |}.

Definition renewing_db : DB :=
  with_subscriptions (insert 9 running_subscription)
    (with_payments (insert 5%N basic_payment) tutor_db).

(** ** Frames *)

(** A computation that leaves the payments table as it found it, whether it
    returns or raises. *)
Definition keeps_payments {A} (m : M A) : Prop :=
  forall db, payments (snd (m db)) = payments db.

(** A computation that writes no payment row other than the one keyed
    [pk]. *)
Definition touches_only {A} (pk : N) (m : M A) : Prop :=
  forall db k, k <> pk -> payments (snd (m db)) !! k = payments db !! k.

(** The columns of a payment that say who paid what for which purpose. *)
Definition same_purchase (p p' : Payment.t) : Prop :=
  Payment.user p' = Payment.user p
  /\ Payment.payment_type p' = Payment.payment_type p
  /\ Payment.amount p' = Payment.amount p
  /\ Payment.session p' = Payment.session p.

(** The row keyed [pk] exists and satisfies [R]; a computation that keeps
    it so. *)
Definition row_holds (pk : N) (R : Payment.t -> Prop) (db : DB) : Prop :=
  exists p, payments db !! pk = Some p /\ R p.

Definition keeps_row {A} (pk : N) (R : Payment.t -> Prop) (m : M A) : Prop :=
  forall db, row_holds pk R db -> row_holds pk R (snd (m db)).

(** The payment row a success notification writes at time [now]. *)
Definition stamped (payment_intent : payment_intent) (now : Z)
    (p : Payment.t) : Payment.t :=
  Payment.set_gateway_response (Some payment_intent)
    (Payment.set_completed_at (Some now)
       (Payment.set_status Payment.completed p)).

(** The [payment_id] of the notification is absent, or it is a UUID that
    is the key of no stored payment. *)
Definition names_no_payment (payment_intent : payment_intent) (db : DB)
    : Prop :=
  match metadata_payment_id payment_intent with
  | None => True
  | Some (well_formed pk) => payments db !! pk = None
  | Some (malformed _) => False
  end.

(** The credit row a top-up of [amount] logs when it leaves the balance at
    [balance_after]. *)
Definition topup_credit (user : user_id) (amount balance_after : Z)
    : WalletTransaction.t :=
  {| WalletTransaction.wallet := user;
     WalletTransaction.transaction_type := WalletTransaction.credit;
     WalletTransaction.amount := amount;
     WalletTransaction.description := "Wallet top-up via Stripe";
     WalletTransaction.balance_after := balance_after |}.

(** A database in which the student, who holds [wallet_100], has the
    pending top-up [topup_50]. *)
Definition funded_topup_db : DB :=
  with_wallets (insert 7 wallet_100) topup_db.

(** ** The rest of payments/models.py *)

(** [TutorSubscription.is_active], read at time [now]. *)
Definition TutorSubscription_is_active (self : TutorSubscription.t) (now : Z)
    : bool :=
  match TutorSubscription.status self with
  | TutorSubscription.active => TutorSubscription.end_date self >? now
  | _ => false
  end.

(** [TutorSubscription.days_remaining]. The property reads the clock twice,
    in the test ([now_test]) and in the difference ([now_diff]);
    [timedelta.days] is the floor of the difference in days. *)
Definition TutorSubscription_days_remaining (self : TutorSubscription.t)
    (now_test now_diff : Z) : Z :=
  if TutorSubscription.end_date self >? now_test then
    (TutorSubscription.end_date self - now_diff) / 86400
  else 0.

(** [TutorProfile.is_subscription_active] of accounts/models.py; a datetime
    is always truthy, so [subscription_expiry] counts when it is set. *)
Definition TutorProfile_is_subscription_active (self : TutorProfile.t)
    (now : Z) : bool :=
  match TutorProfile.subscription_expiry self with
  | Some expiry =>
      if TutorProfile.subscription_active self then expiry >? now else false
  | None => false
  end.

(** [PurchasedPackage], with the columns its methods read and write; the
    table is keyed by primary key. *)
Module PurchasedPackage.
Record t := {
  user : user_id;
  payment : uuid;
  sessions_remaining : Z;
  expires_at : Z;
  is_active : bool
}.

(** [is_expired] *)
Definition is_expired (self : t) (now : Z) : bool := now >? expires_at self.

(** [use_session]: the result, [self] as the call leaves it, and the table
    after [self.save()]. *)
Definition use_session (pk : Z) (self : t) (now : Z) (table : gmap Z t)
    : bool * t * gmap Z t :=
  if (sessions_remaining self >? 0) && negb (is_expired self now) then
    let self :=
      {| user := user self; payment := payment self;
         sessions_remaining := sessions_remaining self - 1;
         expires_at := expires_at self; is_active := is_active self |} in
    let self :=
      if (sessions_remaining self =? 0)%Z then
        {| user := user self; payment := payment self;
           sessions_remaining := sessions_remaining self;
           expires_at := expires_at self; is_active := false |}
      else self in
    (true, self, <[pk := self]> table)
  else (false, self, table).

(** Calls of [use_session] on one package object, one per clock reading;
    the number of calls that returned [True] is counted. *)
Fixpoint use_sessions (pk : Z) (nows : list Z) (self : t) (table : gmap Z t)
    : nat * t * gmap Z t :=
  match nows with
  | [] => (0%nat, self, table)
  | now :: rest =>
      let '(used, self', table') := use_session pk self now table in
      let '(n, self'', table'') := use_sessions pk rest self' table' in
      ((if used then S n else n), self'', table'')
  end.
End PurchasedPackage.

(** [PaymentMethod], with the columns [save] reads and writes; the table is
    keyed by primary key. *)
Module PaymentMethod.
Record t := {
  user : user_id;
  method_type : string;
  is_default : bool;
  is_active : bool
}.

Definition set_is_default (b : bool) (self : t) : t :=
  {| user := user self; method_type := method_type self; is_default := b;
     is_active := is_active self |}.

(** [PaymentMethod.objects.filter(user=u, is_default=True)
    .update(is_default=False)] *)
Definition clear_defaults (u : Z) (table : gmap Z t) : gmap Z t :=
  (fun row =>
     if bool_decide (user row = u) && is_default row
     then set_is_default false row else row) <$> table.

(** [save]: [pk] is the key of [self], the one the database assigns when
    the row is new. *)
Definition save (pk : Z) (self : t) (table : gmap Z t) : gmap Z t :=
  let table :=
    if is_default self then clear_defaults (user self) table else table in
  <[pk := self]> table.

(** The saves of a history, in order. *)
Definition saves (history : list (Z * t)) (table : gmap Z t) : gmap Z t :=
  fold_left (fun table entry => save (fst entry) (snd entry) table)
    history table.

(** No user has two default payment methods. *)
Definition one_default (table : gmap Z t) : Prop :=
  forall k1 k2 r1 r2,
    table !! k1 = Some r1 -> table !! k2 = Some r2 ->
    user r1 = user r2 -> is_default r1 = true -> is_default r2 = true ->
    k1 = k2.
End PaymentMethod.

(** A pending purchase of a resource by the student, keyed [1]. *)
Definition book_payment : Payment.t :=
  new_payment 7 Payment.resource 2500 "stripe" None "Resource purchase" None.

Definition book_db : DB := with_payments (insert 1%N book_payment) empty_db.

(** A pending subscription payment of the tutor whose metadata were lost,
    keyed [4]. *)
Definition bare_payment : Payment.t :=
  new_payment 9 Payment.subscription 5000 "stripe" None
    "Tutor subscription - Basic plan" None.

Definition bare_db : DB := with_payments (insert 4%N bare_payment) tutor_db.

(** The tutor's database without the tutor's profile. *)
Definition profileless_db : DB := with_tutor_profiles (fun _ => ∅) tutor_db.

Definition standard_intent : payment_intent :=
  {| intent_id := "pi_4"; metadata_payment_id := Some (well_formed 4) |}.

(** A package of three sessions bought with the payment keyed [2], good
    until time [100]. *)
Definition three_sessions : PurchasedPackage.t :=
  {| PurchasedPackage.user := 7; PurchasedPackage.payment := 2%N;
     PurchasedPackage.sessions_remaining := 3;
     PurchasedPackage.expires_at := 100;
     PurchasedPackage.is_active := true |}.

(** ** The rest of payments/views.py *)

(** What [PayForSessionView.get] hands back: a redirect with its message,
    or the payment page rendered for the session. *)
Inductive pay_page :=
| page_redirect (response : Response)
| page_render (template : string) (session : TutoringSession.t).

(** [Payment.objects.filter(session=session, status='completed').exists()] *)
Definition completed_for (session_id : session_id) (p : Payment.t) : bool :=
  bool_decide (Payment.session p = Some session_id)
  && Payment.status_eqb (Payment.status p) Payment.completed.

Definition completed_payment_exists (session_id : session_id) : M bool :=
  fun db =>
    (Ok (bool_decide
           (map_Exists (fun _ p => completed_for session_id p = true)
              (payments db))), db).

Definition PayForSessionView_get (request_user : CustomUser.t)
    (session_id : session_id) : M pay_page :=
  session <-- get_session_or_404 session_id ;;
  if negb (bool_decide (TutoringSession.student session
                        = CustomUser.id request_user)) then
    ret (page_redirect
           {| http := redirect "tutoring:session_detail" (Some session_id);
              messages := [(error, "You cannot pay for this session.")] |})
  else
    paid <-- completed_payment_exists session_id ;;
    if (paid : bool) then
      ret (page_redirect
             {| http := redirect "tutoring:session_detail" (Some session_id);
                messages := [(info, "This session has already been paid for.")] |})
    else ret (page_render "payments/pay_session.html" session).

(** The JSON bodies of [ajax_check_payment_status]; [status] stands for the
    status string of the payment. *)
Inductive status_json :=
| status_report (status : Payment.status_choice) (completed : bool)
| status_error (message : string) (code : Z).

(** [request_user] is [None] for a request that is not authenticated. *)
Definition ajax_check_payment_status (request_user : option CustomUser.t)
    (payment_id : uuid) : M status_json :=
  match request_user with
  | None => ret (status_error "Authentication required" 401)
  | Some user =>
      fun db =>
        match payments db !! payment_id with
        | Some payment =>
            if bool_decide (Payment.user payment = CustomUser.id user) then
              (Ok (status_report (Payment.status payment)
                     (Payment.status_eqb (Payment.status payment)
                        Payment.completed)), db)
            else (Ok (status_error "Payment not found" 404), db)
        | None => (Ok (status_error "Payment not found" 404), db)
        end
  end.

(** ** Ledgers *)

(** Replaying ledger rows from the balance [b]: every row has a positive
    amount and records the balance its credit or debit leaves. The result
    is the balance after the last row, [None] when a row does not fit. *)
Fixpoint replay (b : Z) (rows : list WalletTransaction.t) : option Z :=
  match rows with
  | [] => Some b
  | row :: rest =>
      let b' :=
        match WalletTransaction.transaction_type row with
        | WalletTransaction.credit => b + WalletTransaction.amount row
        | WalletTransaction.debit => b - WalletTransaction.amount row
        end in
      if (WalletTransaction.amount row >? 0)
         && (WalletTransaction.balance_after row =? b')%Z
      then replay b' rest else None
  end.

(** A credit that is logged as a credit. *)
Definition logged_as_credit (op : wallet_op) : bool :=
  match op with
  | credit_op _ _ WalletTransaction.credit => true
  | credit_op _ _ WalletTransaction.debit => false
  | debit_op _ _ => true
  end.

(** ** What activation writes *)

(** The subscription row [create_tutor_subscription] writes over the row
    [s] of a tutor who has one, and the row it inserts for a tutor who has
    none; the profile it writes beside either. *)
Definition renewed_subscription (plan : string) (months amount now_renew : Z)
    (s : TutorSubscription.t) : TutorSubscription.t :=
  {| TutorSubscription.plan := plan;
     TutorSubscription.start_date := TutorSubscription.start_date s;
     TutorSubscription.end_date :=
       Z.max (TutorSubscription.end_date s) now_renew + days (30 * months);
     TutorSubscription.amount_paid :=
       TutorSubscription.amount_paid s + amount;
     TutorSubscription.status := TutorSubscription.active;
     TutorSubscription.payment := TutorSubscription.payment s |}.

Definition first_subscription (pk : uuid) (plan : string)
    (months amount now_start : Z) : TutorSubscription.t :=
  {| TutorSubscription.plan := plan;
     TutorSubscription.start_date := now_start;
     TutorSubscription.end_date := now_start + days (30 * months);
     TutorSubscription.amount_paid := amount;
     TutorSubscription.status := TutorSubscription.active;
     TutorSubscription.payment := Some pk |}.

Definition activated_profile (s : TutorSubscription.t) : TutorProfile.t :=
  {| TutorProfile.subscription_active := true;
     TutorProfile.subscription_expiry := Some (TutorSubscription.end_date s) |}.

(** The subscription a tutor has after an activation. *)
Definition activated_subscription (pk : uuid) (plan : string)
    (months amount now_start now_renew : Z)
    (before : option TutorSubscription.t) : TutorSubscription.t :=
  match before with
  | Some s => renewed_subscription plan months amount now_renew s
  | None => first_subscription pk plan months amount now_start
  end.

(** ** Invoice numbers *)

(** [Invoice], with the columns [save] reads and the two that are unique;
    the table is keyed by primary key. The text is ASCII. *)
Module Invoice.
Record t := {
  invoice_number : string;
  payment : uuid
}.

Inductive error := ValueError | IntegrityError.

Inductive outcome :=
| saved (self : t) (table : gmap Z t)
| raised (e : error).

(** ** The Python built-ins [save] calls *)

(** The characters [int] skips around a number. *)
Definition is_space (c : ascii) : bool :=
  let n := nat_of_ascii c in
  ((9 <=? n)%nat && (n <=? 13)%nat) || (n =? 32)%nat.

Definition is_digit (c : ascii) : bool :=
  let n := nat_of_ascii c in (48 <=? n)%nat && (n <=? 57)%nat.

Fixpoint lstrip (s : string) : string :=
  match s with
  | String c rest => if is_space c then lstrip rest else s
  | EmptyString => EmptyString
  end.

Fixpoint rstrip (s : string) : string :=
  match s with
  | String c rest =>
      match rstrip rest with
      | EmptyString => if is_space c then EmptyString else String c EmptyString
      | rest' => String c rest'
      end
  | EmptyString => EmptyString
  end.

(** Decimal digits, with single underscores between digits. *)
Fixpoint digits (value : Z) (after_digit : bool) (s : string) : option Z :=
  match s with
  | EmptyString => if after_digit then Some value else None
  | String c rest =>
      if is_digit c then
        digits (10 * value + Z.of_nat (nat_of_ascii c - 48)) true rest
      else if after_digit && Ascii.eqb c "_" then digits value false rest
      else None
  end.

(** [int(s)]; [None] is [ValueError]. *)
Definition int (s : string) : option Z :=
  match rstrip (lstrip s) with
  | String "+" rest => digits 0 false rest
  | String "-" rest => Z.opp <$> digits 0 false rest
  | rest => digits 0 false rest
  end.

(** [str(n)] *)
Definition str (n : Z) : string := NilZero.string_of_int (Z.to_int n).

Fixpoint zeros (n : nat) : string :=
  match n with
  | O => EmptyString
  | S n => String "0" (zeros n)
  end.

(** [s.zfill(width)]: the zeros go after a leading sign. *)
Definition zfill (width : nat) (s : string) : string :=
  let pad := zeros (width - String.length s) in
  match s with
  | String "+" rest => String "+" (pad ++ rest)
  | String "-" rest => String "-" (pad ++ rest)
  | _ => pad ++ s
  end.

(** [s[-3:]] *)
Definition last3 (s : string) : string :=
  substring (String.length s - 3) 3 s.

(** ** The query and the method *)

(** The first row of [order_by('-invoice_number')], by its number: the
    greatest in the order of the character codes. *)
Fixpoint greatest (l : list string) : option string :=
  match l with
  | [] => None
  | x :: rest =>
      match greatest rest with
      | None => Some x
      | Some y => if String.leb y x then Some x else Some y
      end
  end.

(** The numbers of
    [Invoice.objects.filter(invoice_number__startswith=start)]. *)
Definition numbers_from (start : string) (table : gmap Z t) : list string :=
  List.filter (String.prefix start)
    ((fun row => invoice_number row.2) <$> map_to_list table).

(** The number [save] gives an invoice that has none, on the day whose
    [strftime("%Y%m%d")] is [timestamp]. *)
Definition new_number (timestamp : string) (table : gmap Z t)
    : option string :=
  match greatest (numbers_from ("INV" ++ timestamp) table) with
  | Some last =>
      last_number ← int (last3 last);
      Some ("INV" ++ timestamp ++ zfill 3 (str (last_number + 1)))
  | None => Some ("INV" ++ timestamp ++ "001")
  end.

(** The row [other], stored under another key, holds the number or the
    payment of [self]: the insert or update violates a [unique] column. *)
Definition clashes (pk : Z) (self : t) (table : gmap Z t) : Prop :=
  map_Exists
    (fun k other =>
       k <> pk /\ (invoice_number other = invoice_number self
                   \/ payment other = payment self)) table.

(** [save], for the instance [self] keyed [pk]. *)
Definition save (pk : Z) (self : t) (timestamp : string) (table : gmap Z t)
    : outcome :=
  let numbered :=
    if bool_decide (invoice_number self = "") then
      number ← new_number timestamp table;
      Some {| invoice_number := number; payment := payment self |}
    else Some self in
  match numbered with
  | None => raised ValueError
  | Some self =>
      if bool_decide (clashes pk self table) then raised IntegrityError
      else saved self (<[pk := self]> table)
  end.

(** The number [i] of the day that starts [start]. *)
Definition number_of (start : string) (i : Z) : string :=
  start ++ zfill 3 (str i).

(** The invoices of the day are numbered [1] to [n]. *)
Definition numbered (start : string) (n : Z) (table : gmap Z t) : Prop :=
  forall x,
    x ∈ numbers_from start table
    <-> exists i, 1 <= i <= n /\ x = number_of start i.
End Invoice.

(** What the numbers [1] to [999] look like, checked number by number:
    three characters, read back by [int] as the number, and below the next
    number in the order of the table. *)
Definition three_digits (i : nat) : bool :=
  let text := Invoice.zfill 3 (Invoice.str (Z.of_nat i)) in
  (String.length text =? 3)%nat
  && match Invoice.int text with
     | Some value => (value =? Z.of_nat i)%Z
     | None => false
     end
  && (if (i <? 999)%nat
      then String.leb text (Invoice.zfill 3 (Invoice.str (Z.of_nat (S i))))
      else true).

(** The table after the first [n] invoices of the day [timestamp], each for
    a payment of its own. *)
Fixpoint day_table (timestamp : string) (n : nat) : gmap Z Invoice.t :=
  match n with
  | O => ∅
  | S m =>
      <[Z.of_nat n :=
          {| Invoice.invoice_number :=
               Invoice.number_of ("INV" ++ timestamp) (Z.of_nat n);
             Invoice.payment := N.of_nat n |}]> (day_table timestamp m)
  end.

(** * Properties *)

(** ** The wallet *)

Section WalletFacts.
Variables (w : Wallet) (db : DB).

Lemma add_funds_rejects amount description transaction_type :
  amount <= 0 ->
  Wallet.add_funds w amount description transaction_type db
  = (Ok (false, w), db).
Proof.
  intros Hle. unfold Wallet.add_funds.
  destruct (Z.gtb_spec amount 0) as [Hpos|_]; [lia | reflexivity].
Qed.

Lemma add_funds_accepts amount description transaction_type :
  0 < amount ->
  let w' := Wallet.set_balance (balance w + amount) w in
  Wallet.add_funds w amount description transaction_type db
  = (Ok (true, w'),
     with_wallet_transactions
       (fun l => (l ++ [ {| WalletTransaction.wallet := user w;
                            WalletTransaction.transaction_type := transaction_type;
                            WalletTransaction.amount := amount;
                            WalletTransaction.description := description;
                            WalletTransaction.balance_after := balance w + amount |} ])%list)
       (with_wallets (insert (user w) w') db)).
Proof.
  intros Hpos. unfold Wallet.add_funds.
  destruct (Z.gtb_spec amount 0) as [_|Hle]; [reflexivity | lia].
Qed.

Lemma deduct_funds_rejects amount description :
  amount <= 0 \/ balance w < amount ->
  Wallet.deduct_funds w amount description db = (Ok (false, w), db).
Proof.
  intros Hbad. unfold Wallet.deduct_funds.
  destruct (Z.geb_spec (balance w) amount) as [Hcover|_];
    destruct (Z.gtb_spec amount 0) as [Hpos|_]; try reflexivity; lia.
Qed.

Lemma deduct_funds_accepts amount description :
  0 < amount -> amount <= balance w ->
  let w' := Wallet.set_balance (balance w - amount) w in
  Wallet.deduct_funds w amount description db
  = (Ok (true, w'),
     with_wallet_transactions
       (fun l => (l ++ [ {| WalletTransaction.wallet := user w;
                            WalletTransaction.transaction_type := WalletTransaction.debit;
                            WalletTransaction.amount := amount;
                            WalletTransaction.description := description;
                            WalletTransaction.balance_after := balance w - amount |} ])%list)
       (with_wallets (insert (user w) w') db)).
Proof.
  intros Hpos Hcover. unfold Wallet.deduct_funds.
  destruct (Z.geb_spec (balance w) amount) as [_|Hlt]; [|lia].
  destruct (Z.gtb_spec amount 0) as [_|Hle]; [reflexivity | lia].
Qed.
End WalletFacts.

Lemma apply_op_inv w0 db0 st op :
  wallet_inv w0 db0 st -> wallet_inv w0 db0 (apply_op st op).
Proof.
  destruct st as [w db]. unfold wallet_inv. intros (Hbal & Huser & Hrow).
  simpl in *.
  destruct op as [amount description transaction_type | amount description];
    simpl.
  - destruct (Z_lt_le_dec 0 amount) as [Hpos|Hle].
    + rewrite add_funds_accepts by assumption. simpl.
      repeat split; simpl; [lia | assumption |].
      intros _. rewrite <- Huser. apply lookup_insert_eq.
    + rewrite add_funds_rejects by assumption. simpl. auto.
  - destruct (Z_lt_le_dec 0 amount) as [Hpos|Hle];
      [destruct (Z_le_gt_dec amount (balance w)) as [Hcover|Hover] |].
    + rewrite deduct_funds_accepts by assumption. simpl.
      repeat split; simpl; [lia | assumption |].
      intros _. rewrite <- Huser. apply lookup_insert_eq.
    + rewrite deduct_funds_rejects by (right; lia). simpl. auto.
    + rewrite deduct_funds_rejects by (left; lia). simpl. auto.
Qed.

Lemma run_ops_inv w0 db0 ops st :
  wallet_inv w0 db0 st -> wallet_inv w0 db0 (run_ops ops st).
Proof.
  unfold run_ops. revert st.
  induction ops as [|op ops IH]; intros st Hst; simpl; [assumption |].
  apply IH, apply_op_inv, Hst.
Qed.

(** C2. A debit of a non-positive amount, or of more than the balance,
    returns [False] and leaves the wallet and the database (so the ledger)
    as they were; hence no history of credits and debits, started on a
    non-negative balance, makes the balance negative, neither on the wallet
    object nor on its stored row. *)
Theorem deduct_funds_never_overdraws (w : Wallet) (db : DB) :
  0 <= balance w ->
  (forall amount description,
      amount <= 0 \/ balance w < amount ->
      Wallet.deduct_funds w amount description db = (Ok (false, w), db))
  /\ (forall ops, 0 <= balance (fst (run_ops ops (w, db))))
  /\ (forall ops,
        wallets db !! user w = Some w ->
        exists w', wallets (snd (run_ops ops (w, db))) !! user w = Some w'
                   /\ 0 <= balance w').
Proof.
  intros Hbal.
  assert (Hinv : forall ops, wallet_inv w db (run_ops ops (w, db))).
  { intros ops. apply run_ops_inv. repeat split; simpl; auto. }
  split; [| split].
  - intros amount description Hbad. by apply deduct_funds_rejects.
  - intros ops. apply (Hinv ops).
  - intros ops Hrow. destruct (Hinv ops) as (Hb & _ & Hr).
    eexists. split; [apply Hr, Hrow | exact Hb].
Qed.

Lemma deduct_funds_never_overdraws_witness :
  0 <= balance wallet_100
  /\ Wallet.deduct_funds wallet_100 10001 "session X" empty_db
     = (Ok (false, wallet_100), empty_db)
  /\ 0 <= balance (fst (run_ops [debit_op 3000 "session X"; debit_op 8000 "session Y";
                                 credit_op 500 "gift" WalletTransaction.credit]
                                (wallet_100, empty_db))).
Proof.
  assert (H : 0 <= balance wallet_100) by (simpl; lia).
  destruct (deduct_funds_never_overdraws wallet_100 empty_db H) as (Hd & Hops & _).
  split; [exact H | split].
  - apply Hd. right. simpl. lia.
  - apply Hops.
Defined.

(** C7. A debit of [amount], [0 < amount <= balance], followed at once by a
    credit of [amount] on the wallet the debit left: both succeed, the
    wallet is back to what it was, its row holds the original balance, and
    the ledger has grown by exactly two rows, the debit then the credit,
    each with the balance after its operation. *)
Theorem debit_then_credit_restores (w : Wallet) (amount : Z)
    (d1 d2 : string) (db : DB) :
  0 < amount -> amount <= balance w ->
  exists w1 db1 db2,
    Wallet.deduct_funds w amount d1 db = (Ok (true, w1), db1)
    /\ Wallet.add_funds w1 amount d2 WalletTransaction.credit db1
       = (Ok (true, w), db2)
    /\ wallets db2 !! user w = Some w
    /\ wallet_transactions db2
       = (wallet_transactions db
          ++ [ {| WalletTransaction.wallet := user w;
                  WalletTransaction.transaction_type := WalletTransaction.debit;
                  WalletTransaction.amount := amount;
                  WalletTransaction.description := d1;
                  WalletTransaction.balance_after := balance w - amount |};
               {| WalletTransaction.wallet := user w;
                  WalletTransaction.transaction_type := WalletTransaction.credit;
                  WalletTransaction.amount := amount;
                  WalletTransaction.description := d2;
                  WalletTransaction.balance_after := balance w |} ])%list.
Proof.
  intros Hpos Hcover.
  pose (w1 := Wallet.set_balance (balance w - amount) w).
  assert (Hback : Wallet.set_balance (balance w1 + amount) w1 = w).
  { destruct w as [u b a]. unfold w1, Wallet.set_balance. simpl.
    f_equal. lia. }
  assert (Hb : balance w1 + amount = balance w) by (simpl; lia).
  pose proof (deduct_funds_accepts w db amount d1 Hpos Hcover) as Hd.
  cbv zeta in Hd. fold w1 in Hd.
  match type of Hd with _ = (_, ?d) => set (db1 := d) in * end.
  pose proof (add_funds_accepts w1 db1 amount d2 WalletTransaction.credit Hpos)
    as Ha.
  cbv zeta in Ha. rewrite Hback, Hb in Ha.
  change (user w1) with (user w) in Ha.
  eexists w1, db1, _. split; [exact Hd | split; [exact Ha |]].
  split; [apply lookup_insert_eq |].
  simpl. rewrite <- app_assoc. reflexivity.
Qed.

Lemma debit_then_credit_restores_witness :
  0 < 3000 /\ 3000 <= balance wallet_100
  /\ exists w1 db1 db2,
       Wallet.deduct_funds wallet_100 3000 "session X" empty_db
       = (Ok (true, w1), db1)
       /\ Wallet.add_funds w1 3000 "refund" WalletTransaction.credit db1
          = (Ok (true, wallet_100), db2)
       /\ wallets db2 !! user wallet_100 = Some wallet_100
       /\ wallet_transactions db2
          = (wallet_transactions empty_db
             ++ [ {| WalletTransaction.wallet := user wallet_100;
                     WalletTransaction.transaction_type := WalletTransaction.debit;
                     WalletTransaction.amount := 3000;
                     WalletTransaction.description := "session X";
                     WalletTransaction.balance_after := balance wallet_100 - 3000 |};
                  {| WalletTransaction.wallet := user wallet_100;
                     WalletTransaction.transaction_type := WalletTransaction.credit;
                     WalletTransaction.amount := 3000;
                     WalletTransaction.description := "refund";
                     WalletTransaction.balance_after := balance wallet_100 |} ])%list.
Proof.
  assert (H1 : 0 < 3000) by lia.
  assert (H2 : 3000 <= balance wallet_100) by (simpl; lia).
  split; [exact H1 | split; [exact H2 |]].
  exact (debit_then_credit_restores wallet_100 3000 "session X" "refund"
           empty_db H1 H2).
Defined.

(** The spec's scenario: GHS 30.00 debited from GHS 100.00. *)
Example debit_30_of_100 :
  Wallet.deduct_funds wallet_100 3000 "session X" wallet_db
  = (Ok (true, Wallet.set_balance 7000 wallet_100),
     with_wallet_transactions
       (fun l => (l ++ [ {| WalletTransaction.wallet := 7;
                            WalletTransaction.transaction_type := WalletTransaction.debit;
                            WalletTransaction.amount := 3000;
                            WalletTransaction.description := "session X";
                            WalletTransaction.balance_after := 7000 |} ])%list)
       (with_wallets (insert 7 (Wallet.set_balance 7000 wallet_100)) wallet_db)).
Proof. reflexivity. Qed.

(** C10. [has_sufficient_balance] is the comparison [balance >= amount],
    a pure function of the wallet object; on a non-negative balance it
    answers [True] for zero and for negative amounts, which [add_funds] and
    [deduct_funds] both reject. *)
Theorem has_sufficient_balance_spec (w : Wallet) (amount : Z) :
  (Wallet.has_sufficient_balance w amount = true <-> amount <= balance w)
  /\ (0 <= balance w -> amount <= 0 ->
      Wallet.has_sufficient_balance w amount = true
      /\ forall description transaction_type db,
           Wallet.add_funds w amount description transaction_type db
           = (Ok (false, w), db)
           /\ Wallet.deduct_funds w amount description db
              = (Ok (false, w), db)).
Proof.
  unfold Wallet.has_sufficient_balance. split.
  - apply Z.geb_le.
  - intros Hbal Hle. split; [apply Z.geb_le; lia |].
    intros description transaction_type db. split.
    + by apply add_funds_rejects.
    + apply deduct_funds_rejects. by left.
Qed.

Lemma has_sufficient_balance_spec_witness :
  0 <= balance wallet_100 /\ -500 <= 0
  /\ Wallet.has_sufficient_balance wallet_100 (-500) = true
  /\ Wallet.add_funds wallet_100 (-500) "x" WalletTransaction.credit empty_db
     = (Ok (false, wallet_100), empty_db)
  /\ Wallet.deduct_funds wallet_100 (-500) "x" empty_db
     = (Ok (false, wallet_100), empty_db).
Proof.
  assert (H1 : 0 <= balance wallet_100) by (simpl; lia).
  assert (H2 : -500 <= 0) by lia.
  destruct (has_sufficient_balance_spec wallet_100 (-500)) as [_ H].
  destruct (H H1 H2) as [Hs Hrej].
  destruct (Hrej "x" WalletTransaction.credit empty_db) as [Ha Hd].
  split; [exact H1 | split; [exact H2 | split; [exact Hs | split; [exact Ha | exact Hd]]]].
Defined.

(** ** Refund requests *)

Section RefundFacts.
Variables (u : CustomUser.t) (payment_id : N) (db : DB) (p : Payment.t).
Hypothesis Hstored : payments db !! payment_id = Some p.
Hypothesis Howner : Payment.user p = CustomUser.id u.

Lemma form_valid_not_completed reason detail amount :
  Payment.status p <> Payment.completed ->
  RequestRefundView.form_valid u payment_id reason detail amount db
  = (Ok {| http := redirect "payments:payment_list" None;
           messages := [(error, "Only completed payments can be refunded.")] |},
     db).
Proof.
  intros Hstatus. unfold RequestRefundView.form_valid, bind, get_payment_or_404, has_refund.
  rewrite Hstored, bool_decide_true by exact Howner.
  destruct (Payment.status p); try reflexivity. by destruct Hstatus.
Qed.

Lemma form_valid_has_refund reason detail amount :
  Payment.status p = Payment.completed ->
  is_Some (refunds db !! payment_id) ->
  RequestRefundView.form_valid u payment_id reason detail amount db
  = (Ok {| http := redirect "payments:payment_list" None;
           messages := [(error, "Refund request already exists for this payment.")] |},
     db).
Proof.
  intros Hstatus Hrefund.
  unfold RequestRefundView.form_valid, bind, get_payment_or_404, has_refund.
  rewrite Hstored, bool_decide_true by exact Howner.
  rewrite Hstatus. simpl. by rewrite bool_decide_true.
Qed.

Lemma form_valid_creates reason detail amount :
  Payment.status p = Payment.completed ->
  refunds db !! payment_id = None ->
  RequestRefundView.form_valid u payment_id reason detail amount db
  = (Ok {| http := redirect "payments:payment_list" None;
           messages := [(success, "Refund request submitted successfully.")] |},
     with_refunds
       (insert payment_id
          {| Refund.reason := reason; Refund.reason_detail := detail;
             Refund.amount :=
               match amount with
               | None => Payment.amount p
               | Some a => if (a =? 0)%Z then Payment.amount p else a
               end;
             Refund.status := Refund.requested |}) db).
Proof.
  intros Hstatus Hnone.
  unfold RequestRefundView.form_valid, bind, get_payment_or_404, has_refund.
  rewrite Hstored, bool_decide_true by exact Howner.
  rewrite Hstatus. simpl. rewrite bool_decide_false; [reflexivity |].
  rewrite Hnone. by intros [? ?].
Qed.
End RefundFacts.

(** C8. A refund request on a payment whose status is not [completed] is
    refused with "Only completed payments can be refunded."; on a completed
    payment that already has a refund it is refused with "Refund request
    already exists for this payment."; either way the database is left as
    it was. In particular a second request, after one that was accepted, is
    refused in the second way. *)
Theorem refund_request_refused (u : CustomUser.t) (payment_id : N) (db : DB)
    (p : Payment.t) (reason detail : string) (amount : option Z) :
  payments db !! payment_id = Some p ->
  Payment.user p = CustomUser.id u ->
  (Payment.status p <> Payment.completed ->
     RequestRefundView.form_valid u payment_id reason detail amount db
     = (Ok {| http := redirect "payments:payment_list" None;
              messages := [(error, "Only completed payments can be refunded.")] |},
        db))
  /\ (Payment.status p = Payment.completed ->
      is_Some (refunds db !! payment_id) ->
      RequestRefundView.form_valid u payment_id reason detail amount db
      = (Ok {| http := redirect "payments:payment_list" None;
               messages := [(error, "Refund request already exists for this payment.")] |},
         db))
  /\ (Payment.status p = Payment.completed ->
      refunds db !! payment_id = None ->
      forall reason' detail' amount',
        let db1 :=
          snd (RequestRefundView.form_valid u payment_id reason detail amount db) in
        is_Some (refunds db1 !! payment_id)
        /\ RequestRefundView.form_valid u payment_id reason' detail' amount' db1
           = (Ok {| http := redirect "payments:payment_list" None;
                    messages := [(error, "Refund request already exists for this payment.")] |},
              db1)).
Proof.
  intros Hstored Howner. split; [| split].
  - by apply form_valid_not_completed.
  - by apply form_valid_has_refund.
  - intros Hstatus Hnone reason' detail' amount'.
    rewrite (form_valid_creates u payment_id db p Hstored Howner) by assumption.
    simpl.
    match goal with |- is_Some (?m !! _) /\ _ =>
      assert (Hnow : is_Some (m !! payment_id))
        by (rewrite lookup_insert_eq; eauto)
    end.
    split; [exact Hnow |].
    apply (form_valid_has_refund u payment_id _ p); auto.
Qed.

Lemma refund_request_refused_witness :
  payments topup_db !! 1%N = Some topup_50
  /\ Payment.user topup_50 = CustomUser.id student
  /\ Payment.status topup_50 <> Payment.completed
  /\ RequestRefundView.form_valid student 1 "other" "why" None topup_db
     = (Ok {| http := redirect "payments:payment_list" None;
              messages := [(error, "Only completed payments can be refunded.")] |},
        topup_db).
Proof.
  assert (H1 : payments topup_db !! 1%N = Some topup_50) by reflexivity.
  assert (H2 : Payment.user topup_50 = CustomUser.id student) by reflexivity.
  assert (H3 : Payment.status topup_50 <> Payment.completed) by discriminate.
  split; [exact H1 | split; [exact H2 | split; [exact H3 |]]].
  exact (proj1 (refund_request_refused student 1 topup_db topup_50
                  "other" "why" None H1 H2) H3).
Defined.

(** C3, as the claim has it, fails: a request for GHS 150.00 against a
    completed payment of GHS 100.00 is accepted and stored. *)
Lemma refund_above_payment_accepted :
  Payment.status paid_100 = Payment.completed
  /\ Payment.amount paid_100 = 10000
  /\ RequestRefundView.form_valid student 2 "other" "changed my mind"
       (Some 15000) paid_db
     = (Ok {| http := redirect "payments:payment_list" None;
              messages := [(success, "Refund request submitted successfully.")] |},
        with_refunds
          (insert 2%N {| Refund.reason := "other";
                         Refund.reason_detail := "changed my mind";
                         Refund.amount := 15000;
                         Refund.status := Refund.requested |}) paid_db).
Proof. repeat split. Qed.

(** C3, amended. On a completed payment of the requesting user that has no
    refund yet, the request is accepted and stores a refund in status
    [requested]: of the full payment amount when the amount is left blank
    (or is zero), and of the amount entered otherwise, which is not compared
    with the payment amount. *)
Theorem refund_amount_stored (u : CustomUser.t) (payment_id : N) (db : DB)
    (p : Payment.t) (reason detail : string) :
  payments db !! payment_id = Some p ->
  Payment.user p = CustomUser.id u ->
  Payment.status p = Payment.completed ->
  refunds db !! payment_id = None ->
  let stored amount form_amount :=
    RequestRefundView.form_valid u payment_id reason detail form_amount db
    = (Ok {| http := redirect "payments:payment_list" None;
             messages := [(success, "Refund request submitted successfully.")] |},
       with_refunds
         (insert payment_id
            {| Refund.reason := reason; Refund.reason_detail := detail;
               Refund.amount := amount;
               Refund.status := Refund.requested |}) db) in
  stored (Payment.amount p) None
  /\ stored (Payment.amount p) (Some 0)
  /\ forall a, a <> 0 -> stored a (Some a).
Proof.
  intros Hstored Howner Hstatus Hnone. cbv zeta.
  split; [| split]; [| | intros a Ha];
    rewrite (form_valid_creates u payment_id db p Hstored Howner) by assumption;
    try reflexivity.
  destruct (Z.eqb_spec a 0) as [->|_]; [by destruct Ha | reflexivity].
Qed.

Lemma refund_amount_stored_witness :
  payments paid_db !! 2%N = Some paid_100
  /\ Payment.user paid_100 = CustomUser.id student
  /\ Payment.status paid_100 = Payment.completed
  /\ refunds paid_db !! 2%N = None
  /\ RequestRefundView.form_valid student 2 "other" "changed my mind" None paid_db
     = (Ok {| http := redirect "payments:payment_list" None;
              messages := [(success, "Refund request submitted successfully.")] |},
        with_refunds
          (insert 2%N {| Refund.reason := "other";
                         Refund.reason_detail := "changed my mind";
                         Refund.amount := Payment.amount paid_100;
                         Refund.status := Refund.requested |}) paid_db).
Proof.
  assert (H1 : payments paid_db !! 2%N = Some paid_100) by reflexivity.
  assert (H2 : Payment.user paid_100 = CustomUser.id student) by reflexivity.
  assert (H3 : Payment.status paid_100 = Payment.completed) by reflexivity.
  assert (H4 : refunds paid_db !! 2%N = None) by reflexivity.
  split; [exact H1 | split; [exact H2 | split; [exact H3 | split; [exact H4 |]]]].
  exact (proj1 (refund_amount_stored student 2 paid_db paid_100
                  "other" "changed my mind" H1 H2 H3 H4)).
Defined.

(** ** Which payment rows a computation writes *)

Section Frames.
Context {A B : Type}.

Lemma keeps_ret (a : A) : keeps_payments (ret a).
Proof. intros db. reflexivity. Qed.

Lemma keeps_raise (e : exn) : keeps_payments (raise e : M A).
Proof. intros db. reflexivity. Qed.

Lemma keeps_bind (m : M A) (k : A -> M B) :
  keeps_payments m -> (forall a, keeps_payments (k a)) ->
  keeps_payments (bind m k).
Proof.
  intros Hm Hk db. unfold bind. specialize (Hm db).
  destruct (m db) as [[a|e] db']; simpl in *; [| exact Hm].
  rewrite (Hk a db'). exact Hm.
Qed.

Lemma keeps_try_except (m : M A) (handler : exn -> option (M A)) :
  keeps_payments m ->
  (forall e h, handler e = Some h -> keeps_payments h) ->
  keeps_payments (try_except m handler).
Proof.
  intros Hm Hh db. unfold try_except. specialize (Hm db).
  destruct (m db) as [[a|e] db']; simpl in *; [exact Hm |].
  destruct (handler e) as [h|] eqn:He; simpl; [| exact Hm].
  rewrite (Hh e h He db'). exact Hm.
Qed.

Lemma keeps_touches (pk : N) (m : M A) :
  keeps_payments m -> touches_only pk m.
Proof. intros Hm db k _. by rewrite Hm. Qed.

Lemma touches_bind (pk : N) (m : M A) (k : A -> M B) :
  touches_only pk m -> (forall a, touches_only pk (k a)) ->
  touches_only pk (bind m k).
Proof.
  intros Hm Hk db j Hj. unfold bind. specialize (Hm db j Hj).
  destruct (m db) as [[a|e] db']; simpl in *; [| exact Hm].
  rewrite (Hk a db' j Hj). exact Hm.
Qed.

Lemma touches_try_except (pk : N) (m : M A) (handler : exn -> option (M A)) :
  touches_only pk m ->
  (forall e h, handler e = Some h -> touches_only pk h) ->
  touches_only pk (try_except m handler).
Proof.
  intros Hm Hh db j Hj. unfold try_except. specialize (Hm db j Hj).
  destruct (m db) as [[a|e] db']; simpl in *; [exact Hm |].
  destruct (handler e) as [h|] eqn:He; simpl; [| exact Hm].
  rewrite (Hh e h He db' j Hj). exact Hm.
Qed.
End Frames.

Lemma keeps_modify (f : DB -> DB) :
  (forall db, payments (f db) = payments db) -> keeps_payments (modify f).
Proof. intros Hf db. apply Hf. Qed.

Lemma touches_Payment_save pk row : touches_only pk (Payment_save pk row).
Proof. intros db k Hk. simpl. by rewrite lookup_insert_ne. Qed.

Lemma touches_Payment_delete pk : touches_only pk (Payment_delete pk).
Proof. intros db k Hk. simpl. by rewrite lookup_delete_ne. Qed.

Lemma touches_Payment_objects_create pk row :
  touches_only pk (Payment_objects_create pk row).
Proof.
  intros db k Hk. unfold Payment_objects_create.
  destruct (payments db !! pk); simpl; [reflexivity |].
  by rewrite lookup_insert_ne.
Qed.

Lemma keeps_respond h ms : keeps_payments (respond h ms).
Proof. intros db. reflexivity. Qed.

Lemma keeps_Payment_objects_get payment_id :
  keeps_payments (Payment_objects_get payment_id).
Proof.
  intros db. unfold Payment_objects_get.
  destruct payment_id as [[pk|text]|]; [destruct (payments db !! pk) | |];
    reflexivity.
Qed.

Lemma keeps_get_payment_or_404 pk u : keeps_payments (get_payment_or_404 pk u).
Proof.
  intros db. unfold get_payment_or_404.
  destruct (payments db !! pk); [case_bool_decide |]; reflexivity.
Qed.

Lemma keeps_get_session_or_404 sid : keeps_payments (get_session_or_404 sid).
Proof.
  intros db. unfold get_session_or_404. by destruct (sessions db !! sid).
Qed.

Lemma keeps_related_session sid : keeps_payments (related_session sid).
Proof.
  intros db. unfold related_session. by destruct (sessions db !! sid).
Qed.

Lemma keeps_TutoringSession_save sid row :
  keeps_payments (TutoringSession_save sid row).
Proof. intros db. reflexivity. Qed.

Lemma keeps_related_wallet u : keeps_payments (related_wallet u).
Proof. intros db. unfold related_wallet. by destruct (wallets db !! u). Qed.

Lemma keeps_Wallet_objects_get_or_create u :
  keeps_payments (Wallet_objects_get_or_create u).
Proof.
  intros db. unfold Wallet_objects_get_or_create.
  by destruct (wallets db !! u).
Qed.

Lemma keeps_add_funds w amount description transaction_type :
  keeps_payments (Wallet.add_funds w amount description transaction_type).
Proof.
  intros db. unfold Wallet.add_funds. by destruct (amount >? 0).
Qed.

Lemma keeps_wallet_object_add_funds self amount description transaction_type :
  keeps_payments
    (wallet_object_add_funds self amount description transaction_type).
Proof.
  intros db. unfold wallet_object_add_funds, bind.
  destruct self as [w|u]; [| by destruct (amount >? 0)].
  pose proof (keeps_add_funds w amount description transaction_type db) as Hw.
  by destruct (Wallet.add_funds w amount description transaction_type db)
    as [[[]|] ?].
Qed.

Lemma keeps_deduct_funds w amount description :
  keeps_payments (Wallet.deduct_funds w amount description).
Proof.
  intros db. unfold Wallet.deduct_funds.
  by destruct ((balance w >=? amount) && (amount >? 0)).
Qed.

Lemma keeps_TutorSubscription_objects_get_or_create u defaults :
  keeps_payments (TutorSubscription_objects_get_or_create u defaults).
Proof.
  intros db. unfold TutorSubscription_objects_get_or_create.
  by destruct (subscriptions db !! u).
Qed.

Lemma keeps_TutorSubscription_save u row :
  keeps_payments (TutorSubscription_save u row).
Proof. intros db. reflexivity. Qed.

Lemma keeps_related_tutor_profile u : keeps_payments (related_tutor_profile u).
Proof.
  intros db. unfold related_tutor_profile.
  by destruct (tutor_profiles db !! u).
Qed.

Lemma keeps_TutorProfile_save u row : keeps_payments (TutorProfile_save u row).
Proof. intros db. reflexivity. Qed.

Lemma keeps_has_refund pk : keeps_payments (has_refund pk).
Proof. intros db. reflexivity. Qed.

Lemma keeps_Refund_save pk row : keeps_payments (Refund_save pk row).
Proof. intros db. reflexivity. Qed.

Create HintDb frame.
#[local] Hint Resolve keeps_ret keeps_raise keeps_respond
  keeps_Payment_objects_get keeps_get_payment_or_404 keeps_get_session_or_404
  keeps_related_session keeps_TutoringSession_save keeps_related_wallet
  keeps_Wallet_objects_get_or_create keeps_add_funds
  keeps_wallet_object_add_funds keeps_deduct_funds
  keeps_TutorSubscription_objects_get_or_create keeps_TutorSubscription_save
  keeps_related_tutor_profile keeps_TutorProfile_save keeps_has_refund
  keeps_Refund_save
  touches_Payment_save touches_Payment_delete touches_Payment_objects_create
  : frame.

(** Walks a computation along its binds and case distinctions. *)
Ltac frame :=
  repeat match goal with
    | |- keeps_payments (bind _ _) => apply keeps_bind; [| intros ?]
    | |- touches_only _ (bind _ _) => apply touches_bind; [| intros ?]
    | |- keeps_payments (try_except _ _) =>
        apply keeps_try_except; [| intros ? ? [= <-]]
    | |- touches_only _ (try_except _ _) =>
        apply touches_try_except; [| intros ? ? [= <-]]
    | |- keeps_payments (let _ := _ in _) => cbv zeta
    | |- touches_only _ (let _ := _ in _) => cbv zeta
    | |- keeps_payments (match ?x with _ => _ end) => destruct x
    | |- touches_only _ (match ?x with _ => _ end) => destruct x
    | |- keeps_payments _ => solve [auto with frame]
    | |- touches_only _ _ =>
        solve [auto with frame | apply keeps_touches; auto with frame]
    end.

Lemma keeps_create_tutor_subscription pk p now_start now_renew :
  keeps_payments
    (StripeWebhookView.create_tutor_subscription pk p now_start now_renew).
Proof. unfold StripeWebhookView.create_tutor_subscription. frame. Qed.

Lemma keeps_payment_type_side_effect pk p now_start now_renew :
  keeps_payments
    (StripeWebhookView.payment_type_side_effect pk p now_start now_renew).
Proof.
  pose proof keeps_create_tutor_subscription.
  unfold StripeWebhookView.payment_type_side_effect. frame.
Qed.

(** ** Gateway notifications *)

Lemma keeps_except_Payment_DoesNotExist e h :
  StripeWebhookView.except_Payment_DoesNotExist e = Some h ->
  keeps_payments h.
Proof.
  destruct e as [[] | | | | | | |]; simpl; intros [= <-]; apply keeps_ret.
Qed.

Lemma handle_payment_success_unknown payment_intent now now_start now_renew db :
  names_no_payment payment_intent db ->
  StripeWebhookView.handle_payment_success payment_intent now now_start
    now_renew db = (Ok tt, db).
Proof.
  unfold names_no_payment, StripeWebhookView.handle_payment_success,
    try_except, bind, Payment_objects_get.
  destruct (metadata_payment_id payment_intent) as [[pk|text]|];
    [intros -> | intros [] |]; reflexivity.
Qed.

Lemma handle_payment_failure_unknown payment_intent db :
  names_no_payment payment_intent db ->
  StripeWebhookView.handle_payment_failure payment_intent db = (Ok tt, db).
Proof.
  unfold names_no_payment, StripeWebhookView.handle_payment_failure,
    try_except, bind, Payment_objects_get.
  destruct (metadata_payment_id payment_intent) as [[pk|text]|];
    [intros -> | intros [] |]; reflexivity.
Qed.

(** A [payment_id] that is no UUID: the lookup raises [ValidationError],
    which [except Payment.DoesNotExist] lets through. *)
Lemma handle_payment_success_malformed payment_intent text now now_start
    now_renew db :
  metadata_payment_id payment_intent = Some (malformed text) ->
  StripeWebhookView.handle_payment_success payment_intent now now_start
    now_renew db = (Raise ValidationError, db).
Proof.
  intros Hid.
  unfold StripeWebhookView.handle_payment_success, try_except, bind,
    Payment_objects_get.
  by rewrite Hid.
Qed.

Lemma handle_payment_failure_malformed payment_intent text db :
  metadata_payment_id payment_intent = Some (malformed text) ->
  StripeWebhookView.handle_payment_failure payment_intent db
  = (Raise ValidationError, db).
Proof.
  intros Hid.
  unfold StripeWebhookView.handle_payment_failure, try_except, bind,
    Payment_objects_get.
  by rewrite Hid.
Qed.

Lemma handle_payment_success_found payment_intent pk p now now_start now_renew db :
  metadata_payment_id payment_intent = Some (well_formed pk) ->
  payments db !! pk = Some p ->
  StripeWebhookView.handle_payment_success payment_intent now now_start
    now_renew db
  = try_except
      (StripeWebhookView.payment_type_side_effect pk
         (stamped payment_intent now p) now_start now_renew)
      StripeWebhookView.except_Payment_DoesNotExist
      (with_payments (insert pk (stamped payment_intent now p)) db).
Proof.
  intros Hid Hp.
  unfold StripeWebhookView.handle_payment_success, try_except, bind,
    Payment_objects_get.
  rewrite Hid, Hp. reflexivity.
Qed.

Lemma handle_payment_success_row payment_intent pk p now now_start now_renew db :
  metadata_payment_id payment_intent = Some (well_formed pk) ->
  payments db !! pk = Some p ->
  payments (snd (StripeWebhookView.handle_payment_success payment_intent now
                   now_start now_renew db))
  = <[pk := stamped payment_intent now p]> (payments db).
Proof.
  intros Hid Hp. rewrite (handle_payment_success_found _ pk p) by assumption.
  rewrite keeps_try_except; [reflexivity | |].
  - apply keeps_payment_type_side_effect.
  - apply keeps_except_Payment_DoesNotExist.
Qed.

Lemma stamped_again payment_intent now now' p :
  stamped payment_intent now' (stamped payment_intent now p)
  = stamped payment_intent now' p.
Proof. reflexivity. Qed.

(** The handler never reads [status] or [completed_at]: on a payment that
    is already completed it does what it does on a pending one. *)
Lemma handle_payment_success_ignores_status payment_intent pk p now now_start
    now_renew db s c :
  metadata_payment_id payment_intent = Some (well_formed pk) ->
  payments db !! pk = Some p ->
  StripeWebhookView.handle_payment_success payment_intent now now_start
    now_renew
    (with_payments
       (insert pk (Payment.set_completed_at c (Payment.set_status s p))) db)
  = StripeWebhookView.handle_payment_success payment_intent now now_start
      now_renew db.
Proof.
  intros Hid Hp.
  rewrite (handle_payment_success_found _ pk
             (Payment.set_completed_at c (Payment.set_status s p)))
    by (try apply lookup_insert_eq; assumption).
  rewrite (handle_payment_success_found _ pk p) by assumption.
  f_equal. destruct db. unfold with_payments. simpl.
  by rewrite insert_insert_eq.
Qed.

(** The handler on a top-up, past the lookup and the save of the payment. *)
Lemma handle_payment_success_topup_branch payment_intent pk p now now_start
    now_renew db :
  metadata_payment_id payment_intent = Some (well_formed pk) ->
  payments db !! pk = Some p ->
  Payment.payment_type p = Payment.wallet_topup ->
  StripeWebhookView.handle_payment_success payment_intent now now_start
    now_renew db
  = (found <-- Wallet_objects_get_or_create (Payment.user p) ;;
     wallet_object_add_funds (fst found) (Payment.amount p)
       "Wallet top-up via Stripe" WalletTransaction.credit ;;;
     ret tt)
      (with_payments (insert pk (stamped payment_intent now p)) db).
Proof.
  intros Hid Hp Htype.
  rewrite (handle_payment_success_found _ pk p) by assumption.
  unfold try_except, StripeWebhookView.payment_type_side_effect.
  change (Payment.payment_type (stamped payment_intent now p))
    with (Payment.payment_type p).
  change (Payment.user (stamped payment_intent now p)) with (Payment.user p).
  change (Payment.amount (stamped payment_intent now p)) with (Payment.amount p).
  rewrite Htype.
  match goal with |- (let (r, db') := ?x in _) = _ =>
    assert (Hx : exists r db',
               x = (r, db') /\ (r = Ok tt \/ r = Raise TypeError));
      [| by destruct Hx as (r & db' & -> & [-> | ->])]
  end.
  unfold bind at 1. unfold Wallet_objects_get_or_create.
  change (wallets (with_payments (insert pk (stamped payment_intent now p)) db))
    with (wallets db).
  destruct (wallets db !! Payment.user p) as [w|];
    unfold bind, wallet_object_add_funds; cbn [fst].
  - unfold Wallet.add_funds.
    destruct (Payment.amount p >? 0); eexists _, _; split; try reflexivity;
      by left.
  - destruct (Payment.amount p >? 0); eexists _, _; split; try reflexivity;
      [by right | by left].
Qed.

(** The top-up branch for a user who has a wallet: it is credited with the
    payment amount, and the credit is logged. *)
Lemma handle_payment_success_topup payment_intent pk p w now now_start
    now_renew db :
  metadata_payment_id payment_intent = Some (well_formed pk) ->
  payments db !! pk = Some p ->
  Payment.payment_type p = Payment.wallet_topup ->
  0 < Payment.amount p ->
  wallets db !! Payment.user p = Some w ->
  user w = Payment.user p ->
  StripeWebhookView.handle_payment_success payment_intent now now_start
    now_renew db
  = (Ok tt,
     with_wallet_transactions
       (fun l =>
          (l ++ [topup_credit (Payment.user p) (Payment.amount p)
                   (balance w + Payment.amount p)])%list)
       (with_wallets
          (insert (Payment.user p)
             (Wallet.set_balance (balance w + Payment.amount p) w))
          (with_payments (insert pk (stamped payment_intent now p)) db))).
Proof.
  intros Hid Hp Htype Hpos Hw Huser.
  rewrite (handle_payment_success_topup_branch _ pk p) by assumption.
  unfold bind at 1. unfold Wallet_objects_get_or_create.
  cbn [wallets with_payments]. rewrite Hw.
  unfold bind at 1. unfold wallet_object_add_funds. cbn [fst]. unfold bind.
  rewrite add_funds_accepts by assumption.
  unfold topup_credit. by rewrite Huser.
Qed.

(** The same branch for a user who has none. [get_or_create] inserts the
    wallet row; [add_funds] raises on the object it returned, and the
    handler, which catches [Payment.DoesNotExist] only, lets the
    [TypeError] through. *)
Lemma handle_payment_success_first_topup payment_intent pk p now now_start
    now_renew db :
  metadata_payment_id payment_intent = Some (well_formed pk) ->
  payments db !! pk = Some p ->
  Payment.payment_type p = Payment.wallet_topup ->
  0 < Payment.amount p ->
  wallets db !! Payment.user p = None ->
  StripeWebhookView.handle_payment_success payment_intent now now_start
    now_renew db
  = (Raise TypeError,
     with_wallets
       (insert (Payment.user p)
          {| user := Payment.user p; balance := 0; is_active := true |})
       (with_payments (insert pk (stamped payment_intent now p)) db)).
Proof.
  intros Hid Hp Htype Hpos Hw.
  rewrite (handle_payment_success_topup_branch _ pk p) by assumption.
  unfold bind at 1. unfold Wallet_objects_get_or_create.
  cbn [wallets with_payments]. rewrite Hw.
  unfold bind, wallet_object_add_funds. cbn [fst].
  destruct (Z.gtb_spec (Payment.amount p) 0); [reflexivity | lia].
Qed.

(** A top-up whose stored amount is not positive credits nothing: the
    wallet row is created if it was missing, and that is all. *)
Lemma handle_payment_success_empty_topup payment_intent pk p now now_start
    now_renew db :
  metadata_payment_id payment_intent = Some (well_formed pk) ->
  payments db !! pk = Some p ->
  Payment.payment_type p = Payment.wallet_topup ->
  Payment.amount p <= 0 ->
  StripeWebhookView.handle_payment_success payment_intent now now_start
    now_renew db
  = (Ok tt,
     with_wallets
       (fun table =>
          match table !! Payment.user p with
          | Some _ => table
          | None =>
              <[Payment.user p :=
                  {| user := Payment.user p; balance := 0;
                     is_active := true |}]> table
          end)
       (with_payments (insert pk (stamped payment_intent now p)) db)).
Proof.
  intros Hid Hp Htype Hle.
  rewrite (handle_payment_success_topup_branch _ pk p) by assumption.
  unfold bind at 1. unfold Wallet_objects_get_or_create.
  change (wallets (with_payments (insert pk (stamped payment_intent now p)) db))
    with (wallets db).
  destruct (wallets db !! Payment.user p) as [w|] eqn:Hw;
    unfold bind, wallet_object_add_funds; cbn [fst].
  - unfold bind. rewrite add_funds_rejects by assumption. cbn [fst].
    unfold ret, with_wallets. cbn [wallets with_payments]. rewrite Hw.
    by destruct db.
  - destruct (Z.gtb_spec (Payment.amount p) 0); [lia |].
    unfold ret, with_wallets. cbn [wallets with_payments]. by rewrite Hw.
Qed.

(** C9. The handlers mean to ignore a notification that matches no
    stored payment ("might be from different system"), and miss a case: a
    [payment_id] that is not the text of a UUID matches no stored payment
    and is not ignored. The lookup raises [ValidationError], which
    [except Payment.DoesNotExist] does not catch: both handlers raise, the
    database untouched, and the webhook raises in place of answering 200. *)
Lemma malformed_payment_id_raises :
  let payment_intent :=
    {| intent_id := "pi_404";
       metadata_payment_id := Some (malformed "not-a-uuid") |} in
  StripeWebhookView.handle_payment_success payment_intent 10 11 12 topup_db
  = (Raise ValidationError, topup_db)
  /\ StripeWebhookView.handle_payment_failure payment_intent topup_db
     = (Raise ValidationError, topup_db)
  /\ StripeWebhookView.post
       (Some {| event_type := "payment_intent.succeeded";
                data_object := payment_intent |}) 10 11 12 topup_db
     = (Raise ValidationError, topup_db)
  /\ StripeWebhookView.post
       (Some {| event_type := "payment_intent.payment_failed";
                data_object := payment_intent |}) 10 11 12 topup_db
     = (Raise ValidationError, topup_db).
Proof. cbv zeta. repeat split. Qed.

(** Every notification that matches no stored payment. When its
    [payment_id] is absent, or is a UUID that names no stored payment, it
    is swallowed: both handlers return normally and leave the database
    untouched, and the webhook answers 200 whatever the event type. When
    its [payment_id] is not the text of a UUID it is not: both handlers
    raise [ValidationError], the database still untouched, and the webhook
    raises for the two event types it handles and answers 200 for any
    other. *)
Theorem unmatched_payment_notification (payment_intent : payment_intent)
    (db : DB) :
  (names_no_payment payment_intent db ->
   (forall now now_start now_renew,
       StripeWebhookView.handle_payment_success payment_intent now now_start
         now_renew db = (Ok tt, db))
   /\ StripeWebhookView.handle_payment_failure payment_intent db = (Ok tt, db)
   /\ (forall type now now_start now_renew,
         StripeWebhookView.post
           (Some {| event_type := type; data_object := payment_intent |})
           now now_start now_renew db
         = (Ok (HttpResponseStatus 200), db)))
  /\ (forall text,
        metadata_payment_id payment_intent = Some (malformed text) ->
        (forall now now_start now_renew,
            StripeWebhookView.handle_payment_success payment_intent now
              now_start now_renew db = (Raise ValidationError, db))
        /\ StripeWebhookView.handle_payment_failure payment_intent db
           = (Raise ValidationError, db)
        /\ (forall type now now_start now_renew,
              StripeWebhookView.post
                (Some {| event_type := type; data_object := payment_intent |})
                now now_start now_renew db
              = (if (type =? "payment_intent.succeeded")%string
                    || (type =? "payment_intent.payment_failed")%string
                 then Raise ValidationError
                 else Ok (HttpResponseStatus 200), db))).
Proof.
  split.
  - intros Hnone. split; [| split].
    + intros. by apply handle_payment_success_unknown.
    + by apply handle_payment_failure_unknown.
    + intros type now now_start now_renew.
      unfold StripeWebhookView.post, bind. simpl.
      destruct (type =? "payment_intent.succeeded")%string.
      * by rewrite handle_payment_success_unknown.
      * destruct (type =? "payment_intent.payment_failed")%string;
          [by rewrite handle_payment_failure_unknown | reflexivity].
  - intros text Hid. split; [| split].
    + intros. by apply (handle_payment_success_malformed _ text).
    + by apply (handle_payment_failure_malformed _ text).
    + intros type now now_start now_renew.
      unfold StripeWebhookView.post, bind. simpl.
      destruct (type =? "payment_intent.succeeded")%string.
      * by rewrite (handle_payment_success_malformed _ text).
      * destruct (type =? "payment_intent.payment_failed")%string;
          [by rewrite (handle_payment_failure_malformed _ text) | reflexivity].
Qed.

Lemma unmatched_payment_notification_witness :
  names_no_payment
    {| intent_id := "pi_404"; metadata_payment_id := Some (well_formed 99) |}
    topup_db
  /\ StripeWebhookView.post
       (Some {| event_type := "payment_intent.succeeded";
                data_object :=
                  {| intent_id := "pi_404";
                     metadata_payment_id := Some (well_formed 99) |} |})
       10 11 12 topup_db
     = (Ok (HttpResponseStatus 200), topup_db)
  /\ StripeWebhookView.post
       (Some {| event_type := "payment_intent.payment_failed";
                data_object :=
                  {| intent_id := "pi_405";
                     metadata_payment_id := Some (malformed "") |} |})
       10 11 12 topup_db
     = (Raise ValidationError, topup_db).
Proof.
  assert (H : names_no_payment
                {| intent_id := "pi_404";
                   metadata_payment_id := Some (well_formed 99) |} topup_db)
    by reflexivity.
  split; [exact H | split].
  - exact (proj2 (proj2 (proj1 (unmatched_payment_notification _ topup_db) H))
             "payment_intent.succeeded" 10 11 12).
  - exact (proj2 (proj2 (proj2 (unmatched_payment_notification
                                  {| intent_id := "pi_405";
                                     metadata_payment_id := Some (malformed "") |}
                                  topup_db) "" eq_refl))
             "payment_intent.payment_failed" 10 11 12).
Defined.

(** C1, as the claim has it, fails: the second delivery of the success
    notification for a GHS 50.00 top-up is not a no-op. It stamps
    [completed_at] again and credits the wallet, which held GHS 100.00, a
    second time. *)
Lemma second_success_notification_credits_again :
  let db1 :=
    snd (StripeWebhookView.handle_payment_success topup_intent 10 10 10
           funded_topup_db) in
  let db2 :=
    snd (StripeWebhookView.handle_payment_success topup_intent 20 20 20 db1) in
  (balance <$> wallets funded_topup_db !! 7) = Some 10000
  /\ (Payment.status <$> payments db1 !! 1%N) = Some Payment.completed
  /\ (Payment.completed_at <$> payments db1 !! 1%N) = Some (Some 10)
  /\ (Payment.completed_at <$> payments db2 !! 1%N) = Some (Some 20)
  /\ (balance <$> wallets db1 !! 7) = Some 15000
  /\ (balance <$> wallets db2 !! 7) = Some 20000
  /\ length (wallet_transactions db1) = 1%nat
  /\ length (wallet_transactions db2) = 2%nat
  /\ db2 <> db1.
Proof.
  cbv zeta. repeat (split; [reflexivity |]).
  intros Heq. apply (f_equal (fun d => length (wallet_transactions d))) in Heq.
  vm_compute in Heq. discriminate.
Qed.

(** The first top-up of a user who has no wallet yet. [get_or_create]
    hands back the object it built, whose balance is a float: the first
    delivery creates the wallet row and raises before it credits anything;
    the second finds the row and credits it. *)
Example first_topup_without_wallet :
  let out1 :=
    StripeWebhookView.handle_payment_success topup_intent 10 10 10 topup_db in
  let out2 :=
    StripeWebhookView.handle_payment_success topup_intent 20 20 20 (snd out1) in
  wallets topup_db !! 7 = None
  /\ fst out1 = Raise TypeError
  /\ (Payment.status <$> payments (snd out1) !! 1%N) = Some Payment.completed
  /\ (balance <$> wallets (snd out1) !! 7) = Some 0
  /\ wallet_transactions (snd out1) = []
  /\ fst out2 = Ok tt
  /\ (balance <$> wallets (snd out2) !! 7) = Some 5000
  /\ length (wallet_transactions (snd out2)) = 1%nat.
Proof. cbv zeta. repeat split. Qed.

(** C1, amended. Every delivery of a success notification for a stored
    payment writes the payment with status [completed] and with
    [completed_at] set to the time of that delivery, whatever the status
    was: after two deliveries the status is [completed] and [completed_at]
    is the time of the second. The handler does on a payment that is
    already completed exactly what it does on a pending one. For a top-up of
    a positive amount by a user who has a wallet, both deliveries return
    normally and the wallet is credited once per delivery, so twice in all,
    with one ledger row each. *)
Theorem completion_repeats_on_redelivery (payment_intent : payment_intent)
    (pk : N) (p : Payment.t) (db : DB) (t1 s1 r1 t2 s2 r2 : Z) :
  metadata_payment_id payment_intent = Some (well_formed pk) ->
  payments db !! pk = Some p ->
  let out1 :=
    StripeWebhookView.handle_payment_success payment_intent t1 s1 r1 db in
  let db1 := snd out1 in
  let out2 :=
    StripeWebhookView.handle_payment_success payment_intent t2 s2 r2 db1 in
  let db2 := snd out2 in
  let u := Payment.user p in
  let a := Payment.amount p in
  payments db1 !! pk = Some (stamped payment_intent t1 p)
  /\ payments db2 !! pk = Some (stamped payment_intent t2 p)
  /\ Payment.status (stamped payment_intent t2 p) = Payment.completed
  /\ Payment.completed_at (stamped payment_intent t2 p) = Some t2
  /\ (forall s c,
        StripeWebhookView.handle_payment_success payment_intent t1 s1 r1
          (with_payments
             (insert pk (Payment.set_completed_at c (Payment.set_status s p)))
             db)
        = StripeWebhookView.handle_payment_success payment_intent t1 s1 r1 db)
  /\ (forall w,
        Payment.payment_type p = Payment.wallet_topup ->
        0 < a ->
        wallets db !! u = Some w ->
        user w = u ->
        fst out1 = Ok tt
        /\ fst out2 = Ok tt
        /\ wallets db2 !! u = Some (Wallet.set_balance (balance w + 2 * a) w)
        /\ wallet_transactions db2
           = (wallet_transactions db
              ++ [topup_credit u a (balance w + a);
                  topup_credit u a (balance w + 2 * a)])%list).
Proof.
  intros Hid Hp out1 db1 out2 db2 u a.
  assert (H1 : payments db1 !! pk = Some (stamped payment_intent t1 p)).
  { unfold db1, out1. rewrite (handle_payment_success_row _ pk p) by assumption.
    apply lookup_insert_eq. }
  assert (H2 : payments db2 !! pk = Some (stamped payment_intent t2 p)).
  { unfold db2, out2.
    rewrite (handle_payment_success_row _ pk (stamped payment_intent t1 p))
      by assumption.
    rewrite stamped_again. apply lookup_insert_eq. }
  split; [exact H1 | split; [exact H2 | split; [reflexivity | split; [reflexivity |]]]].
  split; [intros s c; by apply handle_payment_success_ignores_status |].
  intros w Htype Hpos Hw Huser.
  assert (Hrun1 := handle_payment_success_topup payment_intent pk p w t1 s1 r1
                     db Hid Hp Htype Hpos Hw Huser).
  fold out1 in Hrun1. fold u a in Hrun1.
  assert (Hw1 : wallets db1 !! u
                = Some (Wallet.set_balance (balance w + a) w)).
  { unfold db1. rewrite Hrun1.
    cbn [snd wallets with_wallets with_wallet_transactions].
    apply lookup_insert_eq. }
  assert (Hrun2 := handle_payment_success_topup payment_intent pk
                     (stamped payment_intent t1 p)
                     (Wallet.set_balance (balance w + a) w) t2 s2 r2 db1
                     Hid H1 Htype Hpos Hw1 Huser).
  fold out2 in Hrun2.
  change (Payment.user (stamped payment_intent t1 p)) with u in Hrun2.
  change (Payment.amount (stamped payment_intent t1 p)) with a in Hrun2.
  unfold db2. rewrite Hrun2. unfold db1. rewrite Hrun1.
  cbn [fst snd wallets wallet_transactions with_wallets
       with_wallet_transactions with_payments].
  rewrite lookup_insert_eq, <- app_assoc.
  cbn [Wallet.set_balance balance user is_active].
  replace (balance w + a + a) with (balance w + 2 * a) by lia.
  by repeat split.
Qed.

Lemma completion_repeats_on_redelivery_witness :
  let db2 :=
    snd (StripeWebhookView.handle_payment_success topup_intent 20 20 20
           (snd (StripeWebhookView.handle_payment_success topup_intent 10 10 10
                   funded_topup_db))) in
  metadata_payment_id topup_intent = Some (well_formed 1)
  /\ payments funded_topup_db !! 1%N = Some topup_50
  /\ Payment.payment_type topup_50 = Payment.wallet_topup
  /\ 0 < Payment.amount topup_50
  /\ wallets funded_topup_db !! Payment.user topup_50 = Some wallet_100
  /\ payments db2 !! 1%N = Some (stamped topup_intent 20 topup_50)
  /\ wallets db2 !! Payment.user topup_50
     = Some (Wallet.set_balance
               (balance wallet_100 + 2 * Payment.amount topup_50) wallet_100).
Proof.
  assert (H1 : metadata_payment_id topup_intent = Some (well_formed 1))
    by reflexivity.
  assert (H2 : payments funded_topup_db !! 1%N = Some topup_50) by reflexivity.
  assert (H3 : Payment.payment_type topup_50 = Payment.wallet_topup)
    by reflexivity.
  assert (H4 : 0 < Payment.amount topup_50) by (simpl; lia).
  assert (H5 : wallets funded_topup_db !! Payment.user topup_50
               = Some wallet_100) by reflexivity.
  assert (H6 : user wallet_100 = Payment.user topup_50) by reflexivity.
  destruct (completion_repeats_on_redelivery topup_intent 1 topup_50
              funded_topup_db 10 10 10 20 20 20 H1 H2)
    as (_ & Hrow & _ & _ & _ & Hcredit).
  destruct (Hcredit wallet_100 H3 H4 H5 H6) as (_ & _ & Hwallet & _).
  cbv zeta.
  split; [exact H1 | split; [exact H2 | split; [exact H3 | split; [exact H4 |]]]].
  split; [exact H5 | split; [exact Hrow | exact Hwallet]].
Defined.

(** ** Subscription activation *)

(** C6. For a subscription payment whose metadata name a plan and [d]
    months (one month when the key is absent), and a tutor who has a
    profile: if the tutor has a subscription, it is rewritten with
    [end_date = max(end_date, now) + 30 d days], [amount_paid] increased by
    the payment amount and status [active], its [start_date] kept; if not,
    one is created with [start_date = now], [end_date = now + 30 d days],
    [amount_paid] the payment amount and status [active]. Either way the
    profile gets [subscription_active = True] and the subscription's new
    [end_date] as [subscription_expiry]. *)
Theorem subscription_activation (pk : N) (p : Payment.t)
    (metadata : Payment.metadata_dict) (plan : string) (d : Z)
    (profile : TutorProfile.t) (db : DB) (now_start now_renew : Z) :
  Payment.metadata p = Some metadata ->
  Payment.plan metadata = Some plan ->
  default 1 (Payment.months metadata) = d ->
  tutor_profiles db !! Payment.user p = Some profile ->
  let activated s' :=
    StripeWebhookView.create_tutor_subscription pk p now_start now_renew db
    = (Ok tt,
       with_tutor_profiles
         (insert (Payment.user p)
            {| TutorProfile.subscription_active := true;
               TutorProfile.subscription_expiry :=
                 Some (TutorSubscription.end_date s') |})
         (with_subscriptions (insert (Payment.user p) s') db)) in
  (forall s,
      subscriptions db !! Payment.user p = Some s ->
      activated
        {| TutorSubscription.plan := plan;
           TutorSubscription.start_date := TutorSubscription.start_date s;
           TutorSubscription.end_date :=
             Z.max (TutorSubscription.end_date s) now_renew + days (30 * d);
           TutorSubscription.amount_paid :=
             TutorSubscription.amount_paid s + Payment.amount p;
           TutorSubscription.status := TutorSubscription.active;
           TutorSubscription.payment := TutorSubscription.payment s |})
  /\ (subscriptions db !! Payment.user p = None ->
      activated
        {| TutorSubscription.plan := plan;
           TutorSubscription.start_date := now_start;
           TutorSubscription.end_date := now_start + days (30 * d);
           TutorSubscription.amount_paid := Payment.amount p;
           TutorSubscription.status := TutorSubscription.active;
           TutorSubscription.payment := Some pk |}).
Proof.
  intros Hmeta Hplan Hmonths Hprofile. cbv zeta.
  unfold StripeWebhookView.create_tutor_subscription, bind,
    TutorSubscription_objects_get_or_create, related_tutor_profile.
  rewrite Hmeta, Hplan, Hmonths. split.
  - intros s Hs. rewrite Hs. simpl. rewrite Hprofile. reflexivity.
  - intros Hnone. rewrite Hnone. simpl. rewrite Hprofile. reflexivity.
Qed.

Lemma subscription_activation_witness :
  Payment.metadata basic_payment
  = Some {| Payment.plan := Some "basic"; Payment.months := Some 1;
            Payment.phone_number := None |}
  /\ tutor_profiles renewing_db !! Payment.user basic_payment
     = Some {| TutorProfile.subscription_active := false;
               TutorProfile.subscription_expiry := None |}
  /\ subscriptions renewing_db !! Payment.user basic_payment
     = Some running_subscription
  /\ subscriptions tutor_db !! Payment.user standard_payment = None
  /\ (TutorSubscription.end_date
        <$> subscriptions
              (snd (StripeWebhookView.create_tutor_subscription 5 basic_payment
                      0 0 renewing_db)) !! 9) = Some (days 40)
  /\ (TutorSubscription.end_date
        <$> subscriptions
              (snd (StripeWebhookView.create_tutor_subscription 4
                      standard_payment 1000 1000 tutor_db)) !! 9)
     = Some (1000 + days 90).
Proof.
  assert (H1 : Payment.metadata basic_payment
               = Some {| Payment.plan := Some "basic"; Payment.months := Some 1;
                         Payment.phone_number := None |}) by reflexivity.
  assert (H2 : tutor_profiles renewing_db !! Payment.user basic_payment
               = Some {| TutorProfile.subscription_active := false;
                         TutorProfile.subscription_expiry := None |})
    by reflexivity.
  assert (H3 : subscriptions renewing_db !! Payment.user basic_payment
               = Some running_subscription) by reflexivity.
  assert (H4 : subscriptions tutor_db !! Payment.user standard_payment = None)
    by reflexivity.
  split; [exact H1 | split; [exact H2 | split; [exact H3 | split; [exact H4 |]]]].
  split.
  - rewrite (proj1 (subscription_activation 5 basic_payment _ "basic" 1 _
                      renewing_db 0 0 H1 eq_refl eq_refl H2)
               running_subscription H3).
    reflexivity.
  - rewrite (proj2 (subscription_activation 4 standard_payment _ "standard" 3
                      {| TutorProfile.subscription_active := false;
                         TutorProfile.subscription_expiry := None |}
                      tutor_db 1000 1000 eq_refl eq_refl eq_refl eq_refl) H4).
    reflexivity.
Defined.

(** The spec's scenario, through the webhook: a tutor without a subscription
    whose standard-plan payment (three months) succeeds at time [1000]. *)
Example first_subscription_by_webhook :
  let db' :=
    snd (StripeWebhookView.post
           (Some {| event_type := "payment_intent.succeeded";
                    data_object := {| intent_id := "pi_4";
                                      metadata_payment_id := Some (well_formed 4) |} |})
           1000 1000 1000 tutor_db) in
  subscriptions db' !! 9
  = Some {| TutorSubscription.plan := "standard";
            TutorSubscription.start_date := 1000;
            TutorSubscription.end_date := 1000 + days 90;
            TutorSubscription.amount_paid := 12000;
            TutorSubscription.status := TutorSubscription.active;
            TutorSubscription.payment := Some 4%N |}
  /\ tutor_profiles db' !! 9
     = Some {| TutorProfile.subscription_active := true;
               TutorProfile.subscription_expiry := Some (1000 + days 90) |}.
Proof. split; reflexivity. Qed.

(** ** Creating and keeping payments *)

Lemma same_purchase_refl p : same_purchase p p.
Proof. by repeat split. Qed.

Lemma touches_PayForSessionView_post u m ph sid new_id g now :
  touches_only new_id (PayForSessionView.post u m ph sid new_id g now).
Proof.
  unfold PayForSessionView.post, PayForSessionView.process_stripe_payment,
    PayForSessionView.process_wallet_payment,
    PayForSessionView.process_mobile_money_payment,
    PayForSessionView.payment_failed, PayForSessionView.insufficient_balance.
  frame.
Qed.

Lemma touches_SubscriptionView_post u plan m new_id g :
  touches_only new_id (SubscriptionView.post u plan m new_id g).
Proof. unfold SubscriptionView.post. frame. Qed.

Lemma touches_WalletView_post u a amount m new_id g :
  touches_only new_id (WalletView.post u a amount m new_id g).
Proof. unfold WalletView.post. frame. Qed.

Lemma keeps_form_valid u pk reason detail amount :
  keeps_payments (RequestRefundView.form_valid u pk reason detail amount).
Proof. unfold RequestRefundView.form_valid. frame. Qed.

(** A key already in use makes [objects.create] raise before anything is
    written. *)
Lemma PayForSessionView_post_taken u m ph sid new_id g now db p :
  payments db !! new_id = Some p ->
  snd (PayForSessionView.post u m ph sid new_id g now db) = db.
Proof.
  intros Htaken.
  unfold PayForSessionView.post, bind, get_session_or_404,
    Payment_objects_create.
  destruct (sessions db !! sid); [rewrite Htaken |]; reflexivity.
Qed.

Lemma SubscriptionView_post_taken u plan m new_id g db p :
  payments db !! new_id = Some p ->
  snd (SubscriptionView.post u plan m new_id g db) = db.
Proof.
  intros Htaken. unfold SubscriptionView.post, bind, Payment_objects_create.
  destruct (negb (CustomUser.is_tutor u)); [reflexivity |].
  destruct (plan ≫= _) as [[? [? ?]]|]; [rewrite Htaken |]; reflexivity.
Qed.

Lemma WalletView_post_taken u a amount m new_id g db p :
  payments db !! new_id = Some p ->
  snd (WalletView.post u a amount m new_id g db) = db.
Proof.
  intros Htaken. unfold WalletView.post, bind, Payment_objects_create.
  case_bool_decide; [| reflexivity].
  destruct (default _ amount) as [|[]|value exponent str]; try reflexivity.
  destruct (value >? 0); [rewrite Htaken |]; reflexivity.
Qed.

Lemma handle_payment_failure_row payment_intent pk p db :
  metadata_payment_id payment_intent = Some (well_formed pk) ->
  payments db !! pk = Some p ->
  payments (snd (StripeWebhookView.handle_payment_failure payment_intent db))
  = <[pk := Payment.set_gateway_response (Some payment_intent)
              (Payment.set_status Payment.failed p)]> (payments db).
Proof.
  intros Hid Hp.
  unfold StripeWebhookView.handle_payment_failure, try_except, bind,
    Payment_objects_get.
  rewrite Hid, Hp. reflexivity.
Qed.

(** What a webhook call does to the payments table: nothing, or one stored
    row rewritten with the same purchase. *)
Lemma StripeWebhookView_post_rows ev now now_start now_renew db :
  payments (snd (StripeWebhookView.post ev now now_start now_renew db))
  = payments db
  \/ exists pk p p',
       payments db !! pk = Some p /\ same_purchase p p'
       /\ payments (snd (StripeWebhookView.post ev now now_start now_renew db))
          = <[pk := p']> (payments db).
Proof.
  destruct ev as [ev|]; [| by left].
  destruct (metadata_payment_id (data_object ev)) as [[pk|text]|] eqn:Hid.
  - destruct (payments db !! pk) as [p|] eqn:Hp.
    + unfold StripeWebhookView.post, bind.
      destruct (event_type ev =? "payment_intent.succeeded")%string.
      * right. exists pk, p, (stamped (data_object ev) now p).
        split; [exact Hp | split; [by repeat split |]].
        rewrite <- (handle_payment_success_row _ pk p now now_start now_renew)
          by assumption.
        by destruct (StripeWebhookView.handle_payment_success _ _ _ _ _)
          as [[[]|] ?].
      * destruct (event_type ev =? "payment_intent.payment_failed")%string;
          [| by left].
        right.
        exists pk, p, (Payment.set_gateway_response (Some (data_object ev))
                         (Payment.set_status Payment.failed p)).
        split; [exact Hp | split; [by repeat split |]].
        rewrite <- (handle_payment_failure_row _ pk p) by assumption.
        by destruct (StripeWebhookView.handle_payment_failure _ _) as [[[]|] ?].
    + left. unfold StripeWebhookView.post, bind.
      assert (Hnone : names_no_payment (data_object ev) db)
        by (unfold names_no_payment; by rewrite Hid).
      destruct (event_type ev =? "payment_intent.succeeded")%string.
      * by rewrite handle_payment_success_unknown.
      * destruct (event_type ev =? "payment_intent.payment_failed")%string;
          [by rewrite handle_payment_failure_unknown | reflexivity].
  - left. unfold StripeWebhookView.post, bind.
    destruct (event_type ev =? "payment_intent.succeeded")%string.
    + by rewrite (handle_payment_success_malformed _ text).
    + destruct (event_type ev =? "payment_intent.payment_failed")%string;
        [by rewrite (handle_payment_failure_malformed _ text) | reflexivity].
  - left. unfold StripeWebhookView.post, bind.
    assert (Hnone : names_no_payment (data_object ev) db)
      by (unfold names_no_payment; by rewrite Hid).
    destruct (event_type ev =? "payment_intent.succeeded")%string.
    + by rewrite handle_payment_success_unknown.
    + destruct (event_type ev =? "payment_intent.payment_failed")%string;
        [by rewrite handle_payment_failure_unknown | reflexivity].
Qed.

Section RowFrames.
Context {A B : Type} (pk : N) (R : Payment.t -> Prop).

Lemma keeps_row_of_keeps (m : M A) : keeps_payments m -> keeps_row pk R m.
Proof. intros Hm db (p & Hp & HR). exists p. by rewrite Hm. Qed.

Lemma keeps_row_bind (m : M A) (k : A -> M B) :
  keeps_row pk R m -> (forall a, keeps_row pk R (k a)) ->
  keeps_row pk R (bind m k).
Proof.
  intros Hm Hk db Hdb. unfold bind. specialize (Hm db Hdb).
  destruct (m db) as [[a|e] db']; simpl in *; [| exact Hm].
  by apply Hk.
Qed.

Lemma keeps_row_try_except (m : M A) (handler : exn -> option (M A)) :
  keeps_row pk R m ->
  (forall e h, handler e = Some h -> keeps_row pk R h) ->
  keeps_row pk R (try_except m handler).
Proof.
  intros Hm Hh db Hdb. unfold try_except. specialize (Hm db Hdb).
  destruct (m db) as [[a|e] db']; simpl in *; [exact Hm |].
  destruct (handler e) as [h|] eqn:He; simpl; [| exact Hm].
  by apply (Hh e h He).
Qed.
End RowFrames.

Lemma keeps_row_Payment_save pk (R : Payment.t -> Prop) row :
  R row -> keeps_row pk R (Payment_save pk row).
Proof.
  intros HR db _. exists row. split; [apply lookup_insert_eq | exact HR].
Qed.

Ltac row_frame :=
  repeat match goal with
    | |- keeps_row _ _ (bind _ _) => apply keeps_row_bind; [| intros ?]
    | |- keeps_row _ _ (try_except _ _) =>
        apply keeps_row_try_except; [| intros ? ? [= <-]]
    | |- keeps_row _ _ (let _ := _ in _) => cbv zeta
    | |- keeps_row _ _ (Payment_save _ _) =>
        apply keeps_row_Payment_save; by repeat split
    | |- keeps_row _ _ (match ?x with _ => _ end) => destruct x
    | |- keeps_row _ _ _ => solve [apply keeps_row_of_keeps; auto with frame]
    end.

(** Once the session view has created its payment, whatever it does next
    keeps the row, and keeps its purchase. *)
Lemma PayForSessionView_post_row u m ph sid s new_id g now db :
  sessions db !! sid = Some s ->
  payments db !! new_id = None ->
  row_holds new_id
    (same_purchase
       (new_payment (CustomUser.id u) Payment.session_type
          (TutoringSession.total_amount s) (default "stripe" m) (Some sid)
          ("Payment for session: " ++ TutoringSession.title s) None))
    (snd (PayForSessionView.post u m ph sid new_id g now db)).
Proof.
  intros Hs Hfresh.
  set (row := new_payment _ _ _ _ _ _ _).
  unfold PayForSessionView.post, get_session_or_404, Payment_objects_create.
  unfold bind at 1. rewrite Hs. unfold bind at 1. rewrite Hfresh.
  fold row.
  match goal with |- row_holds _ _ (snd (?m ?d)) =>
    assert (Hm : keeps_row new_id (same_purchase row) m); [| apply Hm]
  end.
  - unfold PayForSessionView.process_stripe_payment,
      PayForSessionView.process_wallet_payment,
      PayForSessionView.process_mobile_money_payment,
      PayForSessionView.payment_failed,
      PayForSessionView.insufficient_balance.
    row_frame.
  - exists row. split; [apply lookup_insert_eq | apply same_purchase_refl].
Qed.

(** C4, as the claim has it, fails: the subscription view creates the
    payment keyed [6] and, the gateway refusing the charge, deletes it
    again; so does the wallet view with the top-up it created. *)
Lemma failed_charge_deletes_payment :
  let row :=
    new_payment 9 Payment.subscription 5000 "stripe" None
      "Tutor subscription - Basic plan"
      (Some {| Payment.plan := Some "basic"; Payment.months := Some 1;
               Payment.phone_number := None |}) in
  payments (snd (Payment_objects_create 6 row tutor_db)) !! 6%N = Some row
  /\ SubscriptionView.post tutor (Some "basic") None 6
       (stripe_error "card declined") tutor_db
     = (Ok {| http := JsonResponse [("error", JStr "card declined")] 400;
              messages := [] |}, tutor_db)
  /\ payments (snd (SubscriptionView.post tutor (Some "basic") None 6
                      (stripe_error "card declined") tutor_db)) !! 6%N = None
  /\ payments (snd (WalletView.post student (Some "topup")
                      (Some (parsed 50 0 "50")) None 6
                      (stripe_error "card declined") empty_db)) !! 6%N = None.
Proof. cbv zeta. repeat split. Qed.

(** C4, amended. Every request leaves every payment that was stored before
    it in the table, with its user, type, amount and session unchanged. The
    only deletion is of the payment a request has itself just created: when
    the gateway refuses the charge, the subscription view and the wallet
    view delete it, so the payments table is as before the request, while
    the session view keeps it, with status [failed]. *)
Theorem stored_payments_survive (db : DB) :
  (forall r pk p,
      payments db !! pk = Some p ->
      exists p', payments (serve r db) !! pk = Some p' /\ same_purchase p p')
  /\ (forall u m ph sid s new_id e now,
        sessions db !! sid = Some s ->
        payments db !! new_id = None ->
        default "stripe" m = "stripe" ->
        payments (serve (pay_for_session u m ph sid new_id (stripe_error e) now)
                    db) !! new_id
        = Some (Payment.set_status Payment.failed
                  (new_payment (CustomUser.id u) Payment.session_type
                     (TutoringSession.total_amount s) "stripe" (Some sid)
                     ("Payment for session: " ++ TutoringSession.title s)
                     None)))
  /\ (forall u plan m new_id e,
        default "stripe" m = "stripe" ->
        payments (serve (subscribe u plan m new_id (stripe_error e)) db)
        = payments db)
  /\ (forall u a amount m new_id e,
        default "stripe" m = "stripe" ->
        payments (serve (wallet_post u a amount m new_id (stripe_error e)) db)
        = payments db).
Proof.
  split; [| split; [| split]].
  - intros r pk p Hp.
    assert (Hfresh : forall (m : M Response) new_id,
              touches_only new_id m ->
              (forall q, payments db !! new_id = Some q -> snd (m db) = db) ->
              exists p', payments (snd (m db)) !! pk = Some p'
                         /\ same_purchase p p').
    { intros m new_id Htouch Htaken. exists p.
      split; [| apply same_purchase_refl].
      destruct (decide (pk = new_id)) as [->|Hne].
      - by rewrite (Htaken p Hp).
      - by rewrite Htouch. }
    destruct r; simpl.
    + apply (Hfresh _ new_id); [apply touches_PayForSessionView_post |].
      intros q. apply PayForSessionView_post_taken.
    + apply (Hfresh _ new_id); [apply touches_SubscriptionView_post |].
      intros q. apply SubscriptionView_post_taken.
    + apply (Hfresh _ new_id); [apply touches_WalletView_post |].
      intros q. apply WalletView_post_taken.
    + exists p. split; [| apply same_purchase_refl].
      by rewrite keeps_form_valid.
    + destruct (StripeWebhookView_post_rows event now now_start now_renew db)
        as [Hsame | (k & q & q' & Hq & Hqq & Hupd)].
      * exists p. split; [by rewrite Hsame | apply same_purchase_refl].
      * rewrite Hupd. destruct (decide (pk = k)) as [->|Hne].
        -- exists q'. split; [apply lookup_insert_eq |]. congruence.
        -- exists p. split; [by rewrite lookup_insert_ne |
                             apply same_purchase_refl].
  - intros u m ph sid s new_id e now Hs Hfresh Hm. simpl.
    unfold PayForSessionView.post, bind, get_session_or_404,
      Payment_objects_create.
    rewrite Hs, Hfresh, Hm. simpl. apply lookup_insert_eq.
  - intros u plan m new_id e Hm. simpl.
    unfold SubscriptionView.post, bind, Payment_objects_create.
    destruct (negb (CustomUser.is_tutor u)); [reflexivity |].
    destruct (plan ≫= _) as [[? [? ?]]|]; [| reflexivity].
    destruct (payments db !! new_id) eqn:Hfresh; [reflexivity |].
    rewrite Hm. simpl. by apply delete_insert_id.
  - intros u a amount m new_id e Hm. simpl.
    unfold WalletView.post, bind, Payment_objects_create.
    case_bool_decide; [| reflexivity].
    destruct (default _ amount) as [|[]|value exponent str]; try reflexivity.
    destruct (value >? 0); [| reflexivity].
    destruct (payments db !! new_id) eqn:Hfresh; [reflexivity |].
    cbn [Payment.payment_method new_payment]. rewrite Hm. simpl.
    by apply delete_insert_id.
Qed.

Lemma stored_payments_survive_witness :
  payments topup_db !! 1%N = Some topup_50
  /\ (exists p',
        payments (serve (stripe_webhook
                           (Some {| event_type := "payment_intent.payment_failed";
                                    data_object := topup_intent |}) 10 10 10)
                    topup_db) !! 1%N = Some p'
        /\ same_purchase topup_50 p')
  /\ sessions free_session_db !! 3 = Some free_session
  /\ payments free_session_db !! 5%N = None
  /\ default "stripe" None = "stripe"
  /\ payments (serve (pay_for_session student None None 3 5
                        (stripe_error "card declined") 50)
                 free_session_db) !! 5%N
     = Some (Payment.set_status Payment.failed
               (new_payment (CustomUser.id student) Payment.session_type
                  (TutoringSession.total_amount free_session) "stripe" (Some 3)
                  ("Payment for session: " ++ TutoringSession.title free_session)
                  None))
  /\ payments (serve (subscribe tutor (Some "basic") None 6
                        (stripe_error "card declined")) tutor_db)
     = payments tutor_db
  /\ payments (serve (wallet_post student (Some "topup")
                        (Some (parsed 50 0 "50")) None 6
                        (stripe_error "card declined")) tutor_db)
     = payments tutor_db.
Proof.
  assert (H1 : payments topup_db !! 1%N = Some topup_50) by reflexivity.
  assert (H2 : sessions free_session_db !! 3 = Some free_session)
    by reflexivity.
  assert (H3 : payments free_session_db !! 5%N = None) by reflexivity.
  assert (H4 : default "stripe" None = "stripe") by reflexivity.
  split; [exact H1 | split].
  { exact (proj1 (stored_payments_survive topup_db) _ 1%N topup_50 H1). }
  split; [exact H2 | split; [exact H3 | split; [exact H4 | split]]].
  { exact (proj1 (proj2 (stored_payments_survive free_session_db))
             student None None 3 free_session 5%N "card declined" 50
             H2 H3 H4). }
  split.
  - exact (proj1 (proj2 (proj2 (stored_payments_survive tutor_db)))
             tutor (Some "basic") None 6%N "card declined" H4).
  - exact (proj2 (proj2 (proj2 (stored_payments_survive tutor_db)))
             student (Some "topup") (Some (parsed 50 0 "50")) None 6%N
             "card declined" H4).
Defined.

Lemma plan_prices_positive plan amount months :
  SubscriptionView.plan_prices !! plan = Some (amount, months) ->
  0 < amount.
Proof.
  unfold SubscriptionView.plan_prices.
  rewrite !lookup_insert_Some, lookup_singleton_Some.
  intros [[_ Hp] | [_ [[_ Hp] | [_ [_ Hp]]]]]; inversion Hp; lia.
Qed.

(** C5, as the claim has it, fails: paying for a session whose
    [total_amount] is zero stores a payment of amount zero. *)
Lemma zero_amount_session_payment_created :
  TutoringSession.total_amount free_session = 0
  /\ PayForSessionView.post student None None 3 5
       (intent_created "pi_9" "secret") 50 free_session_db
     = (Ok {| http := JsonResponse [("client_secret", JStr "secret");
                                    ("payment_id", JUuid 5)] 200;
              messages := [] |},
        with_payments
          (insert 5%N
             (Payment.set_stripe_payment_intent_id "pi_9"
                (new_payment 7 Payment.session_type 0 "stripe" (Some 3)
                   "Payment for session: Algebra" None)))
          free_session_db).
Proof. split; reflexivity. Qed.

(** A top-up of GHS 0.001 passes the guard [amount > 0] and is stored; the
    column holds 0.00 for it. *)
Example sub_hundredth_topup_stored_as_zero :
  snd (WalletView.post student (Some "topup") (Some (parsed 1 (-3) "0.001"))
         None 5 (intent_created "pi_9" "secret") free_session_db)
  = with_payments
      (insert 5%N
         (new_payment 7 Payment.wallet_topup 0 "stripe" None
            "Wallet top-up - GHS 0.001" None))
      free_session_db.
Proof. reflexivity. Qed.

(** C5, amended. Every payment a view creates is inserted with status
    [pending]. The row the wallet view or the subscription view leaves
    under the new key is [pending]; so is the row the session view leaves,
    unless the gateway refused the charge, when the view has marked it
    [failed]; and with the wallet method the session view hands the stored,
    pending payment to the wallet branch. A wallet top-up whose amount is
    zero, negative or absent creates no payment: the view redirects to the
    wallet page, queues no message and leaves the database as it was. A
    top-up that is stored was posted with a positive amount and carries
    that amount rounded to hundredths. A payment stored by the subscription
    view carries the price of the plan that was posted, which is positive.
    The session view stores a payment that carries the session's
    [total_amount], whatever it is, and the row is still there when the
    view is done. *)
Theorem payment_creation (db : DB) (new_id : N) :
  payments db !! new_id = None ->
  (forall u a amount m g row,
      payments (snd (WalletView.post u a amount m new_id g db)) !! new_id
      = Some row ->
      Payment.status row = Payment.pending
      /\ exists coefficient exponent str,
           a = Some "topup"
           /\ amount = Some (parsed coefficient exponent str)
           /\ 0 < coefficient
           /\ Payment.amount row = quantize coefficient exponent)
  /\ (forall u coefficient exponent str m g,
        coefficient <= 0 ->
        WalletView.post u (Some "topup")
          (Some (parsed coefficient exponent str)) m new_id g db
        = (Ok {| http := redirect "payments:wallet" None; messages := [] |}, db))
  /\ (forall u m g,
        WalletView.post u (Some "topup") None m new_id g db
        = (Ok {| http := redirect "payments:wallet" None; messages := [] |}, db))
  /\ (forall u plan m g row,
        payments (snd (SubscriptionView.post u plan m new_id g db)) !! new_id
        = Some row ->
        Payment.status row = Payment.pending
        /\ 0 < Payment.amount row
        /\ exists name months,
             plan = Some name
             /\ SubscriptionView.plan_prices !! name
                = Some (Payment.amount row, months))
  /\ (forall u m ph sid s g now,
        sessions db !! sid = Some s ->
        let out := PayForSessionView.post u m ph sid new_id g now db in
        let created :=
          new_payment (CustomUser.id u) Payment.session_type
            (TutoringSession.total_amount s) (default "stripe" m) (Some sid)
            ("Payment for session: " ++ TutoringSession.title s) None in
        let refused := default "stripe" m = "stripe" /\ exists e, g = stripe_error e in
        Payment.status created = Payment.pending
        /\ (exists row,
              payments (snd out) !! new_id = Some row
              /\ Payment.amount row = TutoringSession.total_amount s)
        /\ (default "stripe" m = "wallet" ->
            out = PayForSessionView.process_wallet_payment u new_id created
                    sid s now (with_payments (insert new_id created) db))
        /\ (default "stripe" m <> "wallet" ->
            forall row,
              payments (snd out) !! new_id = Some row ->
              (refused -> Payment.status row = Payment.failed)
              /\ (~ refused -> Payment.status row = Payment.pending))).
Proof.
  intros Hfresh. split; [| split; [| split; [| split]]].
  - intros u a amount m g row.
    unfold WalletView.post, bind, Payment_objects_create.
    case_bool_decide as Ha; [| cbn [respond ret snd]; congruence].
    destruct amount as [[|[]|coefficient exponent str]|];
      cbn [default id respond ret raise snd]; try congruence.
    + destruct (Z.gtb_spec coefficient 0) as [Hpos|_];
        [| cbn [respond ret snd]; congruence].
      rewrite Hfresh. cbn [Payment.payment_method new_payment].
      assert (Hrow : Some (new_payment (CustomUser.id u) Payment.wallet_topup
                             (quantize coefficient exponent)
                             (default "stripe" m) None
                             ("Wallet top-up - GHS " ++ str) None) = Some row ->
                     Payment.status row = Payment.pending
                     /\ exists coefficient0 exponent0 str0,
                          a = Some "topup"
                          /\ Some (parsed coefficient exponent str)
                             = Some (parsed coefficient0 exponent0 str0)
                          /\ 0 < coefficient0
                          /\ Payment.amount row
                             = quantize coefficient0 exponent0).
      { intros [= <-]. split; [reflexivity |].
        by exists coefficient, exponent, str. }
      destruct (default "stripe" m =? "stripe")%string; [destruct g |];
        cbn [respond ret snd bind Payment_delete modify payments
             with_payments with_refunds with_subscriptions];
        rewrite ?lookup_insert_eq, ?lookup_delete_eq;
        try exact Hrow; discriminate.
    + change (0 >? 0) with false. cbn [respond ret snd]. congruence.
  - intros u coefficient exponent str m g Hle. unfold WalletView.post.
    rewrite bool_decide_true by reflexivity. cbn [default id].
    destruct (Z.gtb_spec coefficient 0); [lia | reflexivity].
  - reflexivity.
  - intros u plan m g row.
    unfold SubscriptionView.post, bind, Payment_objects_create.
    destruct (negb (CustomUser.is_tutor u)); cbn [respond ret snd];
      [congruence |].
    destruct (plan ≫= _) as [[name [amount months]]|] eqn:Hplan;
      cbn [respond ret snd]; [| congruence].
    apply bind_Some in Hplan as (name0 & -> & Hprice).
    apply bind_Some in Hprice as ([amount0 months0] & Hprice & Hpair).
    injection Hpair as <- <- <-.
    rewrite Hfresh.
    assert (Hrow : forall row0 : Payment.t,
              Payment.status row0 = Payment.pending ->
              Payment.amount row0 = amount0 ->
              Some row0 = Some row ->
              Payment.status row = Payment.pending
              /\ 0 < Payment.amount row
              /\ exists name months,
                   Some name0 = Some name
                   /\ SubscriptionView.plan_prices !! name
                      = Some (Payment.amount row, months)).
    { intros row0 Hstatus Hamount [= <-]. split; [exact Hstatus |].
      rewrite Hamount.
      split; [by apply (plan_prices_positive name0 _ months0) |].
      by exists name0, months0. }
    destruct (default "stripe" m =? "stripe")%string; [destruct g |];
      cbn [respond ret snd bind Payment_delete modify payments
           with_payments with_refunds with_subscriptions];
      rewrite ?lookup_insert_eq, ?lookup_delete_eq;
      try (by apply Hrow); discriminate.
  - intros u m ph sid s g now Hs out created refused.
    split; [reflexivity |]. split.
    { destruct (PayForSessionView_post_row u m ph sid s new_id g now db Hs
                  Hfresh) as (row & Hrow & _ & _ & Hamount & _).
      exists row. split; [exact Hrow | exact Hamount]. }
    assert (Hout : out
                   = (if (default "stripe" m =? "stripe")%string then
                        PayForSessionView.process_stripe_payment u new_id
                          created g
                      else if (default "stripe" m =? "wallet")%string then
                        PayForSessionView.process_wallet_payment u new_id
                          created sid s now
                      else if (default "stripe" m =? "mtn_momo")%string
                              || (default "stripe" m =? "vodafone_cash")%string
                      then
                        PayForSessionView.process_mobile_money_payment ph
                          new_id created
                      else
                        respond (redirect "payments:pay_session" (Some sid))
                          [(error, "Invalid payment method.")])
                       (with_payments (insert new_id created) db)).
    { unfold out, PayForSessionView.post, get_session_or_404,
        Payment_objects_create.
      unfold bind at 1. rewrite Hs. unfold bind at 1. by rewrite Hfresh. }
    split.
    { intros Hwallet. rewrite Hout, Hwallet. reflexivity. }
    intros Hnot row. rewrite Hout.
    destruct (String.eqb_spec (default "stripe" m) "stripe") as [Hstripe|Hstripe].
    { destruct g as [intent secret|e];
        unfold PayForSessionView.process_stripe_payment, bind, Payment_save,
          modify, respond, ret;
        cbn [snd payments with_payments];
        rewrite lookup_insert_eq; intros [= <-].
      - split; [| reflexivity]. intros [_ [e He]]. discriminate.
      - split; [reflexivity |].
        intros Hno. destruct Hno. split; [exact Hstripe | by exists e]. }
    rewrite (proj2 (String.eqb_neq _ _) Hnot).
    assert (Hno : ~ refused) by (intros [Hyes _]; contradiction).
    destruct ((default "stripe" m =? "mtn_momo")%string
              || (default "stripe" m =? "vodafone_cash")%string);
      unfold PayForSessionView.process_mobile_money_payment, bind, Payment_save,
        modify, respond, ret;
      cbn [snd payments with_payments];
      rewrite lookup_insert_eq; intros [= <-];
      (split; [by intros Hyes | reflexivity]).
Qed.

Lemma payment_creation_witness :
  payments free_session_db !! 5%N = None
  /\ sessions free_session_db !! 3 = Some free_session
  /\ -1 <= 0
  /\ WalletView.post student (Some "topup") (Some (parsed (-1) 0 "-1")) None 5
       (intent_created "pi_9" "secret") free_session_db
     = (Ok {| http := redirect "payments:wallet" None; messages := [] |},
        free_session_db)
  /\ (exists row,
        payments (snd (PayForSessionView.post student (Some "mtn_momo") None
                         3 5 (intent_created "pi_9" "secret") 50
                         free_session_db)) !! 5%N = Some row
        /\ Payment.amount row = TutoringSession.total_amount free_session).
Proof.
  assert (H1 : payments free_session_db !! 5%N = None) by reflexivity.
  assert (H2 : sessions free_session_db !! 3 = Some free_session)
    by reflexivity.
  assert (H3 : -1 <= 0) by lia.
  destruct (payment_creation free_session_db 5 H1)
    as (_ & Htopup & _ & _ & Hsession).
  split; [exact H1 | split; [exact H2 | split; [exact H3 | split]]].
  - exact (Htopup student (-1) 0 "-1" None
             (intent_created "pi_9" "secret") H3).
  - exact (proj1 (proj2 (Hsession student (Some "mtn_momo") None 3
                           free_session (intent_created "pi_9" "secret") 50
                           H2))).
Defined.

(** ** The session branch *)

(** Where a view saves a session, [TutoringSession.save] raises before the
    row is written. Paying the GHS 30.00 session from the wallet debits the
    wallet, and the [except Exception] clause then marks the payment
    failed; the session stays [scheduled]. *)
Example wallet_payment_for_session :
  let out :=
    PayForSessionView.post student (Some "wallet") None 3 5
      (intent_created "pi_9" "secret") 50 wallet_db in
  fst out
  = Ok {| http := redirect "payments:pay_session" (Some 3);
          messages := [(error, "Payment failed. Please try again.")] |}
  /\ (balance <$> wallets (snd out) !! 7) = Some 7000
  /\ (Payment.status <$> payments (snd out) !! 5%N) = Some Payment.failed
  /\ (Payment.completed_at <$> payments (snd out) !! 5%N) = Some (Some 50)
  /\ (TutoringSession.status <$> sessions (snd out) !! 3)
     = Some TutoringSession.scheduled.
Proof. cbv zeta. repeat split. Qed.

(** Through the webhook the same exception is not caught: the payment is
    saved as completed, the session is not confirmed, and the view raises
    instead of answering 200. *)
Example session_payment_success_raises :
  let paid :=
    with_payments
      (insert 5%N (new_payment 7 Payment.session_type 3000 "stripe" (Some 3)
                     "Payment for session: Algebra" None)) wallet_db in
  let out :=
    StripeWebhookView.post
      (Some {| event_type := "payment_intent.succeeded";
               data_object := {| intent_id := "pi_5";
                                 metadata_payment_id := Some (well_formed 5) |} |})
      50 50 50 paid in
  fst out = Raise TypeError
  /\ (Payment.status <$> payments (snd out) !! 5%N) = Some Payment.completed
  /\ (TutoringSession.status <$> sessions (snd out) !! 3)
     = Some TutoringSession.scheduled.
Proof. cbv zeta. repeat split. Qed.

(** ** The ledger of a wallet history *)

Lemma replay_app b rows1 rows2 :
  replay b (rows1 ++ rows2)%list = replay b rows1 ≫= (fun b' => replay b' rows2).
Proof.
  revert b. induction rows1 as [|row rows1 IH]; intros b; simpl; [reflexivity |].
  destruct (_ && _); [apply IH | reflexivity].
Qed.

(** One operation appends no row or one row, which replays from the old
    balance to the new one. *)
Lemma apply_op_rows w db op :
  logged_as_credit op = true ->
  exists rows,
    wallet_transactions (snd (apply_op (w, db) op))
    = (wallet_transactions db ++ rows)%list
    /\ replay (balance w) rows = Some (balance (fst (apply_op (w, db) op)))
    /\ Forall (fun row => WalletTransaction.wallet row = user w) rows
    /\ user (fst (apply_op (w, db) op)) = user w
    /\ (length rows <= 1)%nat.
Proof.
  intros Hlogged.
  destruct op as [amount description [] | amount description];
    try discriminate; simpl.
  - destruct (Z_lt_le_dec 0 amount) as [Hpos|Hle].
    + rewrite add_funds_accepts by assumption. simpl. eexists [_].
      split; [reflexivity |]. simpl.
      destruct (Z.gtb_spec amount 0); [| lia]. rewrite Z.eqb_refl. simpl.
      repeat split; auto.
    + rewrite add_funds_rejects by assumption. simpl. exists [].
      rewrite app_nil_r. repeat split; auto.
  - destruct (Z_lt_le_dec 0 amount) as [Hpos|Hle];
      [destruct (Z_le_gt_dec amount (balance w)) as [Hcover|Hover] |].
    + rewrite deduct_funds_accepts by assumption. simpl. eexists [_].
      split; [reflexivity |]. simpl.
      destruct (Z.gtb_spec amount 0); [| lia]. rewrite Z.eqb_refl. simpl.
      repeat split; auto.
    + rewrite deduct_funds_rejects by (right; lia). simpl. exists [].
      rewrite app_nil_r. repeat split; auto.
    + rewrite deduct_funds_rejects by (left; lia). simpl. exists [].
      rewrite app_nil_r. repeat split; auto.
Qed.

(** X1. The ledger reconciles with the balance. Over any history of debits
    and of credits logged as credits, the rows the history appends to the
    ledger replay, one by one, from the balance the wallet started with to
    the balance it ends with: every row has a positive amount and records
    the balance its operation left. The rows all name this wallet, and
    there is at most one per operation. *)
Theorem ledger_reconciles (ops : list wallet_op) (w : Wallet) (db : DB) :
  forallb logged_as_credit ops = true ->
  exists rows,
    wallet_transactions (snd (run_ops ops (w, db)))
    = (wallet_transactions db ++ rows)%list
    /\ replay (balance w) rows = Some (balance (fst (run_ops ops (w, db))))
    /\ Forall (fun row => WalletTransaction.wallet row = user w) rows
    /\ (length rows <= length ops)%nat.
Proof.
  unfold run_ops. revert w db.
  induction ops as [|op ops IH]; intros w db Hlogged; cbn [fold_left].
  - exists []. simpl. rewrite app_nil_r. repeat split; auto.
  - simpl in Hlogged. apply andb_prop in Hlogged as [Hop Hops].
    destruct (apply_op_rows w db op Hop)
      as (rows1 & Hl1 & Hr1 & Hw1 & Hu1 & Hn1).
    destruct (apply_op (w, db) op) as [w1 db1] eqn:Hstep.
    cbn [fst snd length] in *.
    destruct (IH w1 db1 Hops) as (rows2 & Hl2 & Hr2 & Hw2 & Hn2).
    exists (rows1 ++ rows2)%list. split; [| split; [| split]].
    + rewrite Hl2, Hl1. by rewrite app_assoc.
    + rewrite replay_app, Hr1. exact Hr2.
    + apply Forall_app. split; [exact Hw1 |].
      eapply Forall_impl; [exact Hw2 |]. simpl. intros row ->. exact Hu1.
    + rewrite length_app. lia.
Qed.

Lemma ledger_reconciles_witness :
  forallb logged_as_credit
    [debit_op 3000 "session X"; debit_op 8000 "session Y";
     credit_op 500 "gift" WalletTransaction.credit] = true
  /\ exists rows,
       wallet_transactions
         (snd (run_ops [debit_op 3000 "session X"; debit_op 8000 "session Y";
                        credit_op 500 "gift" WalletTransaction.credit]
                 (wallet_100, wallet_db)))
       = (wallet_transactions wallet_db ++ rows)%list
       /\ replay (balance wallet_100) rows
          = Some (balance
                    (fst (run_ops [debit_op 3000 "session X";
                                   debit_op 8000 "session Y";
                                   credit_op 500 "gift" WalletTransaction.credit]
                            (wallet_100, wallet_db))))
       /\ Forall (fun row => WalletTransaction.wallet row = user wallet_100) rows
       /\ (length rows <= 3)%nat.
Proof.
  assert (H : forallb logged_as_credit
                [debit_op 3000 "session X"; debit_op 8000 "session Y";
                 credit_op 500 "gift" WalletTransaction.credit] = true)
    by reflexivity.
  split; [exact H |].
  exact (ledger_reconciles _ wallet_100 wallet_db H).
Defined.

(** A credit logged as a debit breaks the reconciliation: the balance goes
    up and the row says it went down. *)
Example mislabelled_credit_does_not_replay :
  let out :=
    run_ops [credit_op 500 "gift" WalletTransaction.debit] (wallet_100, wallet_db) in
  balance (fst out) = 10500
  /\ replay (balance wallet_100) (wallet_transactions (snd out)) = None.
Proof. split; reflexivity. Qed.

Lemma apply_op_frame w db op :
  let db' := snd (apply_op (w, db) op) in
  user (fst (apply_op (w, db) op)) = user w
  /\ payments db' = payments db /\ sessions db' = sessions db
  /\ subscriptions db' = subscriptions db
  /\ tutor_profiles db' = tutor_profiles db /\ refunds db' = refunds db
  /\ (forall k, k <> user w -> wallets db' !! k = wallets db !! k).
Proof.
  destruct op as [amount description ty | amount description]; simpl.
  - unfold Wallet.add_funds. destruct (amount >? 0); simpl;
      repeat split; auto.
    intros k Hk. by rewrite lookup_insert_ne.
  - unfold Wallet.deduct_funds. destruct (_ && _); simpl;
      repeat split; auto.
    intros k Hk. by rewrite lookup_insert_ne.
Qed.

(** X2. A wallet history writes the row of its own wallet and the ledger,
    and nothing else: the wallets of other users and the payments,
    sessions, subscriptions, tutor profiles and refunds are as before. *)
Theorem wallet_history_frame (ops : list wallet_op) (w : Wallet) (db : DB) :
  let db' := snd (run_ops ops (w, db)) in
  payments db' = payments db /\ sessions db' = sessions db
  /\ subscriptions db' = subscriptions db
  /\ tutor_profiles db' = tutor_profiles db /\ refunds db' = refunds db
  /\ (forall k, k <> user w -> wallets db' !! k = wallets db !! k).
Proof.
  unfold run_ops. revert w db.
  induction ops as [|op ops IH]; intros w db; cbn [fold_left];
    [by repeat split |].
  destruct (apply_op_frame w db op) as (Hu & Hp & Hs & Hsub & Ht & Hr & Hw).
  destruct (apply_op (w, db) op) as [w1 db1] eqn:Hstep.
  cbn [fst snd] in *.
  destruct (IH w1 db1) as (Hp' & Hs' & Hsub' & Ht' & Hr' & Hw').
  repeat split; try congruence.
  intros k Hk. rewrite Hw' by congruence. by apply Hw.
Qed.

(** ** Session packages *)

Lemma use_session_accepts pk self now table :
  0 < PurchasedPackage.sessions_remaining self ->
  now <= PurchasedPackage.expires_at self ->
  let self' :=
    {| PurchasedPackage.user := PurchasedPackage.user self;
       PurchasedPackage.payment := PurchasedPackage.payment self;
       PurchasedPackage.sessions_remaining :=
         PurchasedPackage.sessions_remaining self - 1;
       PurchasedPackage.expires_at := PurchasedPackage.expires_at self;
       PurchasedPackage.is_active :=
         if (PurchasedPackage.sessions_remaining self - 1 =? 0)%Z then false
         else PurchasedPackage.is_active self |} in
  PurchasedPackage.use_session pk self now table
  = (true, self', <[pk := self']> table).
Proof.
  intros Hleft Hvalid.
  unfold PurchasedPackage.use_session, PurchasedPackage.is_expired.
  destruct (Z.gtb_spec (PurchasedPackage.sessions_remaining self) 0); [| lia].
  destruct (Z.gtb_spec now (PurchasedPackage.expires_at self)); [lia |].
  simpl. by destruct (_ =? 0)%Z.
Qed.

Lemma use_session_refuses pk self now table :
  PurchasedPackage.sessions_remaining self <= 0
  \/ PurchasedPackage.expires_at self < now ->
  PurchasedPackage.use_session pk self now table = (false, self, table).
Proof.
  intros Hno.
  unfold PurchasedPackage.use_session, PurchasedPackage.is_expired.
  destruct (Z.gtb_spec (PurchasedPackage.sessions_remaining self) 0);
    destruct (Z.gtb_spec now (PurchasedPackage.expires_at self));
    simpl; try reflexivity; lia.
Qed.

(** The three ways a call can go. *)
Lemma use_session_cases (self : PurchasedPackage.t) (now : Z) :
  (0 < PurchasedPackage.sessions_remaining self
   /\ now <= PurchasedPackage.expires_at self)
  \/ PurchasedPackage.sessions_remaining self <= 0
  \/ PurchasedPackage.expires_at self < now.
Proof. lia. Qed.

(** X3. Sessions are conserved. Over any sequence of [use_session] calls
    on a package that starts with a non-negative count, the count never
    goes below zero, and the calls that returned [True] plus the sessions
    left add up to the sessions the package started with; [expires_at] is
    never changed. *)
Theorem use_sessions_conserves (pk : Z) (nows : list Z)
    (self : PurchasedPackage.t) (table : gmap Z PurchasedPackage.t) :
  0 <= PurchasedPackage.sessions_remaining self ->
  let out := PurchasedPackage.use_sessions pk nows self table in
  0 <= PurchasedPackage.sessions_remaining (snd (fst out))
  /\ PurchasedPackage.sessions_remaining (snd (fst out))
     + Z.of_nat (fst (fst out))
     = PurchasedPackage.sessions_remaining self
  /\ (fst (fst out) <= length nows)%nat
  /\ PurchasedPackage.expires_at (snd (fst out))
     = PurchasedPackage.expires_at self.
Proof.
  revert self table.
  induction nows as [|now nows IH]; intros self table Hleft;
    cbn [PurchasedPackage.use_sessions].
  - simpl. repeat split; auto; lia.
  - destruct (use_session_cases self now) as [[Hpos Hvalid] | Hno].
    + rewrite use_session_accepts by assumption. cbv zeta.
      match goal with |- context [PurchasedPackage.use_sessions pk nows ?s ?t] =>
        specialize (IH s t); destruct (PurchasedPackage.use_sessions pk nows s t)
          as [[n self''] table'']
      end.
      simpl in *. destruct IH as (H1 & H2 & H3 & H4); [lia |].
      repeat split; auto; lia.
    + rewrite use_session_refuses by assumption.
      specialize (IH self table Hleft).
      destruct (PurchasedPackage.use_sessions pk nows self table)
        as [[n self''] table''].
      simpl in *. destruct IH as (H1 & H2 & H3 & H4).
      repeat split; auto; lia.
Qed.

Lemma use_sessions_conserves_witness :
  let out :=
    PurchasedPackage.use_sessions 1 [10; 20; 30; 40; 50] three_sessions ∅ in
  0 <= PurchasedPackage.sessions_remaining three_sessions
  /\ fst (fst out) = 3%nat
  /\ PurchasedPackage.sessions_remaining (snd (fst out))
     + Z.of_nat (fst (fst out))
     = PurchasedPackage.sessions_remaining three_sessions.
Proof.
  cbv zeta.
  assert (H : 0 <= PurchasedPackage.sessions_remaining three_sessions)
    by (simpl; lia).
  split; [exact H | split; [reflexivity |]].
  exact (proj1 (proj2 (use_sessions_conserves 1 [10; 20; 30; 40; 50]
                         three_sessions ∅ H))).
Defined.

(** X4. A package with no session left, or whose calls all come after
    [expires_at], is never used: every call returns [False] and neither
    the object nor the table changes. *)
Theorem spent_package_refuses (pk : Z) (nows : list Z)
    (self : PurchasedPackage.t) (table : gmap Z PurchasedPackage.t) :
  PurchasedPackage.sessions_remaining self <= 0
  \/ Forall (fun now => PurchasedPackage.expires_at self < now) nows ->
  PurchasedPackage.use_sessions pk nows self table = (0%nat, self, table).
Proof.
  intros Hno. induction nows as [|now nows IH];
    cbn [PurchasedPackage.use_sessions]; [reflexivity |].
  rewrite use_session_refuses.
  - rewrite IH; [reflexivity |].
    destruct Hno as [Hzero | Hlate]; [by left | right].
    by inversion Hlate.
  - destruct Hno as [Hzero | Hlate]; [by left | right].
    by inversion Hlate.
Qed.

Lemma spent_package_refuses_witness :
  Forall (fun now => PurchasedPackage.expires_at three_sessions < now)
    [101; 250]
  /\ PurchasedPackage.use_sessions 1 [101; 250] three_sessions ∅
     = (0%nat, three_sessions, ∅).
Proof.
  assert (H : Forall (fun now => PurchasedPackage.expires_at three_sessions < now)
                [101; 250])
    by (repeat constructor; simpl; lia).
  split; [exact H |].
  exact (spent_package_refuses 1 [101; 250] three_sessions ∅ (or_intror H)).
Defined.

(** X5. The flag [is_active] is written and never read. A package comes
    out of any sequence of calls with [is_active = False] whenever its last
    session is gone, provided a call succeeded or it was so before; while
    sessions are left the flag is as it was. And a call on a package whose
    flag is already [False] is decided as on any other. *)
Theorem package_flag (pk : Z) (nows : list Z)
    (self : PurchasedPackage.t) (table : gmap Z PurchasedPackage.t) :
  let out := PurchasedPackage.use_sessions pk nows self table in
  let self' := snd (fst out) in
  (((0 < fst (fst out))%nat
    \/ (PurchasedPackage.sessions_remaining self = 0 ->
        PurchasedPackage.is_active self = false)) ->
   PurchasedPackage.sessions_remaining self' = 0 ->
   PurchasedPackage.is_active self' = false)
  /\ (PurchasedPackage.sessions_remaining self' <> 0 ->
      PurchasedPackage.is_active self' = PurchasedPackage.is_active self)
  /\ (forall now flag,
        fst (fst (PurchasedPackage.use_session pk
                    {| PurchasedPackage.user := PurchasedPackage.user self;
                       PurchasedPackage.payment := PurchasedPackage.payment self;
                       PurchasedPackage.sessions_remaining :=
                         PurchasedPackage.sessions_remaining self;
                       PurchasedPackage.expires_at :=
                         PurchasedPackage.expires_at self;
                       PurchasedPackage.is_active := flag |} now table))
        = fst (fst (PurchasedPackage.use_session pk self now table))).
Proof.
  cbv zeta. split; [| split].
  - revert self table.
    induction nows as [|now nows IH]; intros self table;
      cbn [PurchasedPackage.use_sessions].
    + simpl. intros [Hused | Hinv]; [lia | exact Hinv].
    + destruct (use_session_cases self now) as [[Hpos Hvalid] | Hno].
      * rewrite use_session_accepts by assumption. cbv zeta.
        match goal with |- context [PurchasedPackage.use_sessions pk nows ?s ?t] =>
          specialize (IH s t); destruct (PurchasedPackage.use_sessions pk nows s t)
            as [[n self''] table'']
        end.
        simpl in *. intros _. apply IH. right. intros Hzero.
        by rewrite (proj2 (Z.eqb_eq _ _) Hzero).
      * rewrite use_session_refuses by assumption.
        specialize (IH self table).
        destruct (PurchasedPackage.use_sessions pk nows self table)
          as [[n self''] table''].
        simpl in *. exact IH.
  - revert self table.
    induction nows as [|now nows IH]; intros self table;
      cbn [PurchasedPackage.use_sessions]; [reflexivity |].
    destruct (use_session_cases self now) as [[Hpos Hvalid] | Hno].
    + rewrite use_session_accepts by assumption. cbv zeta.
      match goal with |- context [PurchasedPackage.use_sessions pk nows ?s ?t] =>
        pose proof (use_sessions_conserves pk nows s t) as Hcons;
        specialize (IH s t); destruct (PurchasedPackage.use_sessions pk nows s t)
          as [[n self''] table'']
      end.
      simpl in *. intros Hleft. rewrite IH by exact Hleft.
      destruct (Z.eqb_spec (PurchasedPackage.sessions_remaining self - 1) 0)
        as [Hzero|_]; [| reflexivity].
      destruct Hcons as (H1 & H2 & _); [lia |]. lia.
    + rewrite use_session_refuses by assumption.
      specialize (IH self table).
      destruct (PurchasedPackage.use_sessions pk nows self table)
        as [[n self''] table''].
      simpl in *. exact IH.
  - intros now flag. unfold PurchasedPackage.use_session,
      PurchasedPackage.is_expired. simpl.
    by destruct (_ && _).
Qed.

Lemma package_flag_witness :
  let out := PurchasedPackage.use_sessions 1 [10; 20; 30] three_sessions ∅ in
  (0 < fst (fst out))%nat
  /\ PurchasedPackage.sessions_remaining (snd (fst out)) = 0
  /\ PurchasedPackage.is_active (snd (fst out)) = false.
Proof.
  cbv zeta.
  assert (H1 : lt 0 (fst (fst (PurchasedPackage.use_sessions 1 [10; 20; 30]
                                 three_sessions ∅))))
    by (vm_compute; lia).
  assert (H2 : PurchasedPackage.sessions_remaining
                 (snd (fst (PurchasedPackage.use_sessions 1 [10; 20; 30]
                              three_sessions ∅))) = 0) by reflexivity.
  split; [exact H1 | split; [exact H2 |]].
  exact (proj1 (package_flag 1 [10; 20; 30] three_sessions ∅)
           (or_introl H1) H2).
Defined.

(** ** Saved payment methods *)

Lemma lookup_clear_defaults u table k :
  PaymentMethod.clear_defaults u table !! k
  = (fun row =>
       if bool_decide (PaymentMethod.user row = u)
          && PaymentMethod.is_default row
       then PaymentMethod.set_is_default false row else row)
    <$> table !! k.
Proof. unfold PaymentMethod.clear_defaults. apply lookup_fmap. Qed.

(** A row that is still a default after the defaults of [u] were cleared
    is a row of another user, unchanged. *)
Lemma clear_defaults_default u table k r :
  PaymentMethod.clear_defaults u table !! k = Some r ->
  PaymentMethod.is_default r = true ->
  table !! k = Some r /\ PaymentMethod.user r <> u.
Proof.
  rewrite lookup_clear_defaults. intros Hk Hdefault.
  destruct (table !! k) as [r0|]; [| discriminate]. simpl in Hk.
  injection Hk as <-.
  case_bool_decide as Hu; simpl in *.
  - destruct (PaymentMethod.is_default r0) eqn:Hd; simpl in *;
      [discriminate | congruence].
  - auto.
Qed.

Lemma clear_defaults_user u table k r :
  PaymentMethod.clear_defaults u table !! k = Some r ->
  exists r0, table !! k = Some r0
             /\ PaymentMethod.user r = PaymentMethod.user r0
             /\ PaymentMethod.method_type r = PaymentMethod.method_type r0
             /\ PaymentMethod.is_active r = PaymentMethod.is_active r0.
Proof.
  rewrite lookup_clear_defaults. intros Hk.
  destruct (table !! k) as [r0|]; [| discriminate]. simpl in Hk.
  injection Hk as <-. exists r0. split; [reflexivity |].
  by destruct (_ && _).
Qed.

Lemma save_keeps_one_default pk self table :
  PaymentMethod.one_default table ->
  PaymentMethod.one_default (PaymentMethod.save pk self table).
Proof.
  intros Hone k1 k2 r1 r2 H1 H2 Huser Hd1 Hd2.
  unfold PaymentMethod.save in H1, H2.
  destruct (decide (k1 = k2)) as [|Hne]; [assumption | exfalso].
  destruct (PaymentMethod.is_default self) eqn:Hself.
  - destruct (decide (k1 = pk)) as [->|Hk1].
    + rewrite lookup_insert_eq in H1. injection H1 as <-.
      rewrite lookup_insert_ne in H2 by congruence.
      destruct (clear_defaults_default _ _ _ _ H2 Hd2) as [_ Hother].
      congruence.
    + rewrite lookup_insert_ne in H1 by congruence.
      destruct (clear_defaults_default _ _ _ _ H1 Hd1) as [H1' Hother].
      destruct (decide (k2 = pk)) as [->|Hk2].
      * rewrite lookup_insert_eq in H2. injection H2 as <-. congruence.
      * rewrite lookup_insert_ne in H2 by congruence.
        destruct (clear_defaults_default _ _ _ _ H2 Hd2) as [H2' _].
        apply Hne. by apply (Hone k1 k2 r1 r2).
  - destruct (decide (k1 = pk)) as [->|Hk1].
    + rewrite lookup_insert_eq in H1. injection H1 as <-. congruence.
    + rewrite lookup_insert_ne in H1 by congruence.
      destruct (decide (k2 = pk)) as [->|Hk2].
      * rewrite lookup_insert_eq in H2. injection H2 as <-. congruence.
      * rewrite lookup_insert_ne in H2 by congruence.
        apply Hne. by apply (Hone k1 k2 r1 r2).
Qed.

(** X6. Saving a payment method flagged as default makes it the only
    default method of its user, whatever the table held before; the rows
    of other users are not touched, and the other rows of the same user
    keep their method and their [is_active]. Saving a method that is not
    flagged changes no row but its own. *)
Theorem save_default_is_unique (pk : Z) (self : PaymentMethod.t)
    (table : gmap Z PaymentMethod.t) :
  let table' := PaymentMethod.save pk self table in
  table' !! pk = Some self
  /\ (PaymentMethod.is_default self = true ->
      forall k r,
        table' !! k = Some r ->
        PaymentMethod.user r = PaymentMethod.user self ->
        PaymentMethod.is_default r = true ->
        k = pk)
  /\ (forall k r,
        k <> pk -> table !! k = Some r ->
        PaymentMethod.user r <> PaymentMethod.user self ->
        table' !! k = Some r)
  /\ (forall k r,
        k <> pk -> table !! k = Some r ->
        exists r', table' !! k = Some r'
                   /\ PaymentMethod.user r' = PaymentMethod.user r
                   /\ PaymentMethod.method_type r' = PaymentMethod.method_type r
                   /\ PaymentMethod.is_active r' = PaymentMethod.is_active r)
  /\ (PaymentMethod.is_default self = false ->
      forall k, k <> pk -> table' !! k = table !! k).
Proof.
  cbv zeta. unfold PaymentMethod.save.
  split; [apply lookup_insert_eq |].
  split; [| split; [| split]].
  - intros Hself k r Hk Hu Hd. rewrite Hself in Hk.
    destruct (decide (k = pk)) as [|Hne]; [assumption | exfalso].
    rewrite lookup_insert_ne in Hk by congruence.
    destruct (clear_defaults_default _ _ _ _ Hk Hd) as [_ Hother].
    contradiction.
  - intros k r Hne Hk Hother. rewrite lookup_insert_ne by congruence.
    destruct (PaymentMethod.is_default self); [| exact Hk].
    rewrite lookup_clear_defaults, Hk. simpl.
    by rewrite bool_decide_false.
  - intros k r Hne Hk. rewrite lookup_insert_ne by congruence.
    destruct (PaymentMethod.is_default self); [| by exists r].
    rewrite lookup_clear_defaults, Hk. simpl. eexists. split; [reflexivity |].
    by destruct (_ && _).
  - intros Hself k Hne. rewrite Hself. by rewrite lookup_insert_ne.
Qed.

Lemma save_default_is_unique_witness :
  let visa :=
    {| PaymentMethod.user := 7; PaymentMethod.method_type := "stripe";
       PaymentMethod.is_default := true; PaymentMethod.is_active := true |} in
  let momo :=
    {| PaymentMethod.user := 7; PaymentMethod.method_type := "mtn_momo";
       PaymentMethod.is_default := true; PaymentMethod.is_active := true |} in
  let table' := PaymentMethod.save 2 momo {[ 1 := visa ]} in
  PaymentMethod.is_default momo = true
  /\ table' !! 1 = Some (PaymentMethod.set_is_default false visa)
  /\ PaymentMethod.user (PaymentMethod.set_is_default false visa)
     = PaymentMethod.user momo
  /\ (PaymentMethod.is_default (PaymentMethod.set_is_default false visa) = true
      -> 1 = 2).
Proof.
  cbv zeta.
  split; [reflexivity | split; [reflexivity | split; [reflexivity |]]].
  exact (proj1 (proj2 (save_default_is_unique 2
                         {| PaymentMethod.user := 7;
                            PaymentMethod.method_type := "mtn_momo";
                            PaymentMethod.is_default := true;
                            PaymentMethod.is_active := true |}
                         {[ 1 := {| PaymentMethod.user := 7;
                                    PaymentMethod.method_type := "stripe";
                                    PaymentMethod.is_default := true;
                                    PaymentMethod.is_active := true |} ]}))
           eq_refl 1 _ eq_refl eq_refl).
Defined.

(** X7. No user ever has two default payment methods: if that holds of
    the table, it holds after any sequence of saves, of new rows or of
    stored ones, flagged or not. *)
Theorem saves_keep_one_default (history : list (Z * PaymentMethod.t))
    (table : gmap Z PaymentMethod.t) :
  PaymentMethod.one_default table ->
  PaymentMethod.one_default (PaymentMethod.saves history table).
Proof.
  unfold PaymentMethod.saves. revert table.
  induction history as [|[pk self] history IH]; intros table Hone; simpl;
    [assumption |].
  apply IH. by apply save_keeps_one_default.
Qed.

Lemma saves_keep_one_default_witness :
  PaymentMethod.one_default ∅
  /\ PaymentMethod.one_default
       (PaymentMethod.saves
          [(1, {| PaymentMethod.user := 7; PaymentMethod.method_type := "stripe";
                  PaymentMethod.is_default := true;
                  PaymentMethod.is_active := true |});
           (2, {| PaymentMethod.user := 7; PaymentMethod.method_type := "mtn_momo";
                  PaymentMethod.is_default := true;
                  PaymentMethod.is_active := true |})] ∅).
Proof.
  assert (H : PaymentMethod.one_default ∅).
  { intros k1 k2 r1 r2 H1. rewrite lookup_empty in H1. discriminate. }
  split; [exact H |].
  exact (saves_keep_one_default _ ∅ H).
Defined.

(** ** The subscription window *)

Section Activation.
Variables (pk : N) (p : Payment.t) (metadata : Payment.metadata_dict)
  (plan : string) (d : Z) (db : DB) (now_start now_renew : Z).
Hypothesis Hmetadata : Payment.metadata p = Some metadata.
Hypothesis Hplan : Payment.plan metadata = Some plan.
Hypothesis Hmonths : default 1 (Payment.months metadata) = d.

(** With a profile, the activation goes through and writes the two rows. *)
Lemma activation_writes profile :
  tutor_profiles db !! Payment.user p = Some profile ->
  let s' :=
    activated_subscription pk plan d (Payment.amount p) now_start now_renew
      (subscriptions db !! Payment.user p) in
  StripeWebhookView.create_tutor_subscription pk p now_start now_renew db
  = (Ok tt,
     with_tutor_profiles (insert (Payment.user p) (activated_profile s'))
       (with_subscriptions (insert (Payment.user p) s') db)).
Proof.
  intros Hprofile. cbv zeta.
  unfold StripeWebhookView.create_tutor_subscription, bind,
    TutorSubscription_objects_get_or_create, related_tutor_profile.
  rewrite Hmetadata, Hplan, Hmonths.
  destruct (subscriptions db !! Payment.user p) as [s|]; simpl;
    rewrite Hprofile; reflexivity.
Qed.

(** Without a profile, the subscription row is written all the same, and
    then the lookup of the profile raises. *)
Lemma activation_without_profile :
  tutor_profiles db !! Payment.user p = None ->
  let s' :=
    activated_subscription pk plan d (Payment.amount p) now_start now_renew
      (subscriptions db !! Payment.user p) in
  StripeWebhookView.create_tutor_subscription pk p now_start now_renew db
  = (Raise (DoesNotExist TutorProfileModel),
     with_subscriptions (insert (Payment.user p) s') db).
Proof.
  intros Hprofile. cbv zeta.
  unfold StripeWebhookView.create_tutor_subscription, bind,
    TutorSubscription_objects_get_or_create, related_tutor_profile.
  rewrite Hmetadata, Hplan, Hmonths.
  destruct (subscriptions db !! Payment.user p) as [s|] eqn:Hs; simpl;
    rewrite Hprofile; [reflexivity |].
  reflexivity.
Qed.
End Activation.

(** X8. Renewal never shortens a subscription. For a payment of [d >= 0]
    months, the renewed row ends no earlier than the old one and no
    earlier than the time of renewal, and keeps its [start_date]; for
    [d >= 1] the renewed subscription is active at the time of renewal,
    whatever its status was (expired, cancelled or suspended). *)
Theorem renewal_extends (pk : N) (p : Payment.t)
    (metadata : Payment.metadata_dict) (plan : string) (d : Z)
    (profile : TutorProfile.t) (s : TutorSubscription.t) (db : DB)
    (now_start now_renew : Z) :
  Payment.metadata p = Some metadata ->
  Payment.plan metadata = Some plan ->
  default 1 (Payment.months metadata) = d ->
  tutor_profiles db !! Payment.user p = Some profile ->
  subscriptions db !! Payment.user p = Some s ->
  0 <= d ->
  let db' :=
    snd (StripeWebhookView.create_tutor_subscription pk p now_start now_renew
           db) in
  exists s',
    subscriptions db' !! Payment.user p = Some s'
    /\ TutorSubscription.end_date s <= TutorSubscription.end_date s'
    /\ now_renew <= TutorSubscription.end_date s'
    /\ TutorSubscription.start_date s' = TutorSubscription.start_date s
    /\ (1 <= d -> TutorSubscription_is_active s' now_renew = true).
Proof.
  intros Hmetadata Hplan Hmonths Hprofile Hs Hd. cbv zeta.
  rewrite (activation_writes pk p metadata plan d db now_start now_renew
             Hmetadata Hplan Hmonths profile Hprofile).
  rewrite Hs.
  cbn [snd subscriptions with_tutor_profiles with_subscriptions
       activated_subscription].
  eexists. split; [apply lookup_insert_eq |].
  unfold TutorSubscription_is_active, renewed_subscription, days.
  cbn [TutorSubscription.end_date TutorSubscription.start_date
       TutorSubscription.status].
  split; [lia | split; [lia | split; [reflexivity |]]].
  intros Hd1. apply Z.gtb_lt. lia.
Qed.

Lemma renewal_extends_witness :
  Payment.metadata basic_payment
  = Some {| Payment.plan := Some "basic"; Payment.months := Some 1;
            Payment.phone_number := None |}
  /\ tutor_profiles renewing_db !! Payment.user basic_payment
     = Some {| TutorProfile.subscription_active := false;
               TutorProfile.subscription_expiry := None |}
  /\ subscriptions renewing_db !! Payment.user basic_payment
     = Some running_subscription
  /\ 0 <= 1
  /\ exists s',
       subscriptions
         (snd (StripeWebhookView.create_tutor_subscription 5 basic_payment 0 0
                 renewing_db)) !! Payment.user basic_payment = Some s'
       /\ TutorSubscription.end_date running_subscription
          <= TutorSubscription.end_date s'
       /\ 0 <= TutorSubscription.end_date s'
       /\ TutorSubscription.start_date s'
          = TutorSubscription.start_date running_subscription
       /\ (1 <= 1 -> TutorSubscription_is_active s' 0 = true).
Proof.
  assert (H1 : Payment.metadata basic_payment
               = Some {| Payment.plan := Some "basic"; Payment.months := Some 1;
                         Payment.phone_number := None |}) by reflexivity.
  assert (H2 : tutor_profiles renewing_db !! Payment.user basic_payment
               = Some {| TutorProfile.subscription_active := false;
                         TutorProfile.subscription_expiry := None |})
    by reflexivity.
  assert (H3 : subscriptions renewing_db !! Payment.user basic_payment
               = Some running_subscription) by reflexivity.
  assert (H4 : 0 <= 1) by lia.
  split; [exact H1 | split; [exact H2 | split; [exact H3 | split; [exact H4 |]]]].
  exact (renewal_extends 5 basic_payment _ "basic" 1 _ running_subscription
           renewing_db 0 0 H1 eq_refl eq_refl H2 H3 H4).
Defined.

(** X9. The profile and the subscription tell the same story. After an
    activation, of a first subscription or of a renewal, the tutor
    profile's [is_subscription_active] and the subscription's [is_active]
    agree at every time. *)
Theorem profile_agrees_with_subscription (pk : N) (p : Payment.t)
    (metadata : Payment.metadata_dict) (plan : string)
    (profile : TutorProfile.t) (db : DB) (now_start now_renew : Z) :
  Payment.metadata p = Some metadata ->
  Payment.plan metadata = Some plan ->
  tutor_profiles db !! Payment.user p = Some profile ->
  let db' :=
    snd (StripeWebhookView.create_tutor_subscription pk p now_start now_renew
           db) in
  exists s' profile',
    subscriptions db' !! Payment.user p = Some s'
    /\ tutor_profiles db' !! Payment.user p = Some profile'
    /\ forall t,
         TutorProfile_is_subscription_active profile' t
         = TutorSubscription_is_active s' t.
Proof.
  intros Hmetadata Hplan Hprofile. cbv zeta.
  rewrite (activation_writes pk p metadata plan _ db now_start now_renew
             Hmetadata Hplan eq_refl profile Hprofile).
  simpl. eexists _, _.
  split; [apply lookup_insert_eq | split; [apply lookup_insert_eq |]].
  intros t. unfold TutorProfile_is_subscription_active,
    TutorSubscription_is_active, activated_profile, activated_subscription.
  by destruct (subscriptions db !! Payment.user p).
Qed.

Lemma profile_agrees_with_subscription_witness :
  Payment.metadata standard_payment
  = Some {| Payment.plan := Some "standard"; Payment.months := Some 3;
            Payment.phone_number := None |}
  /\ tutor_profiles tutor_db !! Payment.user standard_payment
     = Some {| TutorProfile.subscription_active := false;
               TutorProfile.subscription_expiry := None |}
  /\ exists s' profile',
       subscriptions
         (snd (StripeWebhookView.create_tutor_subscription 4 standard_payment
                 1000 1000 tutor_db)) !! Payment.user standard_payment
       = Some s'
       /\ tutor_profiles
            (snd (StripeWebhookView.create_tutor_subscription 4
                    standard_payment 1000 1000 tutor_db))
            !! Payment.user standard_payment = Some profile'
       /\ forall t,
            TutorProfile_is_subscription_active profile' t
            = TutorSubscription_is_active s' t.
Proof.
  assert (H1 : Payment.metadata standard_payment
               = Some {| Payment.plan := Some "standard";
                         Payment.months := Some 3;
                         Payment.phone_number := None |}) by reflexivity.
  assert (H2 : tutor_profiles tutor_db !! Payment.user standard_payment
               = Some {| TutorProfile.subscription_active := false;
                         TutorProfile.subscription_expiry := None |})
    by reflexivity.
  split; [exact H1 | split; [exact H2 |]].
  exact (profile_agrees_with_subscription 4 standard_payment _ "standard" _
           tutor_db 1000 1000 H1 eq_refl H2).
Defined.

(** X10. [days_remaining] is zero once the subscription has ended at the
    first clock reading, and is not negative as long as the second reading
    is not past [end_date]; between the two it is the number of whole days
    left. Right after a first activation for [d >= 1] months, read at the
    time of activation, it is [30 d]. *)
Theorem days_remaining_spec (self : TutorSubscription.t)
    (now_test now_diff : Z) :
  (TutorSubscription.end_date self <= now_test ->
   TutorSubscription_days_remaining self now_test now_diff = 0)
  /\ (now_diff <= TutorSubscription.end_date self ->
      0 <= TutorSubscription_days_remaining self now_test now_diff)
  /\ (now_test < TutorSubscription.end_date self ->
      days (TutorSubscription_days_remaining self now_test now_diff)
      <= TutorSubscription.end_date self - now_diff
      < days (TutorSubscription_days_remaining self now_test now_diff + 1))
  /\ (forall pk plan d amount now,
        1 <= d ->
        TutorSubscription_days_remaining
          (first_subscription pk plan d amount now) now now = 30 * d).
Proof.
  unfold TutorSubscription_days_remaining, days.
  split; [| split; [| split]].
  - intros Hended.
    destruct (Z.gtb_spec (TutorSubscription.end_date self) now_test);
      [lia | reflexivity].
  - intros Hleft.
    destruct (Z.gtb_spec (TutorSubscription.end_date self) now_test);
      [| lia].
    apply Z.div_pos; lia.
  - intros Hrunning.
    destruct (Z.gtb_spec (TutorSubscription.end_date self) now_test);
      [| lia].
    pose proof (Z.div_mod (TutorSubscription.end_date self - now_diff) 86400)
      as Hdm.
    pose proof (Z.mod_pos_bound (TutorSubscription.end_date self - now_diff)
                  86400) as Hb.
    lia.
  - intros pk plan d amount now Hd. simpl. unfold days.
    destruct (Z.gtb_spec (now + 30 * d * 86400) now); [| lia].
    replace (now + 30 * d * 86400 - now) with (30 * d * 86400) by lia.
    apply Z.div_mul. lia.
Qed.

Lemma days_remaining_spec_witness :
  TutorSubscription.end_date running_subscription <= days 10
  /\ TutorSubscription_days_remaining running_subscription (days 10) (days 10)
     = 0
  /\ 0 <= TutorSubscription.end_date running_subscription
  /\ 0 <= TutorSubscription_days_remaining running_subscription 0 0.
Proof.
  assert (H1 : TutorSubscription.end_date running_subscription <= days 10)
    by (simpl; lia).
  assert (H2 : 0 <= TutorSubscription.end_date running_subscription)
    by (vm_compute; discriminate).
  destruct (days_remaining_spec running_subscription (days 10) (days 10))
    as (Hzero & _).
  destruct (days_remaining_spec running_subscription 0 0) as (_ & Hpos & _).
  split; [exact H1 | split; [exact (Hzero H1) | split; [exact H2 |]]].
  exact (Hpos H2).
Defined.

(** Between the two clock readings the subscription can end: the test
    passes, the difference is negative, and its floor is [-1]. *)
Example days_remaining_can_be_negative :
  TutorSubscription_days_remaining running_subscription
    (days 10 - 1) (days 10 + 1) = -1.
Proof. reflexivity. Qed.

(** ** More on gateway notifications *)

(** X11. A failure notification for a stored payment rewrites that payment
    row and nothing else: the status becomes [failed] and the gateway
    payload is recorded, while [completed_at] and the purchase are kept.
    Delivered again, it changes nothing more. *)
Theorem failure_notification (payment_intent : payment_intent) (pk : N)
    (p : Payment.t) (db : DB) :
  metadata_payment_id payment_intent = Some (well_formed pk) ->
  payments db !! pk = Some p ->
  let row :=
    Payment.set_gateway_response (Some payment_intent)
      (Payment.set_status Payment.failed p) in
  let db' := with_payments (insert pk row) db in
  StripeWebhookView.handle_payment_failure payment_intent db = (Ok tt, db')
  /\ StripeWebhookView.handle_payment_failure payment_intent db' = (Ok tt, db')
  /\ Payment.status row = Payment.failed
  /\ Payment.completed_at row = Payment.completed_at p
  /\ same_purchase p row.
Proof.
  intros Hid Hp. cbv zeta.
  assert (Hrun : forall d q,
            payments d !! pk = Some q ->
            StripeWebhookView.handle_payment_failure payment_intent d
            = (Ok tt,
               with_payments
                 (insert pk (Payment.set_gateway_response (Some payment_intent)
                               (Payment.set_status Payment.failed q))) d)).
  { intros d q Hq.
    unfold StripeWebhookView.handle_payment_failure, try_except, bind,
      Payment_objects_get.
    rewrite Hid, Hq. reflexivity. }
  split; [by apply Hrun |].
  split; [| by repeat split].
  erewrite Hrun by apply lookup_insert_eq.
  f_equal. destruct db. unfold with_payments. simpl.
  by rewrite insert_insert_eq.
Qed.

Lemma failure_notification_witness :
  metadata_payment_id topup_intent = Some (well_formed 1)
  /\ payments topup_db !! 1%N = Some topup_50
  /\ StripeWebhookView.handle_payment_failure topup_intent topup_db
     = (Ok tt,
        with_payments
          (insert 1%N (Payment.set_gateway_response (Some topup_intent)
                         (Payment.set_status Payment.failed topup_50)))
          topup_db).
Proof.
  assert (H1 : metadata_payment_id topup_intent = Some (well_formed 1)) by reflexivity.
  assert (H2 : payments topup_db !! 1%N = Some topup_50) by reflexivity.
  split; [exact H1 | split; [exact H2 |]].
  exact (proj1 (failure_notification topup_intent 1 topup_50 topup_db H1 H2)).
Defined.

(** X12. A failure notification that arrives after the success
    notification of a top-up marks the payment failed and takes nothing
    back: for a user who had a wallet when the success arrived,
    [completed_at] still holds the time of the success, the wallet keeps
    the credit and the ledger keeps its row. *)
Theorem late_failure_keeps_credit (payment_intent : payment_intent) (pk : N)
    (p : Payment.t) (w : Wallet) (db : DB) (now now_start now_renew : Z) :
  metadata_payment_id payment_intent = Some (well_formed pk) ->
  payments db !! pk = Some p ->
  Payment.payment_type p = Payment.wallet_topup ->
  0 < Payment.amount p ->
  wallets db !! Payment.user p = Some w ->
  user w = Payment.user p ->
  let db1 :=
    snd (StripeWebhookView.handle_payment_success payment_intent now now_start
           now_renew db) in
  let db2 := snd (StripeWebhookView.handle_payment_failure payment_intent db1) in
  (Payment.status <$> payments db2 !! pk) = Some Payment.failed
  /\ (Payment.completed_at <$> payments db2 !! pk) = Some (Some now)
  /\ wallets db2 !! Payment.user p
     = Some (Wallet.set_balance (balance w + Payment.amount p) w)
  /\ wallet_transactions db2
     = (wallet_transactions db
        ++ [ {| WalletTransaction.wallet := Payment.user p;
                WalletTransaction.transaction_type := WalletTransaction.credit;
                WalletTransaction.amount := Payment.amount p;
                WalletTransaction.description := "Wallet top-up via Stripe";
                WalletTransaction.balance_after :=
                  balance w + Payment.amount p |} ])%list.
Proof.
  intros Hid Hp Htype Hpos Hw Huser db1 db2.
  unfold db2, db1.
  rewrite (handle_payment_success_topup payment_intent pk p w now now_start
             now_renew db Hid Hp Htype Hpos Hw Huser).
  unfold StripeWebhookView.handle_payment_failure, try_except, bind,
    Payment_objects_get.
  rewrite Hid.
  cbn [snd payments with_payments with_wallets with_wallet_transactions].
  rewrite lookup_insert_eq.
  cbn [snd fst payments wallets wallet_transactions with_payments with_wallets
       with_wallet_transactions Payment_save modify].
  rewrite !lookup_insert_eq.
  repeat split; reflexivity.
Qed.

Lemma late_failure_keeps_credit_witness :
  metadata_payment_id topup_intent = Some (well_formed 1)
  /\ payments funded_topup_db !! 1%N = Some topup_50
  /\ Payment.payment_type topup_50 = Payment.wallet_topup
  /\ 0 < Payment.amount topup_50
  /\ wallets funded_topup_db !! Payment.user topup_50 = Some wallet_100
  /\ user wallet_100 = Payment.user topup_50
  /\ wallets
       (snd (StripeWebhookView.handle_payment_failure topup_intent
          (snd (StripeWebhookView.handle_payment_success topup_intent 10 10 10
                  funded_topup_db)))) !! Payment.user topup_50
     = Some (Wallet.set_balance
               (balance wallet_100 + Payment.amount topup_50) wallet_100).
Proof.
  assert (H1 : metadata_payment_id topup_intent = Some (well_formed 1))
    by reflexivity.
  assert (H2 : payments funded_topup_db !! 1%N = Some topup_50) by reflexivity.
  assert (H3 : Payment.payment_type topup_50 = Payment.wallet_topup)
    by reflexivity.
  assert (H4 : 0 < Payment.amount topup_50) by (simpl; lia).
  assert (H5 : wallets funded_topup_db !! Payment.user topup_50
               = Some wallet_100) by reflexivity.
  assert (H6 : user wallet_100 = Payment.user topup_50) by reflexivity.
  split; [exact H1 | split; [exact H2 | split; [exact H3 | split; [exact H4 |]]]].
  split; [exact H5 | split; [exact H6 |]].
  exact (proj1 (proj2 (proj2 (late_failure_keeps_credit topup_intent 1 topup_50
                                wallet_100 funded_topup_db 10 10 10
                                H1 H2 H3 H4 H5 H6)))).
Defined.

(** X13. For a resource, video or package payment, and for a session
    payment that is linked to no session, completion is the payment row
    alone: the handler returns normally, the database differs from the one
    it found in that row only, and the webhook answers 200. *)
Theorem plain_purchase_completion (payment_intent : payment_intent) (pk : N)
    (p : Payment.t) (db : DB) (now now_start now_renew : Z) :
  metadata_payment_id payment_intent = Some (well_formed pk) ->
  payments db !! pk = Some p ->
  Payment.payment_type p = Payment.resource
  \/ Payment.payment_type p = Payment.video
  \/ Payment.payment_type p = Payment.package
  \/ (Payment.payment_type p = Payment.session_type
      /\ Payment.session p = None) ->
  let db' := with_payments (insert pk (stamped payment_intent now p)) db in
  StripeWebhookView.handle_payment_success payment_intent now now_start
    now_renew db = (Ok tt, db')
  /\ StripeWebhookView.post
       (Some {| event_type := "payment_intent.succeeded";
                data_object := payment_intent |}) now now_start now_renew db
     = (Ok (HttpResponseStatus 200), db').
Proof.
  intros Hid Hp Htype. cbv zeta.
  assert (Hrun : StripeWebhookView.handle_payment_success payment_intent now
                   now_start now_renew db
                 = (Ok tt,
                    with_payments (insert pk (stamped payment_intent now p)) db)).
  { rewrite (handle_payment_success_found _ pk p) by assumption.
    unfold try_except, StripeWebhookView.payment_type_side_effect.
    change (Payment.payment_type (stamped payment_intent now p))
      with (Payment.payment_type p).
    change (Payment.session (stamped payment_intent now p))
      with (Payment.session p).
    destruct Htype as [-> | [-> | [-> | [-> ->]]]]; reflexivity. }
  split; [exact Hrun |].
  unfold StripeWebhookView.post, bind. simpl. by rewrite Hrun.
Qed.

Lemma plain_purchase_completion_witness :
  metadata_payment_id topup_intent = Some (well_formed 1)
  /\ payments book_db !! 1%N = Some book_payment
  /\ Payment.payment_type book_payment = Payment.resource
  /\ StripeWebhookView.post
       (Some {| event_type := "payment_intent.succeeded";
                data_object := topup_intent |}) 10 10 10 book_db
     = (Ok (HttpResponseStatus 200),
        with_payments (insert 1%N (stamped topup_intent 10 book_payment))
          book_db).
Proof.
  assert (H1 : metadata_payment_id topup_intent = Some (well_formed 1)) by reflexivity.
  assert (H2 : payments book_db !! 1%N = Some book_payment) by reflexivity.
  assert (H3 : Payment.payment_type book_payment = Payment.resource)
    by reflexivity.
  split; [exact H1 | split; [exact H2 | split; [exact H3 |]]].
  exact (proj2 (plain_purchase_completion topup_intent 1 book_payment book_db
                  10 10 10 H1 H2 (or_introl H3))).
Defined.

(** X14. A subscription payment whose metadata are missing, or name no
    plan, is marked completed and activates nothing: the handler raises
    ([AttributeError], [IntegrityError]) after the payment row is written,
    no other row changes, and the webhook raises in place of an answer. *)
Theorem activation_without_plan (payment_intent : payment_intent) (pk : N)
    (p : Payment.t) (db : DB) (now now_start now_renew : Z) :
  metadata_payment_id payment_intent = Some (well_formed pk) ->
  payments db !! pk = Some p ->
  Payment.payment_type p = Payment.subscription ->
  let db' := with_payments (insert pk (stamped payment_intent now p)) db in
  let answer e :=
    StripeWebhookView.handle_payment_success payment_intent now now_start
      now_renew db = (Raise e, db')
    /\ StripeWebhookView.post
         (Some {| event_type := "payment_intent.succeeded";
                  data_object := payment_intent |}) now now_start now_renew db
       = (Raise e, db') in
  (Payment.metadata p = None -> answer AttributeError)
  /\ (forall metadata,
        Payment.metadata p = Some metadata ->
        Payment.plan metadata = None ->
        answer IntegrityError).
Proof.
  intros Hid Hp Htype. cbv zeta.
  assert (Hrun : forall e,
            StripeWebhookView.create_tutor_subscription pk
              (stamped payment_intent now p) now_start now_renew
              (with_payments (insert pk (stamped payment_intent now p)) db)
            = (Raise e,
               with_payments (insert pk (stamped payment_intent now p)) db) ->
            e = AttributeError \/ e = IntegrityError ->
            StripeWebhookView.handle_payment_success payment_intent now
              now_start now_renew db
            = (Raise e,
               with_payments (insert pk (stamped payment_intent now p)) db)).
  { intros e Hcreate He.
    rewrite (handle_payment_success_found _ pk p) by assumption.
    unfold try_except, StripeWebhookView.payment_type_side_effect.
    change (Payment.payment_type (stamped payment_intent now p))
      with (Payment.payment_type p).
    rewrite Htype.
    assert (Hside : forall o : option Z,
              match o with
              | Some _ | _ =>
                  StripeWebhookView.create_tutor_subscription pk
                    (stamped payment_intent now p) now_start now_renew
              end
              = StripeWebhookView.create_tutor_subscription pk
                  (stamped payment_intent now p) now_start now_renew)
      by (by intros []).
    try rewrite Hside. rewrite Hcreate.
    by destruct He as [-> | ->]. }
  assert (Hpost : forall e,
            StripeWebhookView.handle_payment_success payment_intent now
              now_start now_renew db
            = (Raise e,
               with_payments (insert pk (stamped payment_intent now p)) db) ->
            StripeWebhookView.post
              (Some {| event_type := "payment_intent.succeeded";
                       data_object := payment_intent |})
              now now_start now_renew db
            = (Raise e,
               with_payments (insert pk (stamped payment_intent now p)) db)).
  { intros e Hhandle. unfold StripeWebhookView.post, bind. simpl.
    by rewrite Hhandle. }
  split.
  - intros Hnone.
    assert (Hh := Hrun AttributeError). split; [| apply Hpost]; apply Hh; auto;
      unfold StripeWebhookView.create_tutor_subscription;
      change (Payment.metadata (stamped payment_intent now p))
        with (Payment.metadata p); by rewrite Hnone.
  - intros metadata Hmetadata Hplan.
    assert (Hh := Hrun IntegrityError). split; [| apply Hpost]; apply Hh; auto;
      unfold StripeWebhookView.create_tutor_subscription;
      change (Payment.metadata (stamped payment_intent now p))
        with (Payment.metadata p); by rewrite Hmetadata, Hplan.
Qed.

Lemma activation_without_plan_witness :
  metadata_payment_id {| intent_id := "pi_4"; metadata_payment_id := Some (well_formed 4) |}
  = Some (well_formed 4)
  /\ payments bare_db !! 4%N = Some bare_payment
  /\ Payment.payment_type bare_payment = Payment.subscription
  /\ Payment.metadata bare_payment = None
  /\ StripeWebhookView.post
       (Some {| event_type := "payment_intent.succeeded";
                data_object := {| intent_id := "pi_4";
                                  metadata_payment_id := Some (well_formed 4) |} |})
       10 10 10 bare_db
     = (Raise AttributeError,
        with_payments
          (insert 4%N (stamped {| intent_id := "pi_4";
                                  metadata_payment_id := Some (well_formed 4) |} 10
                         bare_payment)) bare_db).
Proof.
  assert (H1 : metadata_payment_id
                 {| intent_id := "pi_4"; metadata_payment_id := Some (well_formed 4) |}
               = Some (well_formed 4)) by reflexivity.
  assert (H2 : payments bare_db !! 4%N = Some bare_payment) by reflexivity.
  assert (H3 : Payment.payment_type bare_payment = Payment.subscription)
    by reflexivity.
  assert (H4 : Payment.metadata bare_payment = None) by reflexivity.
  split; [exact H1 | split; [exact H2 | split; [exact H3 | split; [exact H4 |]]]].
  exact (proj2 (proj1 (activation_without_plan _ 4 bare_payment bare_db
                         10 10 10 H1 H2 H3) H4)).
Defined.

Lemma handle_payment_success_without_profile payment_intent pk p metadata plan
    d db now now_start now_renew :
  metadata_payment_id payment_intent = Some (well_formed pk) ->
  payments db !! pk = Some p ->
  Payment.payment_type p = Payment.subscription ->
  Payment.metadata p = Some metadata ->
  Payment.plan metadata = Some plan ->
  default 1 (Payment.months metadata) = d ->
  tutor_profiles db !! Payment.user p = None ->
  StripeWebhookView.handle_payment_success payment_intent now now_start
    now_renew db
  = (Raise (DoesNotExist TutorProfileModel),
     with_subscriptions
       (insert (Payment.user p)
          (activated_subscription pk plan d (Payment.amount p) now_start
             now_renew (subscriptions db !! Payment.user p)))
       (with_payments (insert pk (stamped payment_intent now p)) db)).
Proof.
  intros Hid Hp Htype Hmetadata Hplan Hmonths Hprofile.
  rewrite (handle_payment_success_found _ pk p) by assumption.
  unfold try_except, StripeWebhookView.payment_type_side_effect.
  change (Payment.payment_type (stamped payment_intent now p))
    with (Payment.payment_type p).
  rewrite Htype.
  assert (Hside : forall o : option Z,
            match o with
            | Some _ | _ =>
                StripeWebhookView.create_tutor_subscription pk
                  (stamped payment_intent now p) now_start now_renew
            end
            = StripeWebhookView.create_tutor_subscription pk
                (stamped payment_intent now p) now_start now_renew)
    by (by intros []).
  try rewrite Hside.
  rewrite (activation_without_profile pk (stamped payment_intent now p)
             metadata plan d _ now_start now_renew Hmetadata Hplan Hmonths)
    by exact Hprofile.
  reflexivity.
Qed.

(** X15. A subscription payment of a user who has no tutor profile is
    half applied. The handler raises [TutorProfile.DoesNotExist] after it
    has written the subscription row, and the profiles are untouched; a
    redelivery of the notification renews the row it wrote, so the
    subscription is extended once per delivery. *)
Theorem activation_without_profile_stacks (payment_intent : payment_intent)
    (pk : N) (p : Payment.t) (metadata : Payment.metadata_dict)
    (plan : string) (d : Z) (db : DB) (t1 s1 r1 t2 s2 r2 : Z) :
  metadata_payment_id payment_intent = Some (well_formed pk) ->
  payments db !! pk = Some p ->
  Payment.payment_type p = Payment.subscription ->
  Payment.metadata p = Some metadata ->
  Payment.plan metadata = Some plan ->
  default 1 (Payment.months metadata) = d ->
  tutor_profiles db !! Payment.user p = None ->
  let out1 :=
    StripeWebhookView.handle_payment_success payment_intent t1 s1 r1 db in
  let out2 :=
    StripeWebhookView.handle_payment_success payment_intent t2 s2 r2
      (snd out1) in
  let sub1 :=
    activated_subscription pk plan d (Payment.amount p) s1 r1
      (subscriptions db !! Payment.user p) in
  fst out1 = Raise (DoesNotExist TutorProfileModel)
  /\ subscriptions (snd out1) !! Payment.user p = Some sub1
  /\ tutor_profiles (snd out1) = tutor_profiles db
  /\ fst out2 = Raise (DoesNotExist TutorProfileModel)
  /\ subscriptions (snd out2) !! Payment.user p
     = Some (renewed_subscription plan d (Payment.amount p) r2 sub1)
  /\ TutorSubscription.end_date
       (renewed_subscription plan d (Payment.amount p) r2 sub1)
     = Z.max (TutorSubscription.end_date sub1) r2 + days (30 * d).
Proof.
  intros Hid Hp Htype Hmetadata Hplan Hmonths Hprofile. cbv zeta.
  rewrite (handle_payment_success_without_profile payment_intent pk p metadata
             plan d db t1 s1 r1) by assumption.
  cbn [fst snd].
  rewrite (handle_payment_success_without_profile payment_intent pk
             (stamped payment_intent t1 p) metadata plan d _ t2 s2 r2);
    try assumption; try reflexivity.
  - cbn [fst snd subscriptions with_subscriptions with_payments tutor_profiles].
    rewrite !lookup_insert_eq.
    repeat split; reflexivity.
  - apply lookup_insert_eq.
Qed.

Lemma activation_without_profile_stacks_witness :
  metadata_payment_id standard_intent = Some (well_formed 4)
  /\ payments profileless_db !! 4%N = Some standard_payment
  /\ Payment.payment_type standard_payment = Payment.subscription
  /\ tutor_profiles profileless_db !! Payment.user standard_payment = None
  /\ (TutorSubscription.end_date
        <$> subscriptions
              (snd (StripeWebhookView.handle_payment_success standard_intent
                      0 0 0
                 (snd (StripeWebhookView.handle_payment_success standard_intent
                         0 0 0 profileless_db))))
            !! Payment.user standard_payment) = Some (days 180).
Proof.
  assert (H1 : metadata_payment_id standard_intent = Some (well_formed 4)) by reflexivity.
  assert (H2 : payments profileless_db !! 4%N = Some standard_payment)
    by reflexivity.
  assert (H3 : Payment.payment_type standard_payment = Payment.subscription)
    by reflexivity.
  assert (H4 : Payment.metadata standard_payment
               = Some {| Payment.plan := Some "standard";
                         Payment.months := Some 3;
                         Payment.phone_number := None |}) by reflexivity.
  assert (H5 : tutor_profiles profileless_db !! Payment.user standard_payment
               = None) by reflexivity.
  split; [exact H1 | split; [exact H2 | split; [exact H3 | split; [exact H5 |]]]].
  rewrite (proj1 (proj2 (proj2 (proj2 (proj2
            (activation_without_profile_stacks standard_intent
               4 standard_payment _ "standard" 3 profileless_db 0 0 0 0 0 0
               H1 H2 H3 H4 eq_refl eq_refl H5)))))).
  reflexivity.
Defined.

(** ** Paying for a session *)

Section SessionPayment.
Variables (u : CustomUser.t) (ph : option string) (sid : Z)
  (s : TutoringSession.t) (new_id : N) (g : stripe_outcome) (now : Z)
  (db : DB).
Hypothesis Hsession : sessions db !! sid = Some s.
Hypothesis Hfresh : payments db !! new_id = None.

(** Past the lookup of the session and the creation of the payment. *)
Lemma post_wallet_created :
  PayForSessionView.post u (Some "wallet") ph sid new_id g now db
  = PayForSessionView.process_wallet_payment u new_id
      (new_payment (CustomUser.id u) Payment.session_type
         (TutoringSession.total_amount s) "wallet" (Some sid)
         ("Payment for session: " ++ TutoringSession.title s) None)
      sid s now
      (with_payments
         (insert new_id
            (new_payment (CustomUser.id u) Payment.session_type
               (TutoringSession.total_amount s) "wallet" (Some sid)
               ("Payment for session: " ++ TutoringSession.title s) None))
         db).
Proof.
  unfold PayForSessionView.post, bind, get_session_or_404,
    Payment_objects_create.
  rewrite Hsession, Hfresh. reflexivity.
Qed.

Lemma post_unsupported_created m :
  m <> "stripe" -> m <> "wallet" -> m <> "mtn_momo" -> m <> "vodafone_cash" ->
  PayForSessionView.post u (Some m) ph sid new_id g now db
  = (Ok {| http := redirect "payments:pay_session" (Some sid);
           messages := [(error, "Invalid payment method.")] |},
     with_payments
       (insert new_id
          (new_payment (CustomUser.id u) Payment.session_type
             (TutoringSession.total_amount s) m (Some sid)
             ("Payment for session: " ++ TutoringSession.title s) None))
       db).
Proof.
  intros H1 H2 H3 H4.
  unfold PayForSessionView.post, bind, get_session_or_404,
    Payment_objects_create.
  rewrite Hsession, Hfresh. simpl.
  rewrite (proj2 (String.eqb_neq m "stripe")) by assumption.
  rewrite (proj2 (String.eqb_neq m "wallet")) by assumption.
  rewrite (proj2 (String.eqb_neq m "mtn_momo")) by assumption.
  rewrite (proj2 (String.eqb_neq m "vodafone_cash")) by assumption.
  reflexivity.
Qed.
End SessionPayment.

Section WalletBranch.
Variables (u : CustomUser.t) (pk : N) (row : Payment.t) (sid : Z)
  (s : TutoringSession.t) (now : Z) (db : DB).

Lemma process_wallet_payment_no_wallet :
  wallets db !! CustomUser.id u = None ->
  PayForSessionView.process_wallet_payment u pk row sid s now db
  = (Ok {| http := redirect "payments:pay_session" (Some sid);
           messages := [(error, "Payment failed. Please try again.")] |},
     with_payments (insert pk (Payment.set_status Payment.failed row)) db).
Proof.
  intros Hw.
  unfold PayForSessionView.process_wallet_payment, try_except, bind,
    related_wallet.
  rewrite Hw. reflexivity.
Qed.

Lemma process_wallet_payment_short w :
  wallets db !! CustomUser.id u = Some w ->
  Payment.amount row <= 0 \/ balance w < Payment.amount row ->
  PayForSessionView.process_wallet_payment u pk row sid s now db
  = (Ok {| http := redirect "payments:pay_session" (Some sid);
           messages := [(error, "Insufficient wallet balance.")] |},
     with_payments (insert pk (Payment.set_status Payment.failed row)) db).
Proof.
  intros Hw Hshort.
  unfold PayForSessionView.process_wallet_payment, try_except, bind,
    related_wallet, Wallet.has_sufficient_balance.
  rewrite Hw.
  destruct (Z.geb_spec (balance w) (Payment.amount row)) as [Hcover|_];
    [| reflexivity].
  rewrite deduct_funds_rejects by (left; lia). reflexivity.
Qed.

Lemma process_wallet_payment_debited w :
  wallets db !! CustomUser.id u = Some w ->
  0 < Payment.amount row -> Payment.amount row <= balance w ->
  PayForSessionView.process_wallet_payment u pk row sid s now db
  = (Ok {| http := redirect "payments:pay_session" (Some sid);
           messages := [(error, "Payment failed. Please try again.")] |},
     with_payments
       (insert pk
          (Payment.set_status Payment.failed
             (Payment.set_completed_at (Some now)
                (Payment.set_status Payment.completed row))))
       (with_payments
          (insert pk
             (Payment.set_completed_at (Some now)
                (Payment.set_status Payment.completed row)))
          (with_wallet_transactions
             (fun l =>
                (l ++ [ {| WalletTransaction.wallet := user w;
                           WalletTransaction.transaction_type :=
                             WalletTransaction.debit;
                           WalletTransaction.amount := Payment.amount row;
                           WalletTransaction.description :=
                             "Payment for session: " ++ TutoringSession.title s;
                           WalletTransaction.balance_after :=
                             balance w - Payment.amount row |} ])%list)
             (with_wallets
                (insert (user w)
                   (Wallet.set_balance (balance w - Payment.amount row) w))
                db)))).
Proof.
  intros Hw Hpos Hcover.
  unfold PayForSessionView.process_wallet_payment, try_except, bind,
    related_wallet, Wallet.has_sufficient_balance.
  rewrite Hw.
  destruct (Z.geb_spec (balance w) (Payment.amount row)) as [_|Hshort];
    [| lia].
  rewrite deduct_funds_accepts by assumption. reflexivity.
Qed.
End WalletBranch.

(** X16. Paying for a session from the wallet never completes. Whatever
    the wallet holds, the view redirects back to the payment page with an
    error and leaves the new payment with status [failed]. When the balance
    covers a positive amount, the amount has been taken from the wallet
    and logged before the session is saved; saving the session raises, the
    payment is marked failed with its [completed_at] set, and the debit
    stays. *)
Theorem wallet_payment_for_session_fails (u : CustomUser.t)
    (ph : option string) (sid : Z) (s : TutoringSession.t) (new_id : N)
    (g : stripe_outcome) (now : Z) (db : DB) :
  sessions db !! sid = Some s ->
  payments db !! new_id = None ->
  let out := PayForSessionView.post u (Some "wallet") ph sid new_id g now db in
  let a := TutoringSession.total_amount s in
  (Payment.status <$> payments (snd out) !! new_id) = Some Payment.failed
  /\ (exists message,
        fst out = Ok {| http := redirect "payments:pay_session" (Some sid);
                        messages := [(error, message)] |})
  /\ (forall w,
        wallets db !! CustomUser.id u = Some w ->
        0 < a -> a <= balance w ->
        fst out = Ok {| http := redirect "payments:pay_session" (Some sid);
                        messages := [(error, "Payment failed. Please try again.")] |}
        /\ wallets (snd out) !! user w
           = Some (Wallet.set_balance (balance w - a) w)
        /\ wallet_transactions (snd out)
           = (wallet_transactions db
              ++ [ {| WalletTransaction.wallet := user w;
                      WalletTransaction.transaction_type := WalletTransaction.debit;
                      WalletTransaction.amount := a;
                      WalletTransaction.description :=
                        "Payment for session: " ++ TutoringSession.title s;
                      WalletTransaction.balance_after := balance w - a |} ])%list
        /\ (Payment.completed_at <$> payments (snd out) !! new_id)
           = Some (Some now)).
Proof.
  intros Hsession Hfresh. cbv zeta.
  rewrite (post_wallet_created u ph sid s new_id g now db Hsession Hfresh).
  set (row := new_payment _ _ _ _ _ _ _).
  set (db0 := with_payments (insert new_id row) db).
  assert (Hwallets : wallets db0 = wallets db) by reflexivity.
  assert (Hledger : wallet_transactions db0 = wallet_transactions db)
    by reflexivity.
  assert (Hamount : Payment.amount row = TutoringSession.total_amount s)
    by reflexivity.
  destruct (wallets db !! CustomUser.id u) as [w|] eqn:Hw.
  - destruct (Z_lt_le_dec 0 (TutoringSession.total_amount s)) as [Hpos | Hle];
      [destruct (Z_le_gt_dec (TutoringSession.total_amount s) (balance w))
         as [Hcover | Hshort] |].
    + rewrite (process_wallet_payment_debited u new_id row sid s now db0 w)
        by (rewrite ?Hwallets, ?Hamount; assumption).
      cbn [fst snd payments with_payments with_wallets
           with_wallet_transactions wallets wallet_transactions].
      rewrite !lookup_insert_eq.
      split; [reflexivity | split; [eauto |]].
      intros w' [= <-] _ _. rewrite Hamount.
      split; [reflexivity | split; [apply lookup_insert_eq |]].
      split; reflexivity.
    + rewrite (process_wallet_payment_short u new_id row sid s now db0 w)
        by (rewrite ?Hwallets, ?Hamount; auto; lia).
      cbn [fst snd payments with_payments]. rewrite !lookup_insert_eq.
      split; [reflexivity | split; [eauto |]].
      intros w' [= <-] _ Hcover. lia.
    + rewrite (process_wallet_payment_short u new_id row sid s now db0 w)
        by (rewrite ?Hwallets, ?Hamount; auto; lia).
      cbn [fst snd payments with_payments]. rewrite !lookup_insert_eq.
      split; [reflexivity | split; [eauto |]].
      intros w' [= <-] Hpos. lia.
  - rewrite (process_wallet_payment_no_wallet u new_id row sid s now db0)
      by (rewrite ?Hwallets; assumption).
    cbn [fst snd payments with_payments]. rewrite !lookup_insert_eq.
    split; [reflexivity | split; [eauto |]].
    intros w' [=].
Qed.

Lemma wallet_payment_for_session_fails_witness :
  sessions wallet_db !! 3 = Some algebra_session
  /\ payments wallet_db !! 5%N = None
  /\ wallets wallet_db !! CustomUser.id student = Some wallet_100
  /\ 0 < TutoringSession.total_amount algebra_session
  /\ TutoringSession.total_amount algebra_session <= balance wallet_100
  /\ (Payment.status
        <$> payments (snd (PayForSessionView.post student (Some "wallet") None
                             3 5 (intent_created "pi_9" "secret") 50
                             wallet_db)) !! 5%N) = Some Payment.failed
  /\ wallets (snd (PayForSessionView.post student (Some "wallet") None 3 5
                     (intent_created "pi_9" "secret") 50 wallet_db))
       !! user wallet_100
     = Some (Wallet.set_balance
               (balance wallet_100
                - TutoringSession.total_amount algebra_session) wallet_100).
Proof.
  assert (H1 : sessions wallet_db !! 3 = Some algebra_session) by reflexivity.
  assert (H2 : payments wallet_db !! 5%N = None) by reflexivity.
  assert (H3 : wallets wallet_db !! CustomUser.id student = Some wallet_100)
    by reflexivity.
  assert (H4 : 0 < TutoringSession.total_amount algebra_session)
    by (simpl; lia).
  assert (H5 : TutoringSession.total_amount algebra_session
               <= balance wallet_100) by (simpl; lia).
  destruct (wallet_payment_for_session_fails student None 3 algebra_session 5
              (intent_created "pi_9" "secret") 50 wallet_db H1 H2)
    as (Hstatus & _ & Hdebit).
  destruct (Hdebit wallet_100 H3 H4 H5) as (_ & Hwallet & _).
  split; [exact H1 | split; [exact H2 | split; [exact H3 | split; [exact H4 |]]]].
  split; [exact H5 | split; [exact Hstatus | exact Hwallet]].
Defined.

(** X17. The payment is created before the method is looked at. A
    request whose [payment_method] is none of [stripe], [wallet],
    [mtn_momo], [vodafone_cash] is answered "Invalid payment method." and
    yet leaves a pending payment with that method in the table. *)
Theorem unsupported_method_leaves_payment (u : CustomUser.t)
    (m : string) (ph : option string) (sid : Z) (s : TutoringSession.t)
    (new_id : N) (g : stripe_outcome) (now : Z) (db : DB) :
  sessions db !! sid = Some s ->
  payments db !! new_id = None ->
  m <> "stripe" -> m <> "wallet" -> m <> "mtn_momo" -> m <> "vodafone_cash" ->
  let out := PayForSessionView.post u (Some m) ph sid new_id g now db in
  fst out = Ok {| http := redirect "payments:pay_session" (Some sid);
                  messages := [(error, "Invalid payment method.")] |}
  /\ exists p,
       payments (snd out) !! new_id = Some p
       /\ Payment.status p = Payment.pending
       /\ Payment.payment_method p = m
       /\ Payment.amount p = TutoringSession.total_amount s
       /\ Payment.user p = CustomUser.id u.
Proof.
  intros Hsession Hfresh H1 H2 H3 H4. cbv zeta.
  rewrite (post_unsupported_created u ph sid s new_id g now db Hsession Hfresh
             m H1 H2 H3 H4).
  split; [reflexivity |]. eexists. split; [apply lookup_insert_eq |].
  by repeat split.
Qed.

Lemma unsupported_method_leaves_payment_witness :
  sessions wallet_db !! 3 = Some algebra_session
  /\ payments wallet_db !! 5%N = None
  /\ "airteltigo_money" <> "stripe" /\ "airteltigo_money" <> "wallet"
  /\ "airteltigo_money" <> "mtn_momo" /\ "airteltigo_money" <> "vodafone_cash"
  /\ fst (PayForSessionView.post student (Some "airteltigo_money") None 3 5
            (intent_created "pi_9" "secret") 50 wallet_db)
     = Ok {| http := redirect "payments:pay_session" (Some 3);
             messages := [(error, "Invalid payment method.")] |}.
Proof.
  assert (H1 : sessions wallet_db !! 3 = Some algebra_session) by reflexivity.
  assert (H2 : payments wallet_db !! 5%N = None) by reflexivity.
  assert (H3 : "airteltigo_money" <> "stripe") by discriminate.
  assert (H4 : "airteltigo_money" <> "wallet") by discriminate.
  assert (H5 : "airteltigo_money" <> "mtn_momo") by discriminate.
  assert (H6 : "airteltigo_money" <> "vodafone_cash") by discriminate.
  split; [exact H1 | split; [exact H2 | split; [exact H3 | split; [exact H4 |]]]].
  split; [exact H5 | split; [exact H6 |]].
  exact (proj1 (unsupported_method_leaves_payment student "airteltigo_money"
                  None 3 algebra_session 5 (intent_created "pi_9" "secret") 50
                  wallet_db H1 H2 H3 H4 H5 H6)).
Defined.

(** ** The payment page and the status poll *)

Lemma completed_for_true sid p :
  completed_for sid p = true
  <-> Payment.session p = Some sid /\ Payment.status p = Payment.completed.
Proof.
  unfold completed_for. rewrite andb_true_iff, bool_decide_eq_true.
  split; intros [Hs Hc]; (split; [exact Hs |]).
  - by destruct (Payment.status p).
  - by rewrite Hc.
Qed.

Lemma handle_payment_success_session payment_intent pk p sid s now now_start
    now_renew db :
  metadata_payment_id payment_intent = Some (well_formed pk) ->
  payments db !! pk = Some p ->
  Payment.payment_type p = Payment.session_type ->
  Payment.session p = Some sid ->
  sessions db !! sid = Some s ->
  StripeWebhookView.handle_payment_success payment_intent now now_start
    now_renew db
  = (Raise TypeError,
     with_payments (insert pk (stamped payment_intent now p)) db).
Proof.
  intros Hid Hp Htype Hsid Hs.
  rewrite (handle_payment_success_found _ pk p) by assumption.
  unfold try_except, StripeWebhookView.payment_type_side_effect.
  change (Payment.payment_type (stamped payment_intent now p))
    with (Payment.payment_type p).
  change (Payment.session (stamped payment_intent now p))
    with (Payment.session p).
  rewrite Htype, Hsid. unfold bind, related_session. simpl.
  rewrite Hs. reflexivity.
Qed.

(** X18. [PayForSessionView.get] writes nothing, and it renders the payment
    page exactly for the student of the session while no completed payment
    for that session is stored. Once a success notification for a payment
    of the session has been handled, the student is turned away with "This
    session has already been paid for." *)
Theorem pay_page_guard (u : CustomUser.t) (sid : Z) (db : DB) :
  snd (PayForSessionView_get u sid db) = db
  /\ (forall s,
        fst (PayForSessionView_get u sid db)
        = Ok (page_render "payments/pay_session.html" s)
        <-> sessions db !! sid = Some s
            /\ TutoringSession.student s = CustomUser.id u
            /\ forall k p,
                 payments db !! k = Some p ->
                 ~ (Payment.session p = Some sid
                    /\ Payment.status p = Payment.completed))
  /\ (forall payment_intent pk p s now now_start now_renew,
        metadata_payment_id payment_intent = Some (well_formed pk) ->
        payments db !! pk = Some p ->
        Payment.payment_type p = Payment.session_type ->
        Payment.session p = Some sid ->
        sessions db !! sid = Some s ->
        TutoringSession.student s = CustomUser.id u ->
        fst (PayForSessionView_get u sid
               (snd (StripeWebhookView.handle_payment_success payment_intent
                       now now_start now_renew db)))
        = Ok (page_redirect
                {| http := redirect "tutoring:session_detail" (Some sid);
                   messages :=
                     [(info, "This session has already been paid for.")] |})).
Proof.
  split; [| split].
  - unfold PayForSessionView_get, bind, get_session_or_404,
      completed_payment_exists, ret.
    destruct (sessions db !! sid); [| reflexivity].
    do 2 (case_bool_decide; simpl; try reflexivity).
  - intros s.
    unfold PayForSessionView_get, bind, get_session_or_404,
      completed_payment_exists, ret.
    destruct (sessions db !! sid) as [s0|]; [| split; [discriminate | by intros [? _]]].
    case_bool_decide as Hstudent; simpl.
    + case_bool_decide as Hpaid; simpl.
      * split; [discriminate |]. intros (_ & _ & Hnone).
        destruct Hpaid as (k & p & Hk & Hc).
        apply completed_for_true in Hc. by destruct (Hnone k p Hk).
      * split.
        -- intros [= <-]. split; [reflexivity | split; [assumption |]].
           intros k p Hk Hc. apply Hpaid. exists k, p.
           split; [exact Hk | by apply completed_for_true].
        -- by intros ([= <-] & _ & _).
    + split; [discriminate |]. intros ([= <-] & Hs & _). contradiction.
  - intros payment_intent pk p s now now_start now_renew
      Hid Hp Htype Hsid Hs Hstudent.
    rewrite (handle_payment_success_session payment_intent pk p sid s)
      by assumption.
    unfold PayForSessionView_get, bind, get_session_or_404,
      completed_payment_exists, ret.
    cbn [fst snd sessions payments with_payments]. rewrite Hs.
    rewrite bool_decide_true by assumption. simpl.
    rewrite bool_decide_true; [reflexivity |].
    exists pk, (stamped payment_intent now p).
    split; [apply lookup_insert_eq |]. apply completed_for_true.
    split; [exact Hsid | reflexivity].
Qed.

Lemma pay_page_guard_witness :
  let paid :=
    with_payments
      (insert 5%N (new_payment 7 Payment.session_type 3000 "stripe" (Some 3)
                     "Payment for session: Algebra" None)) wallet_db in
  let payment_intent :=
    {| intent_id := "pi_5"; metadata_payment_id := Some (well_formed 5) |} in
  sessions wallet_db !! 3 = Some algebra_session
  /\ TutoringSession.student algebra_session = CustomUser.id student
  /\ fst (PayForSessionView_get student 3 wallet_db)
     = Ok (page_render "payments/pay_session.html" algebra_session)
  /\ fst (PayForSessionView_get student 3
            (snd (StripeWebhookView.handle_payment_success payment_intent
                    50 50 50 paid)))
     = Ok (page_redirect
             {| http := redirect "tutoring:session_detail" (Some 3);
                messages := [(info, "This session has already been paid for.")] |}).
Proof.
  cbv zeta.
  assert (H1 : sessions wallet_db !! 3 = Some algebra_session) by reflexivity.
  assert (H2 : TutoringSession.student algebra_session = CustomUser.id student)
    by reflexivity.
  split; [exact H1 | split; [exact H2 | split]].
  - apply (proj1 (proj2 (pay_page_guard student 3 wallet_db))).
    split; [exact H1 | split; [exact H2 |]].
    intros k p Hk. unfold wallet_db in Hk. cbn [payments] in Hk.
    rewrite lookup_empty in Hk. discriminate.
  - apply (proj2 (proj2 (pay_page_guard student 3
                           (with_payments
                              (insert 5%N
                                 (new_payment 7 Payment.session_type 3000
                                    "stripe" (Some 3)
                                    "Payment for session: Algebra" None))
                              wallet_db)))
             {| intent_id := "pi_5"; metadata_payment_id := Some (well_formed 5) |}
             5%N
             (new_payment 7 Payment.session_type 3000 "stripe" (Some 3)
                "Payment for session: Algebra" None)
             algebra_session 50 50 50);
      reflexivity.
Defined.

(** X19. The status poll writes nothing; to a user who does not own the
    payment it answers as it would if the payment did not exist; and to
    the owner it reports [completed] as soon as a success notification for
    the payment has been handled, whether or not the handler went on to
    raise. *)
Theorem status_poll (u : CustomUser.t) (pk : N) (db : DB) :
  (forall request_user, snd (ajax_check_payment_status request_user pk db) = db)
  /\ (forall p,
        payments db !! pk = Some p ->
        Payment.user p <> CustomUser.id u ->
        fst (ajax_check_payment_status (Some u) pk db)
        = fst (ajax_check_payment_status (Some u) pk
                 (with_payments (delete pk) db)))
  /\ (forall payment_intent p now now_start now_renew,
        metadata_payment_id payment_intent = Some (well_formed pk) ->
        payments db !! pk = Some p ->
        Payment.user p = CustomUser.id u ->
        fst (ajax_check_payment_status (Some u) pk
               (snd (StripeWebhookView.handle_payment_success payment_intent
                       now now_start now_renew db)))
        = Ok (status_report Payment.completed true)).
Proof.
  split; [| split].
  - intros [user|]; [| reflexivity]. unfold ajax_check_payment_status.
    destruct (payments db !! pk); [case_bool_decide |]; reflexivity.
  - intros p Hp Hother. unfold ajax_check_payment_status.
    cbn [payments with_payments]. rewrite Hp, lookup_delete_eq.
    by rewrite bool_decide_false.
  - intros payment_intent p now now_start now_renew Hid Hp Howner.
    unfold ajax_check_payment_status.
    rewrite (handle_payment_success_row _ pk p) by assumption.
    rewrite lookup_insert_eq.
    change (Payment.user (stamped payment_intent now p)) with (Payment.user p).
    by rewrite bool_decide_true.
Qed.

Lemma status_poll_witness :
  metadata_payment_id topup_intent = Some (well_formed 1)
  /\ payments topup_db !! 1%N = Some topup_50
  /\ Payment.user topup_50 = CustomUser.id student
  /\ Payment.user topup_50 <> CustomUser.id tutor
  /\ fst (ajax_check_payment_status (Some tutor) 1 topup_db)
     = fst (ajax_check_payment_status (Some tutor) 1
              (with_payments (delete 1%N) topup_db))
  /\ fst (ajax_check_payment_status (Some student) 1
            (snd (StripeWebhookView.handle_payment_success topup_intent
                    10 10 10 topup_db)))
     = Ok (status_report Payment.completed true).
Proof.
  assert (H1 : metadata_payment_id topup_intent = Some (well_formed 1)) by reflexivity.
  assert (H2 : payments topup_db !! 1%N = Some topup_50) by reflexivity.
  assert (H3 : Payment.user topup_50 = CustomUser.id student) by reflexivity.
  assert (H4 : Payment.user topup_50 <> CustomUser.id tutor) by discriminate.
  split; [exact H1 | split; [exact H2 | split; [exact H3 | split; [exact H4 |]]]].
  split.
  - exact (proj1 (proj2 (status_poll tutor 1 topup_db)) topup_50 H2 H4).
  - exact (proj2 (proj2 (status_poll student 1 topup_db)) topup_intent topup_50
             10 10 10 H1 H2 H3).
Defined.

(** ** From purchase to completion *)

Lemma post_succeeded payment_intent now now_start now_renew db :
  StripeWebhookView.post
    (Some {| event_type := "payment_intent.succeeded";
             data_object := payment_intent |}) now now_start now_renew db
  = match StripeWebhookView.handle_payment_success payment_intent now
            now_start now_renew db with
    | (Ok _, db') => (Ok (HttpResponseStatus 200), db')
    | (Raise e, db') => (Raise e, db')
    end.
Proof. reflexivity. Qed.

Lemma SubscriptionView_post_created u plan amount months m new_id i c db :
  CustomUser.is_tutor u = true ->
  SubscriptionView.plan_prices !! plan = Some (amount, months) ->
  payments db !! new_id = None ->
  snd (SubscriptionView.post u (Some plan) m new_id (intent_created i c) db)
  = with_payments
      (insert new_id
         (new_payment (CustomUser.id u) Payment.subscription amount
            (default "stripe" m) None
            ("Tutor subscription - " ++ title plan ++ " plan")
            (Some {| Payment.plan := Some plan; Payment.months := Some months;
                     Payment.phone_number := None |}))) db.
Proof.
  intros Htutor Hprice Hfresh.
  unfold SubscriptionView.post, bind, Payment_objects_create.
  rewrite Htutor. cbn [negb mbind option_bind]. rewrite Hprice.
  cbn [mbind option_bind]. rewrite Hfresh.
  by destruct (default "stripe" m =? "stripe")%string.
Qed.

(** X20. From the subscription form to the active subscription. A tutor
    with a profile picks a plan of the price list; the view stores the
    payment, and when the success notification for it arrives the webhook
    answers 200, the payment is completed, and the tutor's subscription is
    the activated one: created, or renewed, with the plan, the price and
    the months of the price list, and mirrored on the profile. *)
Theorem subscription_purchase_completes (u : CustomUser.t) (plan : string)
    (amount months : Z) (m : option string) (new_id : N) (i c : string)
    (profile : TutorProfile.t) (db : DB) (now now_start now_renew : Z) :
  CustomUser.is_tutor u = true ->
  SubscriptionView.plan_prices !! plan = Some (amount, months) ->
  payments db !! new_id = None ->
  tutor_profiles db !! CustomUser.id u = Some profile ->
  let db1 :=
    snd (SubscriptionView.post u (Some plan) m new_id (intent_created i c) db) in
  let out :=
    StripeWebhookView.post
      (Some {| event_type := "payment_intent.succeeded";
               data_object := {| intent_id := i;
                                 metadata_payment_id := Some (well_formed new_id) |} |})
      now now_start now_renew db1 in
  let s' :=
    activated_subscription new_id plan months amount now_start now_renew
      (subscriptions db !! CustomUser.id u) in
  fst out = Ok (HttpResponseStatus 200)
  /\ subscriptions (snd out) !! CustomUser.id u = Some s'
  /\ tutor_profiles (snd out) !! CustomUser.id u = Some (activated_profile s')
  /\ (Payment.status <$> payments (snd out) !! new_id)
     = Some Payment.completed.
Proof.
  intros Htutor Hprice Hfresh Hprofile. cbv zeta.
  rewrite (SubscriptionView_post_created u plan amount months m new_id i c db)
    by assumption.
  set (row := new_payment _ _ _ _ _ _ _).
  set (payment_intent := {| intent_id := i; metadata_payment_id := Some (well_formed new_id) |}).
  assert (Hrun :
    StripeWebhookView.handle_payment_success payment_intent now now_start
      now_renew (with_payments (insert new_id row) db)
    = (Ok tt,
       with_tutor_profiles
         (insert (CustomUser.id u)
            (activated_profile
               (activated_subscription new_id plan months amount now_start
                  now_renew (subscriptions db !! CustomUser.id u))))
         (with_subscriptions
            (insert (CustomUser.id u)
               (activated_subscription new_id plan months amount now_start
                  now_renew (subscriptions db !! CustomUser.id u)))
            (with_payments (insert new_id (stamped payment_intent now row))
               (with_payments (insert new_id row) db))))).
  { rewrite (handle_payment_success_found _ new_id row)
      by (try apply lookup_insert_eq; reflexivity).
    unfold try_except, StripeWebhookView.payment_type_side_effect.
    cbn [Payment.payment_type stamped row new_payment
         Payment.set_gateway_response Payment.set_completed_at
         Payment.set_status].
    rewrite (activation_writes new_id (stamped payment_intent now row)
               {| Payment.plan := Some plan; Payment.months := Some months;
                  Payment.phone_number := None |} plan months _ now_start
               now_renew eq_refl eq_refl eq_refl profile)
      by exact Hprofile.
    reflexivity. }
  rewrite post_succeeded. fold payment_intent. rewrite Hrun.
  cbn [fst snd subscriptions tutor_profiles payments with_tutor_profiles
       with_subscriptions with_payments].
  rewrite !lookup_insert_eq. by repeat split.
Qed.

Lemma subscription_purchase_completes_witness :
  CustomUser.is_tutor tutor = true
  /\ SubscriptionView.plan_prices !! "premium" = Some (20000, 6)
  /\ payments tutor_db !! 6%N = None
  /\ tutor_profiles tutor_db !! CustomUser.id tutor
     = Some {| TutorProfile.subscription_active := false;
               TutorProfile.subscription_expiry := None |}
  /\ subscriptions
       (snd (StripeWebhookView.post
               (Some {| event_type := "payment_intent.succeeded";
                        data_object := {| intent_id := "pi_6";
                                          metadata_payment_id := Some (well_formed 6) |} |})
               1000 1000 1000
               (snd (SubscriptionView.post tutor (Some "premium") None 6
                       (intent_created "pi_6" "secret") tutor_db))))
       !! CustomUser.id tutor
     = Some (activated_subscription 6 "premium" 6 20000 1000 1000
               (subscriptions tutor_db !! CustomUser.id tutor)).
Proof.
  assert (H1 : CustomUser.is_tutor tutor = true) by reflexivity.
  assert (H2 : SubscriptionView.plan_prices !! "premium" = Some (20000, 6))
    by reflexivity.
  assert (H3 : payments tutor_db !! 6%N = None) by reflexivity.
  assert (H4 : tutor_profiles tutor_db !! CustomUser.id tutor
               = Some {| TutorProfile.subscription_active := false;
                         TutorProfile.subscription_expiry := None |})
    by reflexivity.
  split; [exact H1 | split; [exact H2 | split; [exact H3 | split; [exact H4 |]]]].
  exact (proj1 (proj2 (subscription_purchase_completes tutor "premium" 20000 6
                         None 6 "pi_6" "secret" _ tutor_db 1000 1000 1000
                         H1 H2 H3 H4))).
Defined.

Lemma quantize_nonneg coefficient exponent :
  0 < coefficient -> 0 <= quantize coefficient exponent.
Proof.
  intros Hpos. unfold quantize.
  destruct (Z.leb_spec 0 (exponent + 2)) as [Hwhole|Hfraction].
  - apply Z.mul_nonneg_nonneg; [lia |]. apply Z.pow_nonneg. lia.
  - assert (Hunit : 0 < 10 ^ (- (exponent + 2)))
      by (apply Z.pow_pos_nonneg; lia).
    assert (Hq : 0 <= coefficient / 10 ^ (- (exponent + 2)))
      by (apply Z.div_pos; lia).
    cbv zeta. repeat case_match; lia.
Qed.

Lemma WalletView_post_created u coefficient exponent str m new_id i c db :
  0 < coefficient ->
  payments db !! new_id = None ->
  snd (WalletView.post u (Some "topup")
         (Some (parsed coefficient exponent str)) m new_id
         (intent_created i c) db)
  = with_payments
      (insert new_id
         (new_payment (CustomUser.id u) Payment.wallet_topup
            (quantize coefficient exponent) (default "stripe" m) None
            ("Wallet top-up - GHS " ++ str) None))
      db.
Proof.
  intros Hpos Hfresh.
  unfold WalletView.post, bind, Payment_objects_create.
  rewrite bool_decide_true by reflexivity.
  change (default (parsed 0 0 "0") (Some (parsed coefficient exponent str)))
    with (parsed coefficient exponent str).
  cbv iota beta.
  destruct (Z.gtb_spec coefficient 0); [| lia]. rewrite Hfresh.
  cbn [Payment.payment_method new_payment].
  by destruct (default "stripe" m =? "stripe")%string.
Qed.

(** X21. From the top-up form to the wallet. A top-up of a positive amount
    that fits the column stores a payment of that amount rounded to
    hundredths, and the success notification for it marks the payment
    completed. For a user who has a wallet the webhook answers 200; when
    the stored amount is positive the wallet holds it on top of what it
    held and the ledger has one more row, a credit of the amount with the
    new balance, and when it was rounded to zero nothing is credited. For a
    user who has no wallet the wallet row is created with balance zero and
    nothing is credited: the webhook raises [TypeError] when the stored
    amount is positive. *)
Theorem topup_purchase_completes (u : CustomUser.t)
    (coefficient exponent : Z) (str : string) (m : option string)
    (new_id : N) (i c : string) (db : DB) (now now_start now_renew : Z) :
  0 < coefficient ->
  quantize coefficient exponent < 10 ^ 10 ->
  payments db !! new_id = None ->
  let amount := quantize coefficient exponent in
  let db1 :=
    snd (WalletView.post u (Some "topup")
           (Some (parsed coefficient exponent str)) m new_id
           (intent_created i c) db) in
  let out :=
    StripeWebhookView.post
      (Some {| event_type := "payment_intent.succeeded";
               data_object :=
                 {| intent_id := i;
                    metadata_payment_id := Some (well_formed new_id) |} |})
      now now_start now_renew db1 in
  (Payment.amount <$> payments db1 !! new_id) = Some amount
  /\ (Payment.status <$> payments (snd out) !! new_id) = Some Payment.completed
  /\ (forall w,
        wallets db !! CustomUser.id u = Some w ->
        user w = CustomUser.id u ->
        fst out = Ok (HttpResponseStatus 200)
        /\ (0 < amount ->
            wallets (snd out) !! CustomUser.id u
            = Some (Wallet.set_balance (balance w + amount) w)
            /\ wallet_transactions (snd out)
               = (wallet_transactions db
                  ++ [topup_credit (CustomUser.id u) amount
                        (balance w + amount)])%list)
        /\ (amount = 0 ->
            wallets (snd out) = wallets db
            /\ wallet_transactions (snd out) = wallet_transactions db))
  /\ (wallets db !! CustomUser.id u = None ->
      fst out
      = (if amount >? 0 then Raise TypeError else Ok (HttpResponseStatus 200))
      /\ wallets (snd out) !! CustomUser.id u
         = Some {| user := CustomUser.id u; balance := 0; is_active := true |}
      /\ wallet_transactions (snd out) = wallet_transactions db).
Proof.
  intros Hpos Hfits Hfresh. cbv zeta.
  rewrite (WalletView_post_created u coefficient exponent str m new_id i c db)
    by assumption.
  set (amount := quantize coefficient exponent).
  assert (Hamount : 0 <= amount) by by apply quantize_nonneg.
  set (row := new_payment _ _ _ _ _ _ _).
  set (db1 := with_payments (insert new_id row) db).
  set (payment_intent :=
         {| intent_id := i; metadata_payment_id := Some (well_formed new_id) |}).
  assert (Hid : metadata_payment_id payment_intent = Some (well_formed new_id))
    by reflexivity.
  assert (Hrow : payments db1 !! new_id = Some row) by apply lookup_insert_eq.
  assert (Htype : Payment.payment_type row = Payment.wallet_topup)
    by reflexivity.
  rewrite post_succeeded.
  split; [by rewrite Hrow |].
  split.
  { transitivity
      (Payment.status
         <$> payments (snd (StripeWebhookView.handle_payment_success
                              payment_intent now now_start now_renew db1))
             !! new_id).
    - by destruct (StripeWebhookView.handle_payment_success _ _ _ _ _)
        as [[[]|] ?].
    - rewrite (handle_payment_success_row _ new_id row) by assumption.
      by rewrite lookup_insert_eq. }
  assert (Hwallets : wallets db1 = wallets db) by reflexivity.
  assert (Hledger : wallet_transactions db1 = wallet_transactions db)
    by reflexivity.
  assert (Hw1 : forall o, wallets db !! CustomUser.id u = o ->
                          wallets db1 !! Payment.user row = o)
    by (intros o <-; reflexivity).
  split.
  - intros w Hw Huser.
    destruct (Z_lt_le_dec 0 amount) as [Hcredit|Hzero].
    + rewrite (handle_payment_success_topup payment_intent new_id row w now
                 now_start now_renew db1 Hid Hrow Htype Hcredit (Hw1 _ Hw) Huser).
      cbn [fst snd wallets wallet_transactions with_wallets
           with_wallet_transactions with_payments].
      split; [reflexivity |]. split; [| lia].
      intros _. change (Payment.user row) with (CustomUser.id u).
      change (Payment.amount row) with amount.
      rewrite lookup_insert_eq, Hledger. by split.
    + rewrite (handle_payment_success_empty_topup payment_intent new_id row now
                 now_start now_renew db1 Hid Hrow Htype Hzero).
      cbn [fst snd wallets wallet_transactions with_wallets
           with_wallet_transactions with_payments].
      rewrite (Hw1 _ Hw), Hwallets, Hledger.
      split; [reflexivity |]. split; [lia | by split].
  - intros Hw.
    destruct (Z.gtb_spec amount 0) as [Hcredit|Hzero].
    + rewrite (handle_payment_success_first_topup payment_intent new_id row now
                 now_start now_renew db1 Hid Hrow Htype Hcredit (Hw1 _ Hw)).
      cbn [fst snd wallets wallet_transactions with_wallets with_payments].
      change (Payment.user row) with (CustomUser.id u).
      rewrite lookup_insert_eq, Hledger. by repeat split.
    + rewrite (handle_payment_success_empty_topup payment_intent new_id row now
                 now_start now_renew db1 Hid Hrow Htype Hzero).
      cbn [fst snd wallets wallet_transactions with_wallets with_payments].
      rewrite (Hw1 _ Hw), Hledger.
      change (Payment.user row) with (CustomUser.id u).
      rewrite lookup_insert_eq. by repeat split.
Qed.

Lemma topup_purchase_completes_witness :
  0 < 2500
  /\ quantize 2500 (-2) < 10 ^ 10
  /\ payments wallet_db !! 6%N = None
  /\ wallets wallet_db !! CustomUser.id student = Some wallet_100
  /\ user wallet_100 = CustomUser.id student
  /\ 0 < quantize 2500 (-2)
  /\ wallets
       (snd (StripeWebhookView.post
               (Some {| event_type := "payment_intent.succeeded";
                        data_object :=
                          {| intent_id := "pi_6";
                             metadata_payment_id := Some (well_formed 6) |} |})
               10 10 10
               (snd (WalletView.post student (Some "topup")
                       (Some (parsed 2500 (-2) "25.00")) None 6
                       (intent_created "pi_6" "secret") wallet_db))))
       !! CustomUser.id student
     = Some (Wallet.set_balance (balance wallet_100 + quantize 2500 (-2))
               wallet_100).
Proof.
  assert (H1 : 0 < 2500) by lia.
  assert (H2 : quantize 2500 (-2) < 10 ^ 10) by (vm_compute; reflexivity).
  assert (H3 : payments wallet_db !! 6%N = None) by reflexivity.
  assert (H4 : wallets wallet_db !! CustomUser.id student = Some wallet_100)
    by reflexivity.
  assert (H5 : user wallet_100 = CustomUser.id student) by reflexivity.
  assert (H6 : 0 < quantize 2500 (-2)) by (vm_compute; reflexivity).
  split; [exact H1 | split; [exact H2 | split; [exact H3 | split; [exact H4 |]]]].
  split; [exact H5 | split; [exact H6 |]].
  destruct (topup_purchase_completes student 2500 (-2) "25.00" None 6
              "pi_6" "secret" wallet_db 10 10 10 H1 H2 H3)
    as (_ & _ & Hwallet & _).
  exact (proj1 (proj1 (proj2 (Hwallet wallet_100 H4 H5)) H6)).
Defined.

(** ** Invoice numbers *)

Lemma three_digits_checked : forallb three_digits (seq 1 999) = true.
Proof. vm_compute. reflexivity. Qed.

Lemma three_digits_spec (i : Z) :
  1 <= i <= 999 ->
  String.length (Invoice.zfill 3 (Invoice.str i)) = 3%nat
  /\ Invoice.int (Invoice.zfill 3 (Invoice.str i)) = Some i
  /\ (i < 999 ->
      String.leb (Invoice.zfill 3 (Invoice.str i))
        (Invoice.zfill 3 (Invoice.str (i + 1))) = true).
Proof.
  intros Hi.
  pose proof (proj1 (forallb_forall three_digits (seq 1 999))
                three_digits_checked (Z.to_nat i)) as Hcheck.
  assert (Hin : In (Z.to_nat i) (seq 1 999)) by (apply in_seq; lia).
  specialize (Hcheck Hin). unfold three_digits in Hcheck.
  rewrite Nat2Z.inj_succ, Z2Nat.id in Hcheck by lia.
  apply andb_prop in Hcheck as [Hcheck Hnext].
  apply andb_prop in Hcheck as [Hlength Hint].
  split; [by apply Nat.eqb_eq |]. split.
  - destruct (Invoice.int _) as [value|]; [| discriminate].
    apply Z.eqb_eq in Hint. by subst.
  - intros Hlt. destruct (Nat.ltb_spec (Z.to_nat i) 999) as [_|Hge]; [| lia].
    exact Hnext.
Qed.

Lemma leb_refl (s : string) : String.leb s s = true.
Proof.
  unfold String.leb. assert ((s ?= s)%string = Eq) as ->; [| reflexivity].
  induction s as [|c s IH]; simpl; [reflexivity |].
  unfold Ascii.compare. by rewrite N.compare_refl.
Qed.

Lemma leb_trans (a b c : string) :
  String.leb a b = true -> String.leb b c = true -> String.leb a c = true.
Proof.
  intros Hab Hbc. apply Is_true_true.
  transitivity b; apply Is_true_true; assumption.
Qed.

(** Among the three-digit numbers, the order of the texts is the order of
    the numbers. *)
Lemma three_digits_ordered (i j : Z) :
  1 <= i -> i <= j -> j <= 999 ->
  String.leb (Invoice.zfill 3 (Invoice.str i))
    (Invoice.zfill 3 (Invoice.str j)) = true.
Proof.
  intros Hi Hij Hj.
  replace j with (i + Z.of_nat (Z.to_nat (j - i))) in * by lia.
  induction (Z.to_nat (j - i)) as [|d IH].
  - replace (i + Z.of_nat 0) with i by lia. apply leb_refl.
  - eapply leb_trans; [apply IH; lia |].
    replace (i + Z.of_nat (S d)) with (i + Z.of_nat d + 1) by lia.
    apply three_digits_spec; lia.
Qed.

Lemma thousand_below_999 :
  String.leb (Invoice.zfill 3 (Invoice.str 1000))
    (Invoice.zfill 3 (Invoice.str 999)) = true.
Proof. reflexivity. Qed.

Lemma append_cons (c : ascii) (p x : string) :
  String c p ++ x = String c (p ++ x).
Proof. reflexivity. Qed.

Lemma prefix_append (p x : string) : String.prefix p (p ++ x) = true.
Proof.
  induction p as [|c p IH].
  - by destruct x.
  - rewrite append_cons. simpl. by destruct (ascii_dec c c).
Qed.

Lemma leb_append (p a b : string) :
  String.leb (p ++ a) (p ++ b) = String.leb a b.
Proof.
  unfold String.leb.
  assert (Hcompare : ((p ++ a) ?= (p ++ b))%string = (a ?= b)%string);
    [| by rewrite Hcompare].
  induction p as [|c p IH]; [reflexivity |].
  rewrite !append_cons. simpl.
  unfold Ascii.compare. by rewrite N.compare_refl.
Qed.

Lemma last3_append (p z : string) :
  String.length z = 3%nat -> Invoice.last3 (p ++ z) = z.
Proof.
  intros Hz. unfold Invoice.last3.
  assert (Hlength : (String.length (p ++ z) - 3 = String.length p)%nat).
  { assert (String.length (p ++ z) = String.length p + 3)%nat; [| lia].
    induction p as [|c p IH]; [exact Hz |].
    rewrite append_cons. cbn [String.length]. lia. }
  rewrite Hlength. clear Hlength.
  induction p as [|c p IH]; [| rewrite append_cons; exact IH].
  destruct z as [|c1 [|c2 [|c3 [|c4 z]]]]; try discriminate. reflexivity.
Qed.

Lemma elem_of_numbers_from (start : string) (table : gmap Z Invoice.t) x :
  x ∈ Invoice.numbers_from start table
  <-> String.prefix start x = true
      /\ exists k row,
           table !! k = Some row /\ Invoice.invoice_number row = x.
Proof.
  unfold Invoice.numbers_from.
  rewrite list_elem_of_In, filter_In, <- list_elem_of_In, list_elem_of_fmap.
  split.
  - intros [[[k row] [-> Hrow]] Hprefix].
    apply elem_of_map_to_list in Hrow. split; [exact Hprefix |].
    by exists k, row.
  - intros [Hprefix (k & row & Hrow & <-)]. split; [| exact Hprefix].
    exists (k, row). split; [reflexivity |]. by apply elem_of_map_to_list.
Qed.

Lemma greatest_in (l : list string) (y : string) :
  Invoice.greatest l = Some y -> y ∈ l.
Proof.
  revert y. induction l as [|a l IH]; intros y; [discriminate |].
  cbn [Invoice.greatest].
  destruct (Invoice.greatest l) as [z|].
  - destruct (String.leb z a); intros [= <-];
      [apply elem_of_cons; by left |].
    apply elem_of_cons. right. by apply IH.
  - intros [= <-]. apply elem_of_cons. by left.
Qed.

(** [greatest] finds the number no other number of the list is above. *)
Lemma greatest_is_max (l : list string) (x : string) :
  x ∈ l -> (forall y, y ∈ l -> String.leb y x = true) ->
  Invoice.greatest l = Some x.
Proof.
  induction l as [|a l IH]; intros Hin Hmax;
    [by apply elem_of_nil in Hin |].
  cbn [Invoice.greatest].
  apply elem_of_cons in Hin as [->|Hin].
  - destruct (Invoice.greatest l) as [y|] eqn:Hgreatest; [| reflexivity].
    rewrite Hmax; [reflexivity |].
    apply elem_of_cons. right. by apply greatest_in.
  - rewrite IH; [| exact Hin |].
    + destruct (String.leb x a) eqn:Hxa; [| reflexivity].
      f_equal. apply String.leb_antisym; [| exact Hxa].
      apply Hmax, elem_of_cons. by left.
    + intros y Hy. apply Hmax, elem_of_cons. by right.
Qed.

Lemma three_digits_inj (i j : Z) :
  1 <= i <= 1000 -> 1 <= j <= 1000 ->
  Invoice.zfill 3 (Invoice.str i) = Invoice.zfill 3 (Invoice.str j) ->
  i = j.
Proof.
  intros Hi Hj Heq.
  destruct (Z.eq_dec i 1000) as [->|Hi'], (Z.eq_dec j 1000) as [->|Hj'];
    [reflexivity | | |].
  - destruct (three_digits_spec j) as (Hlength & _); [lia |].
    rewrite <- Heq in Hlength. discriminate.
  - destruct (three_digits_spec i) as (Hlength & _); [lia |].
    rewrite Heq in Hlength. discriminate.
  - destruct (three_digits_spec i) as (_ & Hint_i & _); [lia |].
    destruct (three_digits_spec j) as (_ & Hint_j & _); [lia |].
    rewrite Heq, Hint_j in Hint_i. by injection Hint_i.
Qed.

Lemma number_of_inj (start : string) (i j : Z) :
  1 <= i <= 1000 -> 1 <= j <= 1000 ->
  Invoice.number_of start i = Invoice.number_of start j -> i = j.
Proof.
  intros Hi Hj Heq. apply three_digits_inj; [exact Hi | exact Hj |].
  unfold Invoice.number_of in Heq.
  induction start as [|c start IH]; [exact Heq |].
  rewrite !append_cons in Heq. injection Heq as Heq. by apply IH.
Qed.

Section InvoiceNumbers.
Variables (timestamp : string) (table : gmap Z Invoice.t) (n : Z).
Hypothesis Hnumbered : Invoice.numbered ("INV" ++ timestamp) n table.

(** With the invoices of the day numbered [1] to [n], the one the query
    returns is the one numbered [n], or [999] once there are more. *)
Lemma greatest_numbered :
  1 <= n <= 1000 ->
  Invoice.greatest (Invoice.numbers_from ("INV" ++ timestamp) table)
  = Some (Invoice.number_of ("INV" ++ timestamp) (Z.min n 999)).
Proof.
  intros Hn. apply greatest_is_max.
  - apply Hnumbered. exists (Z.min n 999). split; [lia | reflexivity].
  - intros y Hy. apply Hnumbered in Hy as (i & Hi & ->).
    unfold Invoice.number_of. rewrite leb_append.
    destruct (Z.eq_dec i 1000) as [->|Hi'].
    + replace (Z.min n 999) with 999 by lia. exact thousand_below_999.
    + apply three_digits_ordered; lia.
Qed.

Lemma new_number_numbered :
  0 <= n <= 1000 ->
  Invoice.new_number timestamp table
  = Some (Invoice.number_of ("INV" ++ timestamp) (Z.min n 999 + 1)).
Proof.
  intros Hn. unfold Invoice.new_number.
  destruct (Z.eq_dec n 0) as [Hzero|Hpos].
  - assert (Hnone : Invoice.numbers_from ("INV" ++ timestamp) table = []).
    { destruct (Invoice.numbers_from _ _) as [|x l] eqn:Hl; [reflexivity |].
      exfalso. destruct (proj1 (Hnumbered x)) as (i & Hi & _); [| lia].
      rewrite Hl. apply elem_of_cons. by left. }
    rewrite Hnone. subst n. reflexivity.
  - rewrite greatest_numbered by lia.
    destruct (three_digits_spec (Z.min n 999)) as (Hlength & Hint & _);
      [lia |].
    unfold Invoice.number_of at 1. rewrite last3_append by exact Hlength.
    rewrite Hint. reflexivity.
Qed.

(** No stored invoice has the number after [n]. *)
Lemma next_number_free k other :
  0 <= n <= 999 ->
  table !! k = Some other ->
  Invoice.invoice_number other
  <> Invoice.number_of ("INV" ++ timestamp) (n + 1).
Proof.
  intros Hn Hother Heq.
  assert (Hin : Invoice.number_of ("INV" ++ timestamp) (n + 1)
                ∈ Invoice.numbers_from ("INV" ++ timestamp) table).
  { apply elem_of_numbers_from. split; [apply prefix_append |].
    by exists k, other. }
  apply Hnumbered in Hin as (i & Hi & Hin).
  apply number_of_inj in Hin; lia.
Qed.

(** Storing the invoice numbered [n + 1] under a new key leaves the day
    numbered [1] to [n + 1]. *)
Lemma numbered_insert pk payment :
  0 <= n ->
  table !! pk = None ->
  Invoice.numbered ("INV" ++ timestamp) (n + 1)
    (<[pk := {| Invoice.invoice_number :=
                  Invoice.number_of ("INV" ++ timestamp) (n + 1);
                Invoice.payment := payment |}]> table).
Proof.
  intros Hn Hfresh x. rewrite elem_of_numbers_from. split.
  - intros (Hprefix & k & row & Hrow & <-).
    destruct (decide (k = pk)) as [->|Hk].
    + rewrite lookup_insert_eq in Hrow. injection Hrow as <-.
      exists (n + 1). split; [lia | reflexivity].
    + rewrite lookup_insert_ne in Hrow by congruence.
      destruct (proj1 (Hnumbered (Invoice.invoice_number row)))
        as (i & Hi & Hrow_i).
      { apply elem_of_numbers_from. split; [exact Hprefix |].
        by exists k, row. }
      exists i. split; [lia | exact Hrow_i].
  - intros (i & Hi & ->). split; [apply prefix_append |].
    destruct (Z.eq_dec i (n + 1)) as [->|Hi'].
    + eexists pk, _. rewrite lookup_insert_eq. split; reflexivity.
    + assert (Hin : Invoice.number_of ("INV" ++ timestamp) i
                    ∈ Invoice.numbers_from ("INV" ++ timestamp) table).
      { apply Hnumbered. exists i. split; [lia | reflexivity]. }
      apply elem_of_numbers_from in Hin as (_ & k & row & Hrow & Hnumber).
      exists k, row. split; [| exact Hnumber].
      rewrite lookup_insert_ne; [exact Hrow | congruence].
Qed.
End InvoiceNumbers.

Lemma day_table_rows (timestamp : string) (n : nat) k row :
  day_table timestamp n !! k = Some row ->
  1 <= k <= Z.of_nat n /\ Invoice.payment row = Z.to_N k.
Proof.
  induction n as [|m IH]; cbn [day_table]; [by rewrite lookup_empty |].
  destruct (decide (k = Z.of_nat (S m))) as [->|Hk].
  - rewrite lookup_insert_eq. intros [= <-]. cbn [Invoice.payment].
    split; lia.
  - rewrite lookup_insert_ne by congruence. intros Hrow.
    apply IH in Hrow. split; [lia | tauto].
Qed.

Lemma day_table_fresh (timestamp : string) (n : nat) k :
  Z.of_nat n < k -> day_table timestamp n !! k = None.
Proof.
  intros Hk. destruct (day_table timestamp n !! k) as [row|] eqn:Hrow;
    [| reflexivity].
  apply day_table_rows in Hrow. lia.
Qed.

Lemma day_table_numbered (timestamp : string) (n : nat) :
  Invoice.numbered ("INV" ++ timestamp) (Z.of_nat n) (day_table timestamp n).
Proof.
  induction n as [|m IH].
  - intros x. rewrite elem_of_numbers_from. split.
    + intros (_ & k & row & Hrow & _). cbn [day_table] in Hrow.
      by rewrite lookup_empty in Hrow.
    + intros (i & Hi & _). cbn in Hi. lia.
  - cbn [day_table]. rewrite Nat2Z.inj_succ, <- Z.add_1_r.
    apply numbered_insert; [exact IH | lia | apply day_table_fresh; lia].
Qed.

(** X22. Invoice numbers count up through the day. When the invoices of
    the day are numbered 1 to n, with n at most 999, saving an invoice that
    has no number, for a payment that has no invoice yet, stores it with
    the number n + 1 after INV and the day, written with three digits (four
    for 1000), and the day is then numbered 1 to n + 1. *)
Theorem invoice_numbers_count_up (pk : Z) (self : Invoice.t)
    (timestamp : string) (table : gmap Z Invoice.t) (n : Z) :
  0 <= n <= 999 ->
  Invoice.numbered ("INV" ++ timestamp) n table ->
  Invoice.invoice_number self = "" ->
  table !! pk = None ->
  (forall k other,
     table !! k = Some other ->
     Invoice.payment other <> Invoice.payment self) ->
  let issued :=
    {| Invoice.invoice_number :=
         Invoice.number_of ("INV" ++ timestamp) (n + 1);
       Invoice.payment := Invoice.payment self |} in
  Invoice.save pk self timestamp table
  = Invoice.saved issued (<[pk := issued]> table)
  /\ Invoice.numbered ("INV" ++ timestamp) (n + 1) (<[pk := issued]> table).
Proof.
  intros Hn Hnumbered Hblank Hfresh Hpayment issued. split.
  - unfold Invoice.save.
    rewrite bool_decide_eq_true_2 by exact Hblank.
    rewrite (new_number_numbered timestamp table n Hnumbered) by lia.
    replace (Z.min n 999) with n by lia. cbn [mbind option_bind].
    fold issued. rewrite bool_decide_eq_false_2; [reflexivity |].
    intros (k & other & Hother & _ & [Hnumber|Hsame]).
    + by apply (next_number_free timestamp table n Hnumbered k other).
    + by apply (Hpayment k other).
  - apply numbered_insert; [exact Hnumbered | lia | exact Hfresh].
Qed.

Lemma invoice_numbers_count_up_witness :
  Invoice.save 3 {| Invoice.invoice_number := ""; Invoice.payment := 7 |}
    "20250101" (day_table "20250101" 2)
  = Invoice.saved
      {| Invoice.invoice_number := "INV20250101003"; Invoice.payment := 7 |}
      (<[3 := {| Invoice.invoice_number := "INV20250101003";
                 Invoice.payment := 7 |}]> (day_table "20250101" 2)).
Proof.
  assert (Hn : 0 <= 2 <= 999) by lia.
  assert (Hfresh : day_table "20250101" 2 !! 3 = None) by reflexivity.
  assert (Hpayment : forall k other,
            day_table "20250101" 2 !! k = Some other ->
            Invoice.payment other <> 7%N).
  { intros k other Hother Hsame.
    apply day_table_rows in Hother as [Hk Hother]. lia. }
  exact (proj1 (invoice_numbers_count_up 3
                  {| Invoice.invoice_number := ""; Invoice.payment := 7 |}
                  "20250101" (day_table "20250101" 2) 2
                  Hn (day_table_numbered "20250101" 2) eq_refl
                  Hfresh Hpayment)).
Defined.

(** X23. The numbers of a day run out at 1000. The query orders the
    numbers as text, where the four-digit 1000 comes before 999: with the
    invoices of the day numbered 1 to 1000, an invoice that has no number
    is given the number 1000 once more, and [save] raises
    [IntegrityError] whatever payment it is for. *)
Theorem invoice_numbers_run_out (pk : Z) (self : Invoice.t)
    (timestamp : string) (table : gmap Z Invoice.t) :
  Invoice.numbered ("INV" ++ timestamp) 1000 table ->
  Invoice.invoice_number self = "" ->
  table !! pk = None ->
  Invoice.new_number timestamp table = Some ("INV" ++ timestamp ++ "1000")
  /\ Invoice.save pk self timestamp table
     = Invoice.raised Invoice.IntegrityError.
Proof.
  intros Hnumbered Hblank Hfresh.
  assert (Hnew : Invoice.new_number timestamp table
                 = Some ("INV" ++ timestamp ++ "1000")).
  { by rewrite (new_number_numbered timestamp table 1000 Hnumbered). }
  split; [exact Hnew |].
  unfold Invoice.save.
  rewrite bool_decide_eq_true_2 by exact Hblank.
  rewrite Hnew. cbn [mbind option_bind].
  rewrite bool_decide_eq_true_2; [reflexivity |].
  assert (Hin : Invoice.number_of ("INV" ++ timestamp) 1000
                ∈ Invoice.numbers_from ("INV" ++ timestamp) table).
  { apply Hnumbered. exists 1000. split; [lia | reflexivity]. }
  apply elem_of_numbers_from in Hin as (_ & k & other & Hother & Hnumber).
  exists k, other. split; [exact Hother |]. split; [congruence |].
  left. exact Hnumber.
Qed.

Lemma invoice_numbers_run_out_witness :
  Invoice.save 1001
    {| Invoice.invoice_number := ""; Invoice.payment := 1001 |}
    "20250101" (day_table "20250101" 1000)
  = Invoice.raised Invoice.IntegrityError.
Proof.
  assert (Hfresh : day_table "20250101" 1000 !! 1001 = None).
  { apply day_table_fresh. lia. }
  exact (proj2 (invoice_numbers_run_out 1001
                  {| Invoice.invoice_number := ""; Invoice.payment := 1001 |}
                  "20250101" (day_table "20250101" 1000)
                  (day_table_numbered "20250101" 1000) eq_refl Hfresh)).
Defined.
